(** * reddit-ideas-scanner: a shallow embedding of the scan pipeline

    The development follows the Python sources module by module:
    [models.py], [config.py], [extractor.py], [llm_assessor.py],
    [storage.py], [pipeline.py] and [reddit_client.py].  Python values are
    modelled as follows.

    - [str] is [string]; texts are taken to be ASCII, so that a character
      is one [ascii] and [lower()] is the ASCII case folding.
    - [int] is [Z].
    - [float] is the kernel's IEEE-754 binary64 [float]; arithmetic,
      comparisons, [min], [max] and [round] evaluate exactly as in CPython.
    - exceptions are values of [exn]; a call that may raise returns an
      [outcome].
    - an SQLite file is a record of three tables kept in rowid order, and
      the database files of a machine are a map from their paths.
    - a [datetime] is its POSIX time and the offset of its zone from UTC;
      the dates that [strftime] writes are computed from them.
    - collaborators that live outside the process (the clock, the Reddit
      client of a run, the notifier, the file system, the Gemini and Reddit
      endpoints and the C library's [log10]) are interfaces, given as type
      classes.
    - a [while] loop whose end depends on what the outside sends runs on
      fuel, and is shown to end where it does. *)

From Stdlib Require Import ZArith Floats Lia Ascii String List Permutation Sorted.
From stdpp Require Import gmap strings list pretty.

#[local] Set Warnings "-inexact-float".
#[local] Open Scope string_scope.
#[local] Open Scope Z_scope.
#[local] Disable Notation "_ ++ _" : string_scope.

(** ** Exceptions and results *)

(** The classes of the exceptions. [KeyboardInterrupt], [SystemExit] and
    [GeneratorExit] derive from [BaseException] and not from [Exception];
    the other classes named here derive from [Exception], and
    [OtherException] is any other class that does. *)
Inductive exc_class :=
| ValueError | RuntimeError | OverflowError | IntegrityError
| HTTPError | URLError | TimeoutError | JSONDecodeError
| OtherException (name : string)
| KeyboardInterrupt | SystemExit | GeneratorExit.

(** An exception object, an instance of [BaseException]: its class and
    its [str()]; [RaisedFrom] is an exception raised [from] another one,
    its [__cause__]. *)
Inductive exn :=
| Exception (cls : exc_class) (msg : string)
| RaisedFrom (cls : exc_class) (msg : string) (cause : exn).

Definition exc_cls (e : exn) : exc_class :=
  match e with Exception c _ | RaisedFrom c _ _ => c end.

(** [isinstance(exc, Exception)], which is what an [except Exception]
    clause tests. *)
Definition is_exception (e : exn) : bool :=
  match exc_cls e with
  | KeyboardInterrupt | SystemExit | GeneratorExit => false
  | _ => true
  end.
Definition exc_str (e : exn) : string :=
  match e with Exception _ m | RaisedFrom _ m _ => m end.
Definition exc_cause (e : exn) : option exn :=
  match e with Exception _ _ => None | RaisedFrom _ _ c => Some c end.

(** [type(exc).__name__] *)
Definition type_name (c : exc_class) : string :=
  match c with
  | ValueError => "ValueError"
  | RuntimeError => "RuntimeError"
  | OverflowError => "OverflowError"
  | IntegrityError => "IntegrityError"
  | HTTPError => "HTTPError"
  | URLError => "URLError"
  | TimeoutError => "TimeoutError"
  | JSONDecodeError => "JSONDecodeError"
  | OtherException n => n
  | KeyboardInterrupt => "KeyboardInterrupt"
  | SystemExit => "SystemExit"
  | GeneratorExit => "GeneratorExit"
  end.

Inductive outcome (A : Type) :=
| Return (a : A)
| Raise (e : exn).
Arguments Return {A} a.
Arguments Raise {A} e.

(** ** Python floats *)

Module PyFloat.

(** A float other than NaN. *)
Definition is_number (x : float) : Prop := PrimFloat.is_nan x = false.

(** [a < b], [a <= b], [a == b] *)
Definition lt (a b : float) : bool := PrimFloat.ltb a b.
Definition le (a b : float) : bool := PrimFloat.leb a b.
Definition eq (a b : float) : bool := PrimFloat.eqb a b.

(** The builtins [min(a, b)] and [max(a, b)]: the first argument is kept
    unless the second one compares strictly better. *)
Definition min (a b : float) : float := if lt b a then b else a.
Definition max (a b : float) : float := if lt a b then b else a.

(** [float(n)] for an [int] [n], correctly rounded. *)
Definition of_int (n : Z) : float := SF2Prim (binary_normalize prec emax n 0 false).

(** The integer nearest to [m * 2^e * k], ties to even: the decimal
    digits CPython's [round] obtains from the exact binary value. *)
Definition scaled_half_even (k : Z) (m : positive) (e : Z) : Z :=
  let num := Z.pos m * k * (if 0 <=? e then 2 ^ e else 1) in
  let den := if 0 <=? e then 1 else 2 ^ (- e) in
  let q := num / den in
  let r := num mod den in
  match 2 * r ?= den with
  | Lt => q
  | Gt => q + 1
  | Eq => if Z.even q then q else q + 1
  end.

(** [round(x, ndigits)] for [ndigits >= 0]: the exact value of [x] is
    rounded half-even to [ndigits] decimals and the decimal result is
    converted back to the nearest double; infinities and NaN round to
    themselves. *)
Definition round (x : float) (ndigits : Z) : float :=
  match Prim2SF x with
  | S754_finite s m e =>
      match scaled_half_even (10 ^ ndigits) m e with
      | Zpos n =>
          SF2Prim (SFdiv prec emax (S754_finite s n 0)
                     (S754_finite false (Z.to_pos (10 ^ ndigits)) 0))
      | _ => if s then (-0)%float else 0%float
      end
  | _ => x
  end.

End PyFloat.

(** ** Python strings *)

Module PyStr.

Definition code (c : ascii) : N := N_of_ascii c.
Definition between (lo hi : N) (c : ascii) : bool :=
  ((lo <=? code c) && (code c <=? hi))%N.

Definition is_upper (c : ascii) : bool := between 65 90 c.
Definition is_lower (c : ascii) : bool := between 97 122 c.
Definition is_digit (c : ascii) : bool := between 48 57 c.

(** [str.isspace] on ASCII: TAB..CR, FS..US and the blank. *)
Definition is_space (c : ascii) : bool :=
  between 9 13 c || between 28 32 c.

Definition lower_char (c : ascii) : ascii :=
  if is_upper c then ascii_of_N (code c + 32) else c.

(** [s.lower()] *)
Fixpoint lower (s : string) : string :=
  match s with
  | EmptyString => EmptyString
  | String c s' => String (lower_char c) (lower s')
  end.

Fixpoint lstrip (s : string) : string :=
  match s with
  | EmptyString => EmptyString
  | String c s' => if is_space c then lstrip s' else s
  end.

Fixpoint rstrip (s : string) : string :=
  match s with
  | EmptyString => EmptyString
  | String c s' =>
      match rstrip s' with
      | EmptyString => if is_space c then EmptyString else String c EmptyString
      | r => String c r
      end
  end.

(** [s.strip()] *)
Definition strip (s : string) : string := rstrip (lstrip s).

(** [pattern in text] *)
Fixpoint contains (pattern text : string) : bool :=
  String.prefix pattern text ||
  match text with
  | EmptyString => false
  | String _ text' => contains pattern text'
  end.

(** [c in text] for a single character. *)
Fixpoint has_char (c : ascii) (text : string) : bool :=
  match text with
  | EmptyString => false
  | String d text' => Ascii.eqb c d || has_char c text'
  end.

(** [s[:n]] *)
Fixpoint take (n : nat) (s : string) : string :=
  match n, s with
  | O, _ => EmptyString
  | _, EmptyString => EmptyString
  | S n', String c s' => String c (take n' s')
  end.

(** [bool(s)] *)
Definition truthy (s : string) : bool :=
  match s with EmptyString => false | _ => true end.

(** [sep.join(parts)] for a one-character separator. *)
Fixpoint join (sep : ascii) (parts : list string) : string :=
  match parts with
  | [] => EmptyString
  | [p] => p
  | p :: ps => String.append p (String sep (join sep ps))
  end.

(** The piece in progress and the pieces after it, for [s.split(sep)]. *)
Fixpoint split_from (sep : ascii) (s : string) : string * list string :=
  match s with
  | EmptyString => (EmptyString, [])
  | String c s' =>
      let '(p, ps) := split_from sep s' in
      if Ascii.eqb c sep then (EmptyString, p :: ps) else (String c p, ps)
  end.

(** [s.split(sep)] *)
Definition split (sep : ascii) (s : string) : list string :=
  let '(p, ps) := split_from sep s in p :: ps.

(** [re.split(cls+, s)] for a character class [cls]: the piece in
    progress and the pieces after it; [in_run] tells that the previous
    character belonged to a separator run. *)
Fixpoint re_split_from (cls : ascii -> bool) (in_run : bool) (s : string)
  : string * list string :=
  match s with
  | EmptyString => (EmptyString, [])
  | String c s' =>
      if cls c then
        let '(p, ps) := re_split_from cls true s' in
        if in_run then (p, ps) else (EmptyString, p :: ps)
      else
        let '(p, ps) := re_split_from cls false s' in (String c p, ps)
  end.

Definition re_split (cls : ascii -> bool) (s : string) : list string :=
  let '(p, ps) := re_split_from cls false s in p :: ps.

(** [re.findall(first rest*, s)] for character classes [first] and
    [rest] with [first] included in [rest]: [cur] is the token being
    read, if any. *)
Fixpoint findall_from (first rest : ascii -> bool) (cur : option string) (s : string)
  : list string :=
  match s with
  | EmptyString => match cur with Some t => [String.rev t] | None => [] end
  | String c s' =>
      match cur with
      | Some t =>
          if rest c then findall_from first rest (Some (String c t)) s'
          else String.rev t :: findall_from first rest None s'
      | None =>
          if first c then findall_from first rest (Some (String c EmptyString)) s'
          else findall_from first rest None s'
      end
  end.

Definition findall (first rest : ascii -> bool) (s : string) : list string :=
  findall_from first rest None s.

(** [x in xs] for a list of strings. *)
Definition mem (x : string) (xs : list string) : bool :=
  existsb (String.eqb x) xs.

(** Insertion into a strictly increasing list of strings. *)
Fixpoint insert_sorted (x : string) (xs : list string) : list string :=
  match xs with
  | [] => [x]
  | y :: ys =>
      match String.compare x y with
      | Lt => x :: xs
      | Eq => xs
      | Gt => y :: insert_sorted x ys
      end
  end.

(** [sorted(set(xs))] *)
Definition sorted_set (xs : list string) : list string :=
  fold_right insert_sorted [] xs.

End PyStr.

(** ** Stable sorting

    [sort_by before xs] orders [xs] so that [a] precedes [b] whenever
    [before a b], and keeps the relative order of elements that [before]
    does not separate.  It stands for Python's stable sorts and for
    SQL's ORDER BY over the rows in rowid order; the result of such a sort
    is determined as long as [before] is a strict weak order. *)

Section StableSort.
Context {A : Type} (before : A -> A -> bool).

Fixpoint insert_by (x : A) (xs : list A) : list A :=
  match xs with
  | [] => [x]
  | y :: ys => if before y x then y :: insert_by x ys else x :: xs
  end.

Definition sort_by (xs : list A) : list A := fold_right insert_by [] xs.
End StableSort.

(** [xs.sort(key=key, reverse=True)] and [sorted(xs, key=key, reverse=True)]
    for a float key: by decreasing key, ties in their original order. The
    keys are ordered by [<] when none of them is NaN. *)
Definition sort_desc {A : Type} (key : A -> float) (xs : list A) : list A :=
  sort_by (fun a b => PyFloat.lt (key b) (key a)) xs.

(** [a] may stand before [b] in a list that is sorted best first. *)
Definition not_below {A : Type} (key : A -> float) (a b : A) : Prop :=
  PyFloat.le (key b) (key a) = true.

(** No key is NaN. *)
Definition numbers {A : Type} (key : A -> float) (xs : list A) : Prop :=
  Forall (fun a => PyFloat.is_number (key a)) xs.

(** ** models.py *)

Module RedditPost.
Record t := mk {
  post_id : string;
  subreddit : string;
  title : string;
  selftext : string;
  permalink : string;
  url : string;
  author : string;
  created_utc : Z;
  num_comments : Z;
  upvotes : Z;
  is_self : bool
}.
End RedditPost.

Module IdeaCandidate.
Record t := mk {
  post_id : string;
  subreddit : string;
  title : string;
  problem_summary : string;
  solution_hint : string;
  relevance_score : float;
  reason_tags : list string;
  created_utc : Z;
  permalink : string;
  url : string;
  author : string;
  num_comments : Z;
  upvotes : Z;
  llm_profit_score : option float;
  llm_confidence : option float
}.

(** Attribute assignments [idea.field = value]. *)
Definition set_problem_summary (v : string) (i : t) : t :=
  mk (post_id i) (subreddit i) (title i) v (solution_hint i) (relevance_score i)
     (reason_tags i) (created_utc i) (permalink i) (url i) (author i)
     (num_comments i) (upvotes i) (llm_profit_score i) (llm_confidence i).
Definition set_solution_hint (v : string) (i : t) : t :=
  mk (post_id i) (subreddit i) (title i) (problem_summary i) v (relevance_score i)
     (reason_tags i) (created_utc i) (permalink i) (url i) (author i)
     (num_comments i) (upvotes i) (llm_profit_score i) (llm_confidence i).
Definition set_relevance_score (v : float) (i : t) : t :=
  mk (post_id i) (subreddit i) (title i) (problem_summary i) (solution_hint i) v
     (reason_tags i) (created_utc i) (permalink i) (url i) (author i)
     (num_comments i) (upvotes i) (llm_profit_score i) (llm_confidence i).
Definition set_reason_tags (v : list string) (i : t) : t :=
  mk (post_id i) (subreddit i) (title i) (problem_summary i) (solution_hint i)
     (relevance_score i) v (created_utc i) (permalink i) (url i) (author i)
     (num_comments i) (upvotes i) (llm_profit_score i) (llm_confidence i).
Definition set_llm_profit_score (v : option float) (i : t) : t :=
  mk (post_id i) (subreddit i) (title i) (problem_summary i) (solution_hint i)
     (relevance_score i) (reason_tags i) (created_utc i) (permalink i) (url i)
     (author i) (num_comments i) (upvotes i) v (llm_confidence i).
Definition set_llm_confidence (v : option float) (i : t) : t :=
  mk (post_id i) (subreddit i) (title i) (problem_summary i) (solution_hint i)
     (relevance_score i) (reason_tags i) (created_utc i) (permalink i) (url i)
     (author i) (num_comments i) (upvotes i) (llm_profit_score i) v.
End IdeaCandidate.

(** ** config.py *)

Module SmtpConfig.
Record t := mk {
  host : string; port : Z; user : string; password : string; email_to : string
}.
End SmtpConfig.

Module TelegramConfig.
Record t := mk { bot_token : string; chat_id : string }.
End TelegramConfig.

Module GeminiConfig.
Record t := mk {
  enabled : bool;
  api_key : string;
  model : string;
  temperature : float;
  max_candidates : Z;
  timeout_seconds : Z
}.
End GeminiConfig.

Module AppConfig.
Record t := mk {
  subreddits : list string;
  lookback_hours : Z;
  max_posts_per_subreddit : Z;
  min_score : float;
  report_top_n : Z;
  data_dir : string;           (* str(config.data_dir) *)
  output_dir : string;         (* str(config.output_dir) *)
  user_agent : string;
  include_keywords : list string;
  exclude_keywords : list string;
  smtp : option SmtpConfig.t;
  telegram : option TelegramConfig.t;
  gemini : option GeminiConfig.t
}.
End AppConfig.

(** The first argument of [_csv_to_list]: [None], a list of strings or a
    string. *)
Inductive csv_value :=
| CsvNone
| CsvList (items : list string)
| CsvStr (text : string).

(** [[item.strip() for item in items if item and item.strip()]] *)
Definition stripped_items (items : list string) : list string :=
  map PyStr.strip
    (filter (fun item => PyStr.truthy item && PyStr.truthy (PyStr.strip item)) items).

Definition _csv_to_list (value : csv_value) (default : list string) : list string :=
  match value with
  | CsvNone => default
  | CsvList items => stripped_items items
  | CsvStr text => stripped_items (PyStr.split "," text)
  end.

(** ** extractor.py *)

(** [math.log10] applied to an [int] that is at least one: the value is
    whatever the platform's C library returns. *)
Class Libm := { math_log10 : Z -> float }.

Definition newline : ascii := "010"%char.

(** The character classes of [WORD_RE = [a-zA-Z_][a-zA-Z0-9_+-]*]. *)
Definition word_first (c : ascii) : bool :=
  PyStr.is_lower c || PyStr.is_upper c || Ascii.eqb c "_".
Definition word_rest (c : ascii) : bool :=
  word_first c || PyStr.is_digit c || Ascii.eqb c "+" || Ascii.eqb c "-".

Definition PAIN_SIGNALS : list string :=
  ["problem"; "issue"; "frustrat"; "pain"; "manual"; "slow"; "time-consuming"; "stuck"].
Definition SOLUTION_SIGNALS : list string :=
  ["automate"; "tool"; "app"; "website"; "script"; "plugin"; "bot"; "saas"].
Definition MONETIZATION_SIGNALS : list string :=
  ["passive income"; "subscription"; "monetiz"; "affiliate"; "mrr"; "side hustle"].

Definition _contains_any (text : string) (patterns : list string) : bool :=
  existsb (fun pattern => PyStr.contains pattern text) patterns.

Definition _keyword_hits (text : string) (keywords : list string) : Z :=
  Z.of_nat (length (filter (fun keyword => PyStr.contains (PyStr.lower keyword) text) keywords)).

Definition _tokenize (text : string) : list string :=
  PyStr.findall word_first word_rest (PyStr.lower text).

(** [f"{post.title}\n{post.selftext}".lower()] *)
Definition post_text (post : RedditPost.t) : string :=
  PyStr.lower (String.append (RedditPost.title post)
                 (String newline (RedditPost.selftext post))).

Definition score_post `{Libm} (post : RedditPost.t) (config : AppConfig.t)
  : float * list string :=
  let text := post_text post in
  let tags : list string := [] in
  let score : float := 0%float in
  let include_hits := _keyword_hits text (AppConfig.include_keywords config) in
  let '(score, tags) :=
    if include_hits =? 0 then (score, tags)
    else ((score + PyFloat.min (PyFloat.of_int include_hits * 0.45) 3.0)%float,
          (tags ++ ["keyword_match"])%list) in
  let exclude_hits := _keyword_hits text (AppConfig.exclude_keywords config) in
  let '(score, tags) :=
    if exclude_hits =? 0 then (score, tags)
    else ((score - PyFloat.min (PyFloat.of_int exclude_hits * 0.9) 2.5)%float,
          (tags ++ ["noise_signal"])%list) in
  let '(score, tags) :=
    if _contains_any text PAIN_SIGNALS
    then ((score + 0.9)%float, (tags ++ ["pain_point"])%list) else (score, tags) in
  let '(score, tags) :=
    if _contains_any text SOLUTION_SIGNALS
    then ((score + 0.9)%float, (tags ++ ["solution_possible"])%list) else (score, tags) in
  let '(score, tags) :=
    if _contains_any text MONETIZATION_SIGNALS
    then ((score + 1.1)%float, (tags ++ ["monetization"])%list) else (score, tags) in
  let score :=
    (score + PyFloat.min (math_log10 (Z.max (RedditPost.num_comments post) 1)) 1.0 * 0.5)%float in
  let score :=
    (score + PyFloat.min (math_log10 (Z.max (RedditPost.upvotes post) 1)) 2.0 * 0.35)%float in
  let title_tokens := _tokenize (RedditPost.title post) in
  let score :=
    if (6 <=? length title_tokens)%nat then (score + 0.2)%float else score in
  let '(score, tags) :=
    if PyStr.has_char "?" (RedditPost.title post)
    then ((score + 0.25)%float, (tags ++ ["question"])%list) else (score, tags) in
  let score :=
    if PyStr.contains "discussion" text || PyStr.contains "idea" text
       || PyStr.contains "feedback" text
    then (score + 0.15)%float else score in
  let tags := match tags with [] => (tags ++ ["low_signal"])%list | _ => tags end in
  let tags := PyStr.sorted_set tags in
  (score, tags).

(** The separators of [re.split(r"[.!?\n]+", text)]. *)
Definition sentence_sep (c : ascii) : bool :=
  Ascii.eqb c "." || Ascii.eqb c "!" || Ascii.eqb c "?" || Ascii.eqb c newline.

(** The [for sentence in sentences] loop of [derive_problem_summary]:
    the value it returns, or [None] when the loop runs to its end. *)
Fixpoint first_pain_sentence (sentences : list string) : option string :=
  match sentences with
  | [] => None
  | sentence :: rest =>
      let s := PyStr.strip sentence in
      if negb (PyStr.truthy s) then first_pain_sentence rest
      else
        let lower_s := PyStr.lower s in
        if _contains_any lower_s PAIN_SIGNALS then Some (PyStr.take 220 s)
        else first_pain_sentence rest
  end.

Definition derive_problem_summary (post : RedditPost.t) : string :=
  let text := PyStr.strip (RedditPost.selftext post) in
  if negb (PyStr.truthy text) then PyStr.take 220 (RedditPost.title post)
  else
    let sentences := PyStr.re_split sentence_sep text in
    match first_pain_sentence sentences with
    | Some s => s
    | None =>
        let first := match sentences with
                     | s0 :: _ => PyStr.strip s0
                     | [] => EmptyString
                     end in
        if PyStr.truthy first then PyStr.take 220 first
        else PyStr.take 220 (RedditPost.title post)
    end.

(** A sentence in which the loop of [derive_problem_summary] stops. *)
Definition has_pain_signal (sentence : string) : bool :=
  PyStr.truthy (PyStr.strip sentence)
  && _contains_any (PyStr.lower (PyStr.strip sentence)) PAIN_SIGNALS.

(** The summary as the specification words it: the first sentence with a
    pain signal and, without one, the first sentence that is not empty,
    else the title. *)
Definition summary_by_first_nonempty_sentence (post : RedditPost.t) : string :=
  let sentences := PyStr.re_split sentence_sep (PyStr.strip (RedditPost.selftext post)) in
  match find has_pain_signal sentences with
  | Some sentence => PyStr.take 220 (PyStr.strip sentence)
  | None =>
      match find (fun sentence => PyStr.truthy (PyStr.strip sentence)) sentences with
      | Some sentence => PyStr.take 220 (PyStr.strip sentence)
      | None => PyStr.take 220 (RedditPost.title post)
      end
  end.

Definition derive_solution_hint (post : RedditPost.t) (tags : list string) : string :=
  let text := post_text post in
  if PyStr.mem "monetization" tags then
    "Test a lightweight SaaS or template product with recurring pricing."
  else if _contains_any text ["freelance"; "client"; "proposal"; "invoice"] then
    "Build a workflow helper for freelancers with automation and reporting."
  else if _contains_any text ["vibe coding"; "coding agent"; "prompt"; "ai tool"] then
    "Create an AI-assisted coding utility focused on one repetitive task."
  else if _contains_any text ["team"; "manager"; "meeting"; "calendar"] then
    "Package this pain point into a micro-tool that reduces daily coordination work."
  else
    "Validate demand with a small automation tool and a narrow landing page.".

(** The [IdeaCandidate(...)] built for a post that passed the threshold. *)
Definition idea_of_post (post : RedditPost.t) (score : float) (tags : list string)
  : IdeaCandidate.t :=
  {| IdeaCandidate.post_id := RedditPost.post_id post;
     IdeaCandidate.subreddit := RedditPost.subreddit post;
     IdeaCandidate.title := RedditPost.title post;
     IdeaCandidate.problem_summary := derive_problem_summary post;
     IdeaCandidate.solution_hint := derive_solution_hint post tags;
     IdeaCandidate.relevance_score := PyFloat.round score 3;
     IdeaCandidate.reason_tags := tags;
     IdeaCandidate.created_utc := RedditPost.created_utc post;
     IdeaCandidate.permalink := RedditPost.permalink post;
     IdeaCandidate.url := RedditPost.url post;
     IdeaCandidate.author := RedditPost.author post;
     IdeaCandidate.num_comments := RedditPost.num_comments post;
     IdeaCandidate.upvotes := RedditPost.upvotes post;
     IdeaCandidate.llm_profit_score := None;
     IdeaCandidate.llm_confidence := None |}.

(** The idea that [extract_ideas] builds for a post. *)
Definition extracted_idea `{Libm} (post : RedditPost.t) (config : AppConfig.t)
  : IdeaCandidate.t :=
  let '(score, tags) := score_post post config in idea_of_post post score tags.

(** The [for post in posts] loop of [extract_ideas]: the list [ideas]
    it has appended to. *)
Fixpoint extract_loop `{Libm} (posts : list RedditPost.t) (config : AppConfig.t)
  : list IdeaCandidate.t :=
  match posts with
  | [] => []
  | post :: rest =>
      let '(score, tags) := score_post post config in
      if PyFloat.lt score (AppConfig.min_score config) then extract_loop rest config
      else idea_of_post post score tags :: extract_loop rest config
  end.

Definition extract_ideas `{Libm} (posts : list RedditPost.t) (config : AppConfig.t)
  : list IdeaCandidate.t :=
  let ideas := extract_loop posts config in
  sort_desc IdeaCandidate.relevance_score ideas.

(** A [Counter]: a dict from keys to counts, in the order in which the
    keys were first counted. [counter_incr] is [counts[key] += 1]. *)
Fixpoint counter_incr (key : string) (counts : list (string * Z)) : list (string * Z) :=
  match counts with
  | [] => [(key, 1)]
  | (k, n) :: rest =>
      if String.eqb k key then (k, n + 1) :: rest else (k, n) :: counter_incr key rest
  end.

(** [counts.most_common()]: the items by decreasing count, items of equal
    count in the order of the dict. *)
Definition most_common (counts : list (string * Z)) : list (string * Z) :=
  sort_by (fun a b => snd b <? snd a) counts.

Definition summarize_themes (ideas : list IdeaCandidate.t) : list (string * Z) :=
  let counts :=
    fold_left
      (fun counts idea =>
         fold_left (fun counts tag => counter_incr tag counts)
           (IdeaCandidate.reason_tags idea) counts)
      ideas [] in
  most_common counts.

(** The tags that [summarize_themes] counts, in the order in which it
    reads them. *)
Definition all_tags (ideas : list IdeaCandidate.t) : list string :=
  concat (map IdeaCandidate.reason_tags ideas).

(** The number of occurrences of a string in a list. *)
Definition occurrences (x : string) (xs : list string) : Z :=
  Z.of_nat (length (filter (fun y => y = x) xs)).

(** A list of strings in strictly increasing order, the order of
    [sorted(set(...))]. *)
Definition increasing (xs : list string) : Prop :=
  Sorted (fun a b => String.compare a b = Lt) xs.

(** The labels that [score_post] gives. *)
Definition SCORE_TAGS : list string :=
  ["keyword_match"; "noise_signal"; "pain_point"; "solution_possible"; "monetization";
   "question"; "low_signal"].

(** The tags of [score_post] as they depend on the six tests that give a
    tag: the appends in the order of the source, the fallback and
    [sorted(set(tags))]. *)
Definition tags_of (b1 b2 b3 b4 b5 b6 : bool) : list string :=
  let tags : list string := [] in
  let tags := if b1 then tags ++ ["keyword_match"] else tags in
  let tags := if b2 then tags ++ ["noise_signal"] else tags in
  let tags := if b3 then tags ++ ["pain_point"] else tags in
  let tags := if b4 then tags ++ ["solution_possible"] else tags in
  let tags := if b5 then tags ++ ["monetization"] else tags in
  let tags := if b6 then tags ++ ["question"] else tags in
  let tags := match tags with [] => tags ++ ["low_signal"] | _ => tags end in
  PyStr.sorted_set tags.

(** [counts.get(key)] *)
Definition count_of (key : string) (counts : list (string * Z)) : option Z :=
  snd <$> find (fun item => String.eqb (fst item) key) counts.

(** ** llm_assessor.py *)

Module GeminiAssessment.
Record t := mk {
  profit_score : float;
  confidence : float;
  summary : string;
  monetization_hint : string;
  reason_tags : list string
}.
End GeminiAssessment.

(** The object passed as [assessor]: anything with an [assess] method.
    [A] is the state of the object; a call may change it, and either
    returns an assessment, returns [None], or raises. *)
Class Assessor (A : Type) :=
  assess : A -> RedditPost.t -> IdeaCandidate.t -> A * outcome (option GeminiAssessment.t).

(** The JSON object of a reply, field by field: a number field is [None]
    when [float(value)] fails, the tag field is [None] when it is not a
    list. *)
Module ParsedReply.
Record t := mk {
  profit_score : option float;
  confidence : option float;
  summary : string;
  monetization_hint : string;
  reason_tags : option (list string)
}.
End ParsedReply.

(** One [urlopen] attempt: either a decoded response, whose text holds a
    JSON object or not ([None]), or an exception. *)
Inductive attempt :=
| Response (reply : option ParsedReply.t)
| Failure (e : exn).

(** The Gemini endpoint as seen from the process. [N] is the state of the
    outside world; the request is determined by the configuration, the
    post and the idea. *)
Class GeminiEndpoint (N : Type) := {
  urlopen : N -> GeminiConfig.t -> RedditPost.t -> IdeaCandidate.t -> N * attempt;
  sleep : N -> float -> N
}.

Module GeminiAssessor.
Record t (N : Type) := mk {
  config : GeminiConfig.t;
  max_retries : Z;
  net : N
}.
Arguments mk {N} _ _ _.
Arguments config {N} _.
Arguments max_retries {N} _.
Arguments net {N} _.

Definition set_net {N} (n : N) (self : t N) : t N :=
  mk (config self) (max_retries self) n.
End GeminiAssessor.

(** The classes named by the [except] clause of [_generate_content]. *)
Definition retried (e : exn) : bool :=
  match exc_cls e with
  | HTTPError | URLError | TimeoutError | JSONDecodeError => true
  | _ => false
  end.

(** [if attempt < self.max_retries: time.sleep(1.2 * attempt)] *)
Definition backoff {N} `{GeminiEndpoint N} (attempt : Z) (self : GeminiAssessor.t N)
  : GeminiAssessor.t N :=
  if attempt <? GeminiAssessor.max_retries self
  then GeminiAssessor.set_net
         (sleep (GeminiAssessor.net self) (1.2 * PyFloat.of_int attempt)%float) self
  else self.

(** The [for attempt in range(1, self.max_retries + 1)] loop of
    [_generate_content], from attempt number [attempt] with [remaining]
    iterations to go, and the two [raise] statements after it. *)
Fixpoint generate_loop {N} `{GeminiEndpoint N} (remaining : nat) (attempt : Z)
  (self : GeminiAssessor.t N) (post : RedditPost.t) (idea : IdeaCandidate.t)
  (last_error : option exn) : GeminiAssessor.t N * outcome (option ParsedReply.t) :=
  match remaining with
  | O =>
      match last_error with
      | None => (self, Raise (Exception RuntimeError "Gemini request failed with unknown error."))
      | Some e => (self, Raise (RaisedFrom RuntimeError "Gemini request failed." e))
      end
  | S remaining' =>
      let '(n, r) := urlopen (GeminiAssessor.net self) (GeminiAssessor.config self) post idea in
      let self := GeminiAssessor.set_net n self in
      match r with
      | Response reply => (self, Return reply)
      | Failure exc =>
          if retried exc then
            generate_loop remaining' (attempt + 1) (backoff attempt self) post idea (Some exc)
          else (self, Raise exc)
      end
  end.

(** Each of the [remaining] attempts, from attempt number [attempt] on,
    ends in an exception of a class that the loop retries. *)
Fixpoint all_attempts_fail {N} `{GeminiEndpoint N} (remaining : nat) (attempt : Z)
  (self : GeminiAssessor.t N) (post : RedditPost.t) (idea : IdeaCandidate.t) : Prop :=
  match remaining with
  | O => True
  | S remaining' =>
      exists n exc,
        urlopen (GeminiAssessor.net self) (GeminiAssessor.config self) post idea
        = (n, Failure exc)
        /\ retried exc = true
        /\ all_attempts_fail remaining' (attempt + 1)
             (backoff attempt (GeminiAssessor.set_net n self)) post idea
  end.

Definition _generate_content {N} `{GeminiEndpoint N} (self : GeminiAssessor.t N)
  (post : RedditPost.t) (idea : IdeaCandidate.t)
  : GeminiAssessor.t N * outcome (option ParsedReply.t) :=
  generate_loop (Z.to_nat (GeminiAssessor.max_retries self)) 1 self post idea None.

(** The assessor after [failed] attempts, from attempt number [attempt]
    on, that all ended in an exception of a retried class, and the last of
    these exceptions; [None] when one of the attempts ends otherwise. *)
Fixpoint after_failures {N} `{GeminiEndpoint N} (failed : nat) (attempt : Z)
  (self : GeminiAssessor.t N) (post : RedditPost.t) (idea : IdeaCandidate.t)
  (last_error : option exn) : option (GeminiAssessor.t N * option exn) :=
  match failed with
  | O => Some (self, last_error)
  | S failed' =>
      match urlopen (GeminiAssessor.net self) (GeminiAssessor.config self) post idea with
      | (n, Failure exc) =>
          if retried exc then
            after_failures failed' (attempt + 1)
              (backoff attempt (GeminiAssessor.set_net n self)) post idea (Some exc)
          else None
      | (_, Response _) => None
      end
  end.

Definition _clamp_float (value : option float) (minimum maximum fallback : float) : float :=
  match value with
  | None => fallback
  | Some parsed => PyFloat.max (PyFloat.min parsed maximum) minimum
  end.

Fixpoint replace_char (old new : ascii) (s : string) : string :=
  match s with
  | EmptyString => EmptyString
  | String c s' => String (if Ascii.eqb c old then new else c) (replace_char old new s')
  end.

Fixpoint keep_chars (cls : ascii -> bool) (s : string) : string :=
  match s with
  | EmptyString => EmptyString
  | String c s' => if cls c then String c (keep_chars cls s') else keep_chars cls s'
  end.

(** The characters that [re.sub(r"[^a-z0-9_]+", "", tag)] keeps. *)
Definition tag_char (c : ascii) : bool :=
  PyStr.is_lower c || PyStr.is_digit c || Ascii.eqb c "_".

Fixpoint normalize_loop (items : list string) : list string :=
  match items with
  | [] => []
  | item :: rest =>
      let tag := replace_char " " "_" (PyStr.lower (PyStr.strip item)) in
      let tag := keep_chars tag_char tag in
      if PyStr.truthy tag
      then String.append "llm_" (PyStr.take 24 tag) :: normalize_loop rest
      else normalize_loop rest
  end.

Definition _normalize_reason_tags (value : option (list string)) : list string :=
  match value with
  | None => []
  | Some items => PyStr.sorted_set (normalize_loop (firstn 3 items))
  end.

(** [GeminiAssessor.assess] *)
Definition gemini_assess {N} `{GeminiEndpoint N} (self : GeminiAssessor.t N)
  (post : RedditPost.t) (idea : IdeaCandidate.t)
  : GeminiAssessor.t N * outcome (option GeminiAssessment.t) :=
  let '(self, response) := _generate_content self post idea in
  match response with
  | Raise e => (self, Raise e)
  | Return None => (self, Return None)
  | Return (Some parsed) =>
      let profit_score := _clamp_float (ParsedReply.profit_score parsed) 0.0 100.0 50.0 in
      let confidence := _clamp_float (ParsedReply.confidence parsed) 0.0 1.0 0.5 in
      let summary := PyStr.take 240 (PyStr.strip (ParsedReply.summary parsed)) in
      let monetization_hint :=
        PyStr.take 220 (PyStr.strip (ParsedReply.monetization_hint parsed)) in
      let reason_tags := _normalize_reason_tags (ParsedReply.reason_tags parsed) in
      (self, Return (Some (GeminiAssessment.mk profit_score confidence summary
                             monetization_hint reason_tags)))
  end.

#[export] Instance GeminiAssessor_Assessor {N} `{GeminiEndpoint N}
  : Assessor (GeminiAssessor.t N) := gemini_assess.

(** The statements of the loop body of [enrich_ideas_with_gemini] that
    follow [if assessment is None: continue], applied to the idea object. *)
Definition merge_assessment (idea : IdeaCandidate.t) (assessment : GeminiAssessment.t)
  : IdeaCandidate.t :=
  let idea :=
    if PyStr.truthy (GeminiAssessment.summary assessment)
    then IdeaCandidate.set_problem_summary (GeminiAssessment.summary assessment) idea
    else idea in
  let idea :=
    if PyStr.truthy (GeminiAssessment.monetization_hint assessment)
    then IdeaCandidate.set_solution_hint (GeminiAssessment.monetization_hint assessment) idea
    else idea in
  let idea :=
    IdeaCandidate.set_llm_profit_score
      (Some (PyFloat.round (GeminiAssessment.profit_score assessment) 2)) idea in
  let idea :=
    IdeaCandidate.set_llm_confidence
      (Some (PyFloat.round (GeminiAssessment.confidence assessment) 3)) idea in
  let idea :=
    IdeaCandidate.set_relevance_score
      (PyFloat.round
         (IdeaCandidate.relevance_score idea * 0.35
          + GeminiAssessment.profit_score assessment / 10.0 * 0.65)%float 3) idea in
  let reason_tags :=
    PyStr.sorted_set
      (IdeaCandidate.reason_tags idea
         ++ "llm_assessed" :: GeminiAssessment.reason_tags assessment)%list in
  IdeaCandidate.set_reason_tags reason_tags idea.

(** Idea objects are shared between the caller's list [ideas] and the
    lists built from it, and are updated in place. The objects are kept in
    a store, the caller's list in its order; a reference is an index into
    the store. The objects of the list are distinct, as they are in the
    lists that [extract_ideas] and [get_ideas_since] build. *)
Abbreviation store := (list IdeaCandidate.t).

Definition ref_score (heap : store) (r : nat) : float :=
  from_option IdeaCandidate.relevance_score 0%float (heap !! r).

(** [{post.post_id: post for post in posts}] *)
Definition build_post_by_id (posts : list RedditPost.t) : gmap string RedditPost.t :=
  fold_left (fun m post => <[RedditPost.post_id post := post]> m) posts ∅.

(** What a call of [enrich_ideas_with_gemini] leaves behind: the assessor
    after its calls, the objects of the caller's list, the arguments of
    the [assess] calls in order, and the returned list or the exception
    that escaped. *)
Record enrich_result (A : Type) := mk_enrich_result {
  er_assessor : A;
  er_ideas : store;
  er_calls : list (RedditPost.t * IdeaCandidate.t);
  er_result : outcome (list IdeaCandidate.t)
}.
Arguments mk_enrich_result {A} _ _ _ _.
Arguments er_assessor {A} _.
Arguments er_ideas {A} _.
Arguments er_calls {A} _.
Arguments er_result {A} _.

(** The [for idea in target_ideas] loop. *)
Fixpoint enrich_loop {A} `{Assessor A} (post_by_id : gmap string RedditPost.t)
  (target_ideas : list nat) (assessor : A) (heap : store)
  (calls : list (RedditPost.t * IdeaCandidate.t))
  : A * store * list (RedditPost.t * IdeaCandidate.t) * outcome unit :=
  match target_ideas with
  | [] => (assessor, heap, calls, Return tt)
  | r :: rest =>
      match heap !! r with
      | None => enrich_loop post_by_id rest assessor heap calls
      | Some idea =>
          match post_by_id !! IdeaCandidate.post_id idea with
          | None => enrich_loop post_by_id rest assessor heap calls
          | Some post =>
              let '(assessor, result) := assess assessor post idea in
              let calls := (calls ++ [(post, idea)])%list in
              match result with
              | Raise e => (assessor, heap, calls, Raise e)
              | Return None => enrich_loop post_by_id rest assessor heap calls
              | Return (Some assessment) =>
                  enrich_loop post_by_id rest assessor
                    (<[r := merge_assessment idea assessment]> heap) calls
              end
          end
      end
  end.

(** [sorted_ideas[:assess_limit]] as computed from the caller's list. *)
Definition select_targets (ideas : store) (g : GeminiConfig.t) : list nat :=
  let sorted_ideas := sort_desc (ref_score ideas) (seq 0 (length ideas)) in
  let assess_limit := Z.max (GeminiConfig.max_candidates g) 1 in
  firstn (Z.to_nat assess_limit) sorted_ideas.

Definition enrich_ideas_with_gemini {A} `{Assessor A} (ideas : list IdeaCandidate.t)
  (posts : list RedditPost.t) (config : AppConfig.t) (assessor : A) : enrich_result A :=
  let unchanged := mk_enrich_result assessor ideas [] (Return ideas) in
  match ideas, AppConfig.gemini config with
  | [], _ => unchanged
  | _, None => unchanged
  | _, Some g =>
      if negb (GeminiConfig.enabled g) then unchanged
      else
        let post_by_id := build_post_by_id posts in
        let sorted_ideas := sort_desc (ref_score ideas) (seq 0 (length ideas)) in
        let target_ideas := select_targets ideas g in
        let '(assessor, heap, calls, result) :=
          enrich_loop post_by_id target_ideas assessor ideas [] in
        match result with
        | Raise e => mk_enrich_result assessor heap calls (Raise e)
        | Return _ =>
            let sorted_ideas := sort_desc (ref_score heap) sorted_ideas in
            mk_enrich_result assessor heap calls
              (Return (omap (fun r => heap !! r) sorted_ideas))
        end
  end.

(** The fields of an idea that come from its post. *)
Definition same_source (a b : IdeaCandidate.t) : Prop :=
  IdeaCandidate.post_id a = IdeaCandidate.post_id b
  /\ IdeaCandidate.subreddit a = IdeaCandidate.subreddit b
  /\ IdeaCandidate.title a = IdeaCandidate.title b
  /\ IdeaCandidate.created_utc a = IdeaCandidate.created_utc b
  /\ IdeaCandidate.permalink a = IdeaCandidate.permalink b
  /\ IdeaCandidate.url a = IdeaCandidate.url b
  /\ IdeaCandidate.author a = IdeaCandidate.author b
  /\ IdeaCandidate.num_comments a = IdeaCandidate.num_comments b
  /\ IdeaCandidate.upvotes a = IdeaCandidate.upvotes b.

(** ** storage.py

    The database file holds three tables. A table is the list of its rows
    in rowid order; [post_id] and [run_id] are primary keys. Values bound
    to a statement follow SQLite: an integer must fit 64 bits, a NaN is
    stored as NULL and the negative zero as zero; other floats are stored
    as they are. A statement that fails leaves the tables as they were,
    because the connection is closed before any [commit]. Foreign keys are
    not enforced (the pragma is never switched on). *)

Module PostRow.
Record t := mk {
  post_id : string;
  subreddit : string;
  title : string;
  selftext : string;
  permalink : string;
  url : string;
  author : string;
  created_utc : Z;
  num_comments : Z;
  upvotes : Z;
  is_self : Z;
  fetched_utc : Z
}.
End PostRow.

Module IdeaRow.
Record t := mk {
  post_id : string;
  subreddit : string;
  title : string;
  problem_summary : string;
  solution_hint : string;
  relevance_score : float;
  reason_tags : string;
  created_utc : Z;
  permalink : string;
  url : string;
  author : string;
  num_comments : Z;
  upvotes : Z;
  llm_profit_score : option float;
  llm_confidence : option float;
  extracted_utc : Z
}.
End IdeaRow.

Module RunLogRow.
Record t := mk {
  run_id : Z;
  period : string;
  run_day_utc : string;
  run_started_utc : Z;
  run_finished_utc : option Z;
  status : string;
  fetched_posts : Z;
  extracted_ideas : Z;
  window_ideas : Z;
  email_sent : Z;
  message : string
}.
End RunLogRow.

Module RunLog.
Record t := mk {
  run_id : Z;
  period : string;
  run_day_utc : string;
  run_started_utc : Z;
  run_finished_utc : option Z;
  status : string;
  fetched_posts : Z;
  extracted_ideas : Z;
  window_ideas : Z;
  email_sent : bool;
  message : string
}.
End RunLog.

Module Db.
Record t := mk {
  posts : list PostRow.t;
  ideas : list IdeaRow.t;
  run_logs : list RunLogRow.t
}.
Definition empty : t := mk [] [] [].
Definition set_posts (v : list PostRow.t) (d : t) : t := mk v (ideas d) (run_logs d).
Definition set_ideas (v : list IdeaRow.t) (d : t) : t := mk (posts d) v (run_logs d).
Definition set_run_logs (v : list RunLogRow.t) (d : t) : t := mk (posts d) (ideas d) v.
End Db.

Definition int64_ok (z : Z) : bool := (- 2 ^ 63 <=? z) && (z <? 2 ^ 63).

Definition too_large : exn :=
  Exception OverflowError "Python int too large to convert to SQLite INTEGER".

(** A float as SQLite stores it: NULL for a NaN. *)
Definition sqlite_real (x : float) : option float :=
  if PrimFloat.is_nan x then None
  else if PyFloat.eq x 0 then Some 0%float else Some x.

(** INSERT ... ON CONFLICT(key) DO UPDATE SET every other column. *)
Fixpoint upsert_row {R : Type} (key : R -> string) (row : R) (rows : list R) : list R :=
  match rows with
  | [] => [row]
  | r :: rs =>
      if String.eqb (key r) (key row) then row :: rs
      else r :: upsert_row key row rs
  end.

(** The parameter tuple of [upsert_posts] for one post, as stored. *)
Definition post_row (post : RedditPost.t) (fetched_utc : Z) : outcome PostRow.t :=
  if int64_ok (RedditPost.created_utc post) && int64_ok (RedditPost.num_comments post)
     && int64_ok (RedditPost.upvotes post) && int64_ok fetched_utc
  then Return {|
    PostRow.post_id := RedditPost.post_id post;
    PostRow.subreddit := RedditPost.subreddit post;
    PostRow.title := RedditPost.title post;
    PostRow.selftext := RedditPost.selftext post;
    PostRow.permalink := RedditPost.permalink post;
    PostRow.url := RedditPost.url post;
    PostRow.author := RedditPost.author post;
    PostRow.created_utc := RedditPost.created_utc post;
    PostRow.num_comments := RedditPost.num_comments post;
    PostRow.upvotes := RedditPost.upvotes post;
    PostRow.is_self := if RedditPost.is_self post then 1 else 0;
    PostRow.fetched_utc := fetched_utc |}
  else Raise too_large.

(** The parameter tuple of [upsert_ideas] for one idea, as stored. *)
Definition idea_row (idea : IdeaCandidate.t) (extracted_utc : Z) : outcome IdeaRow.t :=
  if int64_ok (IdeaCandidate.created_utc idea) && int64_ok (IdeaCandidate.num_comments idea)
     && int64_ok (IdeaCandidate.upvotes idea) && int64_ok extracted_utc
  then
    match sqlite_real (IdeaCandidate.relevance_score idea) with
    | None =>
        Raise (Exception IntegrityError "NOT NULL constraint failed: ideas.relevance_score")
    | Some score =>
        Return {|
          IdeaRow.post_id := IdeaCandidate.post_id idea;
          IdeaRow.subreddit := IdeaCandidate.subreddit idea;
          IdeaRow.title := IdeaCandidate.title idea;
          IdeaRow.problem_summary := IdeaCandidate.problem_summary idea;
          IdeaRow.solution_hint := IdeaCandidate.solution_hint idea;
          IdeaRow.relevance_score := score;
          IdeaRow.reason_tags := PyStr.join "," (IdeaCandidate.reason_tags idea);
          IdeaRow.created_utc := IdeaCandidate.created_utc idea;
          IdeaRow.permalink := IdeaCandidate.permalink idea;
          IdeaRow.url := IdeaCandidate.url idea;
          IdeaRow.author := IdeaCandidate.author idea;
          IdeaRow.num_comments := IdeaCandidate.num_comments idea;
          IdeaRow.upvotes := IdeaCandidate.upvotes idea;
          IdeaRow.llm_profit_score := IdeaCandidate.llm_profit_score idea ≫= sqlite_real;
          IdeaRow.llm_confidence := IdeaCandidate.llm_confidence idea ≫= sqlite_real;
          IdeaRow.extracted_utc := extracted_utc |}
    end
  else Raise too_large.

(** [executemany] of an upsert over the parameter tuples, in order; the
    first tuple that fails raises. *)
Fixpoint executemany {X R : Type} (encode : X -> outcome R) (key : R -> string)
  (items : list X) (rows : list R) : outcome (list R) :=
  match items with
  | [] => Return rows
  | x :: rest =>
      match encode x with
      | Raise e => Raise e
      | Return row => executemany encode key rest (upsert_row key row rows)
      end
  end.

Module Storage.

Definition upsert_posts (posts : list RedditPost.t) (fetched_utc : Z) (db : Db.t)
  : outcome Db.t :=
  match posts with
  | [] => Return db
  | _ =>
      match executemany (fun post => post_row post fetched_utc) PostRow.post_id
              posts (Db.posts db) with
      | Raise e => Raise e
      | Return rows => Return (Db.set_posts rows db)
      end
  end.

Definition upsert_ideas (ideas : list IdeaCandidate.t) (extracted_utc : Z) (db : Db.t)
  : outcome Db.t :=
  match ideas with
  | [] => Return db
  | _ =>
      match executemany (fun idea => idea_row idea extracted_utc) IdeaRow.post_id
              ideas (Db.ideas db) with
      | Raise e => Raise e
      | Return rows => Return (Db.set_ideas rows db)
      end
  end.

(** ORDER BY relevance_score DESC, created_utc DESC *)
Definition ideas_order (a b : IdeaRow.t) : bool :=
  PyFloat.lt (IdeaRow.relevance_score b) (IdeaRow.relevance_score a)
  || (PyFloat.eq (IdeaRow.relevance_score a) (IdeaRow.relevance_score b)
      && (IdeaRow.created_utc b <? IdeaRow.created_utc a)).

(** The [IdeaCandidate(...)] built from a fetched row. *)
Definition idea_of_row (row : IdeaRow.t) : IdeaCandidate.t :=
  let tags := filter (fun tag => PyStr.truthy tag) (PyStr.split "," (IdeaRow.reason_tags row)) in
  {| IdeaCandidate.post_id := IdeaRow.post_id row;
     IdeaCandidate.subreddit := IdeaRow.subreddit row;
     IdeaCandidate.title := IdeaRow.title row;
     IdeaCandidate.problem_summary := IdeaRow.problem_summary row;
     IdeaCandidate.solution_hint := IdeaRow.solution_hint row;
     IdeaCandidate.relevance_score := IdeaRow.relevance_score row;
     IdeaCandidate.reason_tags := tags;
     IdeaCandidate.created_utc := IdeaRow.created_utc row;
     IdeaCandidate.permalink := IdeaRow.permalink row;
     IdeaCandidate.url := IdeaRow.url row;
     IdeaCandidate.author := IdeaRow.author row;
     IdeaCandidate.num_comments := IdeaRow.num_comments row;
     IdeaCandidate.upvotes := IdeaRow.upvotes row;
     IdeaCandidate.llm_profit_score := IdeaRow.llm_profit_score row;
     IdeaCandidate.llm_confidence := IdeaRow.llm_confidence row |}.

(** The floor is bound to the statement, so it must fit 64 bits. *)
Definition get_ideas_since (created_utc_floor : Z) (db : Db.t)
  : outcome (list IdeaCandidate.t) :=
  if int64_ok created_utc_floor then
    let rows :=
      sort_by ideas_order
        (filter (fun row => created_utc_floor <=? IdeaRow.created_utc row) (Db.ideas db)) in
    Return (map idea_of_row rows)
  else Raise too_large.

(** The rowid an AUTOINCREMENT key gives to the next row of a table
    from which nothing is ever deleted. *)
Definition next_run_id (rows : list RunLogRow.t) : Z :=
  fold_right (fun row m => Z.max (RunLogRow.run_id row) m) 0 rows + 1.

Definition start_run (period run_day_utc : string) (run_started_utc : Z) (db : Db.t)
  : Db.t * Z :=
  let run_id := next_run_id (Db.run_logs db) in
  let row := {|
    RunLogRow.run_id := run_id;
    RunLogRow.period := period;
    RunLogRow.run_day_utc := run_day_utc;
    RunLogRow.run_started_utc := run_started_utc;
    RunLogRow.run_finished_utc := None;
    RunLogRow.status := "started";
    RunLogRow.fetched_posts := 0;
    RunLogRow.extracted_ideas := 0;
    RunLogRow.window_ideas := 0;
    RunLogRow.email_sent := 0;
    RunLogRow.message := EmptyString |} in
  (Db.set_run_logs (Db.run_logs db ++ [row])%list db, run_id).

(** The row after UPDATE run_logs SET ... *)
Definition finished_row (status : string) (run_finished_utc fetched_posts extracted_ideas
  window_ideas : Z) (email_sent : bool) (message : string) (row : RunLogRow.t)
  : RunLogRow.t :=
  {| RunLogRow.run_id := RunLogRow.run_id row;
     RunLogRow.period := RunLogRow.period row;
     RunLogRow.run_day_utc := RunLogRow.run_day_utc row;
     RunLogRow.run_started_utc := RunLogRow.run_started_utc row;
     RunLogRow.run_finished_utc := Some run_finished_utc;
     RunLogRow.status := status;
     RunLogRow.fetched_posts := fetched_posts;
     RunLogRow.extracted_ideas := extracted_ideas;
     RunLogRow.window_ideas := window_ideas;
     RunLogRow.email_sent := if email_sent then 1 else 0;
     RunLogRow.message := message |}.

Definition finish_run (run_id : Z) (status : string) (run_finished_utc fetched_posts
  extracted_ideas window_ideas : Z) (email_sent : bool) (message : string) (db : Db.t)
  : Db.t :=
  Db.set_run_logs
    (map (fun row =>
            if RunLogRow.run_id row =? run_id
            then finished_row status run_finished_utc fetched_posts extracted_ideas
                   window_ideas email_sent message row
            else row)
       (Db.run_logs db)) db.

Definition is_success_of (period : string) (row : RunLogRow.t) : bool :=
  String.eqb (RunLogRow.period row) period && String.eqb (RunLogRow.status row) "success".

Definition has_successful_run_on_day (period run_day_utc : string) (db : Db.t) : bool :=
  existsb (fun row => is_success_of period row
                      && String.eqb (RunLogRow.run_day_utc row) run_day_utc)
    (Db.run_logs db).

(** [a < b] for nullable integers, NULL below every number. *)
Definition null_lt (a b : option Z) : bool :=
  match a, b with
  | _, None => false
  | None, Some _ => true
  | Some x, Some y => x <? y
  end.

Definition null_eq (a b : option Z) : bool :=
  match a, b with
  | None, None => true
  | Some x, Some y => x =? y
  | _, _ => false
  end.

(** ORDER BY run_finished_utc DESC, run_started_utc DESC *)
Definition latest_order (a b : RunLogRow.t) : bool :=
  null_lt (RunLogRow.run_finished_utc b) (RunLogRow.run_finished_utc a)
  || (null_eq (RunLogRow.run_finished_utc a) (RunLogRow.run_finished_utc b)
      && (RunLogRow.run_started_utc b <? RunLogRow.run_started_utc a)).

(** The [RunLog(...)] built from a fetched row: a finish time that is
    NULL or zero becomes [None]. *)
Definition run_log_of_row (row : RunLogRow.t) : RunLog.t :=
  {| RunLog.run_id := RunLogRow.run_id row;
     RunLog.period := RunLogRow.period row;
     RunLog.run_day_utc := RunLogRow.run_day_utc row;
     RunLog.run_started_utc := RunLogRow.run_started_utc row;
     RunLog.run_finished_utc :=
       match RunLogRow.run_finished_utc row with
       | Some v => if v =? 0 then None else Some v
       | None => None
       end;
     RunLog.status := RunLogRow.status row;
     RunLog.fetched_posts := RunLogRow.fetched_posts row;
     RunLog.extracted_ideas := RunLogRow.extracted_ideas row;
     RunLog.window_ideas := RunLogRow.window_ideas row;
     RunLog.email_sent := negb (RunLogRow.email_sent row =? 0);
     RunLog.message := RunLogRow.message row |}.

Definition get_latest_successful_run (period : string) (db : Db.t) : option RunLog.t :=
  match sort_by latest_order (filter (is_success_of period) (Db.run_logs db)) with
  | [] => None
  | row :: _ => Some (run_log_of_row row)
  end.

(** ORDER BY run_started_utc DESC *)
Definition started_order (a b : RunLogRow.t) : bool :=
  RunLogRow.run_started_utc b <? RunLogRow.run_started_utc a.

Definition list_run_logs (limit : Z) (db : Db.t) : outcome (list RunLog.t) :=
  let bound := Z.max limit 1 in
  if int64_ok bound then
    let rows := firstn (Z.to_nat bound) (sort_by started_order (Db.run_logs db)) in
    Return (map run_log_of_row rows)
  else Raise too_large.

End Storage.

(** [a == b] for two values that are a float or [None]. *)
Definition opt_float_eq (a b : option float) : bool :=
  match a, b with
  | None, None => true
  | Some x, Some y => PyFloat.eq x y
  | _, _ => false
  end.

(** [a == b] for two [IdeaCandidate] objects: the dataclass compares the
    fields one by one. *)
Definition idea_eq (a b : IdeaCandidate.t) : bool :=
  bool_decide (IdeaCandidate.post_id a = IdeaCandidate.post_id b)
  && bool_decide (IdeaCandidate.subreddit a = IdeaCandidate.subreddit b)
  && bool_decide (IdeaCandidate.title a = IdeaCandidate.title b)
  && bool_decide (IdeaCandidate.problem_summary a = IdeaCandidate.problem_summary b)
  && bool_decide (IdeaCandidate.solution_hint a = IdeaCandidate.solution_hint b)
  && PyFloat.eq (IdeaCandidate.relevance_score a) (IdeaCandidate.relevance_score b)
  && bool_decide (IdeaCandidate.reason_tags a = IdeaCandidate.reason_tags b)
  && bool_decide (IdeaCandidate.created_utc a = IdeaCandidate.created_utc b)
  && bool_decide (IdeaCandidate.permalink a = IdeaCandidate.permalink b)
  && bool_decide (IdeaCandidate.url a = IdeaCandidate.url b)
  && bool_decide (IdeaCandidate.author a = IdeaCandidate.author b)
  && bool_decide (IdeaCandidate.num_comments a = IdeaCandidate.num_comments b)
  && bool_decide (IdeaCandidate.upvotes a = IdeaCandidate.upvotes b)
  && opt_float_eq (IdeaCandidate.llm_profit_score a) (IdeaCandidate.llm_profit_score b)
  && opt_float_eq (IdeaCandidate.llm_confidence a) (IdeaCandidate.llm_confidence b).

(** Tags that the comma-separated column can hold: none is empty and
    none contains a comma. *)
Definition storable_tags (tags : list string) : Prop :=
  Forall (fun tag => PyStr.truthy tag = true /\ PyStr.has_char "," tag = false) tags.

(** A float or [None], but not a NaN. *)
Definition number_or_none (x : option float) : Prop :=
  match x with
  | Some v => PyFloat.is_number v
  | None => True
  end.

(** SELECT * FROM table WHERE key = ?: the row of a key, if any. *)
Definition row_of_key {R : Type} (key : R -> string) (k : string) (rows : list R) : option R :=
  find (fun row => String.eqb (key row) k) rows.

(** The last element of a batch that has the key [k]. *)
Definition last_with_key {X : Type} (key : X -> string) (k : string) (items : list X)
  : option X :=
  find (fun x => String.eqb (key x) k) (rev items).

(** [a] may stand before [b] under ORDER BY relevance_score DESC,
    created_utc DESC. *)
Definition ranked_before (a b : IdeaCandidate.t) : Prop :=
  PyFloat.lt (IdeaCandidate.relevance_score b) (IdeaCandidate.relevance_score a) = true
  \/ (PyFloat.eq (IdeaCandidate.relevance_score a) (IdeaCandidate.relevance_score b) = true
      /\ IdeaCandidate.created_utc b <= IdeaCandidate.created_utc a).

(** ** pipeline.py *)

Module RunResult.
Record t := mk {
  status : string;
  fetched_posts : Z;
  extracted_ideas : Z;
  window_ideas : Z;
  started_utc : Z;
  finished_utc : Z;
  csv_path : option string;
  report_path : option string;
  email_sent : bool;
  message : string
}.
End RunResult.

(** The date of the proleptic Gregorian calendar that lies [days] days
    after 1970-01-01: the year, the month and the day of the month. The
    count starts at the first of March of a year that is a multiple of
    400, so that the leap day is the last day of a year of the count. *)
Definition civil_from_days (days : Z) : Z * Z * Z :=
  let shifted := days + 719468 in
  let era := shifted / 146097 in
  let day_of_era := shifted - era * 146097 in
  let year_of_era :=
    (day_of_era - day_of_era / 1460 + day_of_era / 36524 - day_of_era / 146096) / 365 in
  let day_of_year :=
    day_of_era - (365 * year_of_era + year_of_era / 4 - year_of_era / 100) in
  let shifted_month := (5 * day_of_year + 2) / 153 in
  let day := day_of_year - (153 * shifted_month + 2) / 5 + 1 in
  let month := if shifted_month <? 10 then shifted_month + 3 else shifted_month - 9 in
  let year := year_of_era + era * 400 + (if month <=? 2 then 1 else 0) in
  (year, month, day).

(** [f"{n:0{width}d}"] for [n >= 0]. *)
Definition zero_padded (width : nat) (n : Z) : string :=
  let digits := pretty n in
  String.append
    (string_of_list_ascii (repeat "0"%char (width - String.length digits))) digits.

(** [strftime("%Y-%m-%d")] and [strftime("%Y%m%d_%H%M%S")] of the wall
    clock that shows [seconds] seconds since its 1970-01-01 00:00:00. The
    year is written with four digits, as it is from the year 1000 on. *)
Definition strftime_date (seconds : Z) : string :=
  let '(year, month, day) := civil_from_days (seconds / 86400) in
  String.concat "-" [zero_padded 4 year; zero_padded 2 month; zero_padded 2 day].

Definition strftime_stamp (seconds : Z) : string :=
  let '(year, month, day) := civil_from_days (seconds / 86400) in
  let second_of_day := seconds mod 86400 in
  String.concat EmptyString
    [zero_padded 4 year; zero_padded 2 month; zero_padded 2 day; "_";
     zero_padded 2 (second_of_day / 3600); zero_padded 2 (second_of_day mod 3600 / 60);
     zero_padded 2 (second_of_day mod 60)].

(** A [datetime], read to the second: its POSIX time and the offset of
    its zone from UTC, in seconds east. For a [datetime] without a zone
    the offset is the one of the system's zone at that time, which is
    what [timestamp()] takes such a [datetime] to be in. The methods that
    format a [datetime] write its wall clock, which is that of its own
    zone. The timestamp of a [datetime] lies between the years 1 and
    9999, so it fits an SQLite integer. *)
Module datetime.
Record t := mk {
  timestamp : Z;        (* int(dt.timestamp()) *)
  utcoffset : Z         (* dt.utcoffset(), in seconds *)
}.

(** A [datetime] in UTC, as [datetime.now(tz=UTC)] and
    [datetime(..., tzinfo=UTC)] make it. *)
Definition utc (seconds : Z) : t := mk seconds 0.

Definition wall_clock (dt : t) : Z := timestamp dt + utcoffset dt.

(** [dt.strftime("%Y-%m-%d")] *)
Definition day (dt : t) : string := strftime_date (wall_clock dt).

(** [dt.strftime("%Y%m%d_%H%M%S")] *)
Definition stamp (dt : t) : string := strftime_stamp (wall_clock dt).

(** [dt.astimezone(UTC).strftime("%Y-%m-%d")]: the UTC day of [dt]. *)
Definition utc_day (dt : t) : string := strftime_date (timestamp dt).
End datetime.

(** [datetime.fromtimestamp(ts, tz=UTC)] followed by [isoformat()] or by
    [strftime("%Y-%m-%d %H:%M:%S UTC")]; the conversion raises when the
    timestamp is out of the calendar's range. *)
Class Calendar := {
  utc_isoformat : Z -> outcome string;
  utc_strftime : Z -> outcome string
}.

(** The calls that a run makes on its [Storage] object, on the client,
    on the extractor, on the report writers and on the notifier, in
    order. The two reads of the run log are not among them, nor is what
    comes before [start_run]. *)
Inductive event :=
| EvStartRun (run_id : Z)
| EvFinishRun (run_id : Z) (status : string)
| EvFetch (subreddit : string) (since_utc max_posts : Z)
| EvUpsertPosts (posts : list RedditPost.t)
| EvExtract (posts : list RedditPost.t)
| EvUpsertIdeas (ideas : list IdeaCandidate.t)
| EvGetIdeasSince (created_utc_floor : Z)
| EvExportCsv (ideas : list IdeaCandidate.t) (destination : string)
| EvWriteReport (ideas : list IdeaCandidate.t) (destination : string)
| EvSend (subject body report_path : string).

(** The state as a [Storage] object sees it: the world outside the
    process, the database file of the object, and the log of the calls
    made so far. *)
Module State.
Record t (W : Type) := mk {
  world : W;
  db : Db.t;
  calls : list event
}.
Arguments mk {W} _ _ _.
Arguments world {W} _.
Arguments db {W} _.
Arguments calls {W} _.
End State.

(** The machine that a run works on: the world outside the process, the
    database files by their path, and the log of the calls made so far. *)
Module Machine.
Record t (W : Type) := mk {
  world : W;
  disk : gmap string Db.t;
  calls : list event
}.
Arguments mk {W} _ _ _.
Arguments world {W} _.
Arguments disk {W} _.
Arguments calls {W} _.

(** The tables of the database file at a path; a file that is not there
    has none, and connecting to it creates it. *)
Definition db {W} (db_path : string) (m : t W) : Db.t :=
  default Db.empty (disk m !! db_path).
End Machine.

(** Computations over the state that return or raise. *)
Definition M (W A : Type) : Type := State.t W -> State.t W * outcome A.

(** [return], [raise] and sequencing, over any state. *)
Definition ret {S A} (a : A) : S -> S * outcome A := fun s => (s, Return a).
Definition raise {S A} (e : exn) : S -> S * outcome A := fun s => (s, Raise e).
Definition bind {S A B} (m : S -> S * outcome A) (k : A -> S -> S * outcome B)
  : S -> S * outcome B :=
  fun s => match m s with
           | (s', Return a) => k a s'
           | (s', Raise e) => (s', Raise e)
           end.
(** [try: body except Exception as exc: handler]: an exception that is
    not an instance of [Exception] passes through. *)
Definition try_except {W A} (body : M W A) (handler : exn -> M W A) : M W A :=
  fun s => match body s with
           | (s', Return a) => (s', Return a)
           | (s', Raise e) => if is_exception e then handler e s' else (s', Raise e)
           end.

Notation "x <- m ;; k" := (bind m (fun x => k))
  (at level 100, m at next level, right associativity).
Notation "m ;;; k" := (bind m (fun _ => k))
  (at level 100, right associativity).

Definition log {W} (ev : event) : M W unit :=
  fun s => (State.mk (State.world s) (State.db s) (State.calls s ++ [ev])%list, Return tt).

(** A storage call: a function of the database that may raise. *)
Definition on_db {W A} (f : Db.t -> outcome (Db.t * A)) : M W A :=
  fun s => match f (State.db s) with
           | Return (db', a) => (State.mk (State.world s) db' (State.calls s), Return a)
           | Raise e => (s, Raise e)
           end.

(** A call into the world outside. *)
Definition on_world {W A} (f : W -> W * outcome A) : M W A :=
  fun s => let '(w', r) := f (State.world s) in
           (State.mk w' (State.db s) (State.calls s), r).

(** An object with [fetch_new_posts_since(subreddit, since_utc, max_posts)]. *)
Definition Client (W : Type) : Type :=
  W -> string -> Z -> Z -> W * outcome (list RedditPost.t).

(** An object with [send(subject, body, report_path)]. *)
Definition Notifier (W : Type) : Type :=
  W -> string -> string -> string -> W * outcome unit.

(** What the process reaches outside itself: the clock, by its POSIX time
    in seconds, the directories, the database files, Reddit through a
    [RedditClient], the output files and the two notification channels.
    [mkdir] is [Path.mkdir(parents=True, exist_ok=True)], and
    [sqlite3_connect] is what [_init_schema] asks of the file system when
    it connects to a file and creates its tables; both may raise. *)
Class Outside (W : Type) := {
  time_now : W -> W * Z;
  mkdir : W -> string -> W * outcome unit;
  sqlite3_connect : W -> string -> W * outcome unit;
  RedditClient : string -> Client W;
  export_ideas_csv : W -> list IdeaCandidate.t -> string -> W * outcome unit;
  write_report : W -> list IdeaCandidate.t -> string -> datetime.t -> Z -> string
                 -> W * outcome unit;
  EmailNotifier : SmtpConfig.t -> Notifier W;
  TelegramNotifier : TelegramConfig.t -> Notifier W
}.

(** [CompositeNotifier(channels).send] *)
Fixpoint CompositeNotifier {W} (channels : list (Notifier W)) : Notifier W :=
  fun w subject body report_path =>
    match channels with
    | [] => (w, Return tt)
    | channel :: rest =>
        match channel w subject body report_path with
        | (w', Return _) => CompositeNotifier rest w' subject body report_path
        | (w', Raise e) => (w', Raise e)
        end
    end.

Definition build_notifier {W} `{Outside W} (config : AppConfig.t) : option (Notifier W) :=
  let channels : list (Notifier W) := [] in
  let channels :=
    match AppConfig.smtp config with
    | Some smtp => (channels ++ [EmailNotifier smtp])%list
    | None => channels
    end in
  let channels :=
    match AppConfig.telegram config with
    | Some telegram => (channels ++ [TelegramNotifier telegram])%list
    | None => channels
    end in
  match channels with
  | [] => None
  | _ => Some (CompositeNotifier channels)
  end.

(** [datetime.now(tz=UTC)] *)
Definition datetime_now {W} `{Outside W} (w : W) : W * datetime.t :=
  let '(w', seconds) := time_now w in (w', datetime.utc seconds).

(** [now or datetime.now(tz=UTC)] *)
Definition now_or_clock {W} `{Outside W} (now : option datetime.t) : M W datetime.t :=
  match now with
  | Some dt => ret dt
  | None => on_world (fun w => let '(w', dt) := datetime_now w in (w', Return dt))
  end.

Definition start_run {W} (period run_day_utc : string) (run_started_utc : Z) : M W Z :=
  run_id <- on_db (fun db => Return (Storage.start_run period run_day_utc run_started_utc db)) ;;
  log (EvStartRun run_id) ;;;
  ret run_id.

Definition finish_run {W} (run_id : Z) (status : string) (run_finished_utc fetched_posts
  extracted_ideas window_ideas : Z) (email_sent : bool) (message : string) : M W unit :=
  log (EvFinishRun run_id status) ;;;
  on_db (fun db => Return (Storage.finish_run run_id status run_finished_utc fetched_posts
                             extracted_ideas window_ideas email_sent message db, tt)).

Definition upsert_posts {W} (posts : list RedditPost.t) (fetched_utc : Z) : M W unit :=
  log (EvUpsertPosts posts) ;;;
  on_db (fun db => match Storage.upsert_posts posts fetched_utc db with
                   | Return db' => Return (db', tt)
                   | Raise e => Raise e
                   end).

Definition upsert_ideas {W} (ideas : list IdeaCandidate.t) (extracted_utc : Z) : M W unit :=
  log (EvUpsertIdeas ideas) ;;;
  on_db (fun db => match Storage.upsert_ideas ideas extracted_utc db with
                   | Return db' => Return (db', tt)
                   | Raise e => Raise e
                   end).

Definition get_ideas_since {W} (created_utc_floor : Z) : M W (list IdeaCandidate.t) :=
  log (EvGetIdeasSince created_utc_floor) ;;;
  on_db (fun db => match Storage.get_ideas_since created_utc_floor db with
                   | Return ideas => Return (db, ideas)
                   | Raise e => Raise e
                   end).

(** The [for subreddit in config.subreddits] loop: [posts] is the list
    accumulated so far. *)
Fixpoint fetch_loop {W} (client : Client W) (subreddits : list string)
  (since_utc max_posts : Z) (posts : list RedditPost.t) : M W (list RedditPost.t) :=
  match subreddits with
  | [] => ret posts
  | subreddit :: rest =>
      log (EvFetch subreddit since_utc max_posts) ;;;
      fetched <- on_world (fun w => client w subreddit since_utc max_posts) ;;
      fetch_loop client rest since_utc max_posts (posts ++ fetched)%list
  end.

Definition of_outcome {W A} (r : outcome A) : M W A := fun s => (s, r).

(** [period.title()] for a lower-case word. *)
Definition title_case (s : string) : string :=
  match s with
  | EmptyString => EmptyString
  | String c s' =>
      String (if PyStr.is_lower c then ascii_of_N (PyStr.code c - 32) else c) s'
  end.

(** [f"{n}"] for a length. *)
Definition decimal (n : nat) : string := pretty (Z.of_nat n).

(** An f-string, by its pieces. *)
Definition f_string (parts : list string) : string := String.concat EmptyString parts.

Fixpoint ends_with (c : ascii) (s : string) : bool :=
  match s with
  | EmptyString => false
  | String d EmptyString => Ascii.eqb c d
  | String _ s' => ends_with c s'
  end.

(** [str(directory / name)], for the [str] of the [Path] [directory] and
    a [name] of one component: the [str] of a [Path] ends in a slash only
    when it is a root, and the [Path] of the current directory, whose
    [str] is [.], is left out. *)
Definition path_join (directory name : string) : string :=
  if String.eqb directory "." then name
  else if ends_with "/" directory then String.append directory name
  else f_string [directory; "/"; name].

Definition nl : string := String newline EmptyString.

Definition lookback_floor_of (latest_success : option RunLog.t)
  (started_utc lookback_seconds default_lookback_floor : Z) : Z :=
  match latest_success with
  | Some latest =>
      match RunLog.run_finished_utc latest with
      | Some finished =>
          let seconds_since_last_success := started_utc - finished in
          if seconds_since_last_success <=? lookback_seconds
          then finished else default_lookback_floor
      | None => default_lookback_floor
      end
  | None => default_lookback_floor
  end.

Section RunOnce.
Context `{Libm} `{Calendar} {W : Type} `{Outside W}.

(** The body of the [try] statement of [run_once]. *)
Definition run_body (config : AppConfig.t) (period : string) (client : Client W)
  (notifier : option (Notifier W)) (now : option datetime.t) (runtime : datetime.t)
  (started_utc run_id lookback_floor : Z) : M W RunResult.t :=
  posts <- fetch_loop client (AppConfig.subreddits config) lookback_floor
             (AppConfig.max_posts_per_subreddit config) [] ;;
  upsert_posts posts started_utc ;;;
  log (EvExtract posts) ;;;
  let ideas := extract_ideas posts config in
  upsert_ideas ideas started_utc ;;;
  window_ideas <- get_ideas_since lookback_floor ;;
  let date_stamp := datetime.stamp runtime in
  let csv_name := f_string ["ideas_"; period; "_"; date_stamp; ".csv"] in
  let report_name := f_string ["report_"; period; "_"; date_stamp; ".md"] in
  let csv_path := path_join (AppConfig.output_dir config) csv_name in
  let report_path := path_join (AppConfig.output_dir config) report_name in
  log (EvExportCsv window_ideas csv_path) ;;;
  on_world (fun w => export_ideas_csv w window_ideas csv_path) ;;;
  log (EvWriteReport window_ideas report_path) ;;;
  on_world (fun w => write_report w window_ideas period runtime
                       (AppConfig.report_top_n config) report_path) ;;;
  let effective_notifier :=
    match notifier with
    | Some n => Some n
    | None => build_notifier config
    end in
  email_sent <-
    match effective_notifier with
    | Some n =>
        since <- of_outcome (utc_isoformat lookback_floor) ;;
        let summary :=
          f_string ["Collected ideas since "; since; "."; nl;
                    "Posts checked: "; decimal (length posts); "."; nl;
                    "Newly extracted in this run: "; decimal (length ideas); "."; nl;
                    "Report: "; report_name] in
        let subject := f_string ["Reddit Ideas "; title_case period; " Report"] in
        log (EvSend subject summary report_path) ;;;
        on_world (fun w => n w subject summary report_path) ;;;
        ret true
    | None => ret false
    end ;;
  finished <- now_or_clock now ;;
  let finished_utc := datetime.timestamp finished in
  floor_text <- of_outcome (utc_strftime lookback_floor) ;;
  let message := f_string ["Success. Lookback started at "; floor_text] in
  finish_run run_id "success" finished_utc (Z.of_nat (length posts))
    (Z.of_nat (length ideas)) (Z.of_nat (length window_ideas)) email_sent message ;;;
  ret {| RunResult.status := "success";
         RunResult.fetched_posts := Z.of_nat (length posts);
         RunResult.extracted_ideas := Z.of_nat (length ideas);
         RunResult.window_ideas := Z.of_nat (length window_ideas);
         RunResult.started_utc := started_utc;
         RunResult.finished_utc := finished_utc;
         RunResult.csv_path := Some csv_path;
         RunResult.report_path := Some report_path;
         RunResult.email_sent := email_sent;
         RunResult.message := message |}.

(** The [except Exception as exc] clause of [run_once]. *)
Definition run_failed (now : option datetime.t) (run_id : Z) (exc : exn)
  : M W RunResult.t :=
  finished <- now_or_clock now ;;
  let finished_utc := datetime.timestamp finished in
  let message := f_string [type_name (exc_cls exc); ": "; exc_str exc] in
  finish_run run_id "failed" finished_utc 0 0 0 false message ;;;
  raise exc.

(** The early return of [run_once] for a period and day that already
    have a successful run. *)
Definition run_skipped (now : option datetime.t) (period run_day_utc : string)
  (started_utc run_id : Z) : M W RunResult.t :=
  finished <- now_or_clock now ;;
  let finished_utc := datetime.timestamp finished in
  let message :=
    f_string ["Skipped duplicate "; period; " run for UTC day "; run_day_utc; "."] in
  finish_run run_id "skipped_same_day" finished_utc 0 0 0 false message ;;;
  ret {| RunResult.status := "skipped_same_day";
         RunResult.fetched_posts := 0;
         RunResult.extracted_ideas := 0;
         RunResult.window_ideas := 0;
         RunResult.started_utc := started_utc;
         RunResult.finished_utc := finished_utc;
         RunResult.csv_path := None;
         RunResult.report_path := None;
         RunResult.email_sent := false;
         RunResult.message := message |}.

(** [run_once] from the call of [start_run] on, lines 49 to 167, for the
    normalized period and the time of the run, on the state as the
    [Storage] object sees it. *)
Definition run_logged (config : AppConfig.t) (period : string)
  (reddit_client : option (Client W)) (notifier : option (Notifier W))
  (now : option datetime.t) (runtime : datetime.t) : M W RunResult.t :=
  let started_utc := datetime.timestamp runtime in
  let run_day_utc := datetime.day runtime in
  let lookback_seconds := Z.max (AppConfig.lookback_hours config) 1 * 60 * 60 in
  let default_lookback_floor := started_utc - lookback_seconds in
  run_id <- start_run period run_day_utc started_utc ;;
  skip <- on_db (fun db =>
            Return (db, Storage.has_successful_run_on_day period run_day_utc db)) ;;
  if (skip : bool) then run_skipped now period run_day_utc started_utc run_id
  else
    latest_success <- on_db (fun db =>
                        Return (db, Storage.get_latest_successful_run period db)) ;;
    let lookback_floor :=
      lookback_floor_of latest_success started_utc lookback_seconds
        default_lookback_floor in
    let client :=
      match reddit_client with
      | Some c => c
      | None => RedditClient (AppConfig.user_agent config)
      end in
    try_except
      (run_body config period client notifier now runtime started_utc run_id
         lookback_floor)
      (run_failed now run_id).

(** A call into the world outside, before there is a [Storage] object. *)
Definition machine_call {A} (f : W -> W * outcome A) : Machine.t W -> Machine.t W * outcome A :=
  fun m => let '(w', r) := f (Machine.world m) in
           (Machine.mk w' (Machine.disk m) (Machine.calls m), r).

(** [now or datetime.now(tz=UTC)], before there is a [Storage] object. *)
Definition machine_now (now : option datetime.t)
  : Machine.t W -> Machine.t W * outcome datetime.t :=
  match now with
  | Some dt => ret dt
  | None => machine_call (fun w => let '(w', dt) := datetime_now w in (w', Return dt))
  end.

(** [Storage(directory / name)]: [__init__] makes the parent of the path,
    which is [directory], and [_init_schema] connects to the file, which
    creates it when it is not there, and creates the tables that are
    missing. The object is given by its [db_path]. *)
Definition open_storage (directory name : string)
  : Machine.t W -> Machine.t W * outcome string :=
  let db_path := path_join directory name in
  machine_call (fun w => mkdir w directory) ;;;
  machine_call (fun w => sqlite3_connect w db_path) ;;;
  fun m =>
    (Machine.mk (Machine.world m) (<[db_path := Machine.db db_path m]> (Machine.disk m))
       (Machine.calls m),
     Return db_path).

(** The state as the [Storage] object on the file at [db_path] sees it,
    and the machine once the object has brought that state about. Each
    method of the object connects to the file anew; once the file has
    been opened, these connections are taken to succeed. *)
Definition storage_view (db_path : string) (m : Machine.t W) : State.t W :=
  State.mk (Machine.world m) (Machine.db db_path m) (Machine.calls m).

Definition storage_done (db_path : string) (s : State.t W) (m : Machine.t W) : Machine.t W :=
  Machine.mk (State.world s) (<[db_path := State.db s]> (Machine.disk m)) (State.calls s).

Definition with_storage {A} (db_path : string) (run : M W A)
  : Machine.t W -> Machine.t W * outcome A :=
  fun m => let '(s, r) := run (storage_view db_path m) in (storage_done db_path s m, r).

(** Lines 40 to 48 of [run_once]: the time of the run, the two
    directories and the [Storage] object. *)
Definition run_setup (config : AppConfig.t) (now : option datetime.t)
  : Machine.t W -> Machine.t W * outcome (datetime.t * string) :=
  runtime <- machine_now now ;;
  machine_call (fun w => mkdir w (AppConfig.data_dir config)) ;;;
  machine_call (fun w => mkdir w (AppConfig.output_dir config)) ;;;
  storage <- open_storage (AppConfig.data_dir config) "reddit_ideas.db" ;;
  ret (runtime, storage).

(** [run_once] *)
Definition run_once (config : AppConfig.t) (period : string)
  (reddit_client : option (Client W)) (notifier : option (Notifier W))
  (now : option datetime.t) : Machine.t W -> Machine.t W * outcome RunResult.t :=
  let period := PyStr.strip (PyStr.lower period) in
  if negb (PyStr.mem period ["daily"; "weekly"]) then
    raise (Exception ValueError "period must be either 'daily' or 'weekly'")
  else
    setup <- run_setup config now ;;
    let '(runtime, storage) := setup in
    with_storage storage (run_logged config period reddit_client notifier now runtime).

End RunOnce.

(** *** Reading the log of calls *)

(** The arguments of the [fetch_new_posts_since] calls among the events. *)
Definition fetches (events : list event) : list (string * Z * Z) :=
  omap (fun ev => match ev with
                  | EvFetch subreddit since_utc max_posts =>
                      Some (subreddit, since_utc, max_posts)
                  | _ => None
                  end) events.

(** The idea lists handed to the report writer. *)
Definition reported (events : list event) : list (list IdeaCandidate.t) :=
  omap (fun ev => match ev with
                  | EvWriteReport ideas _ => Some ideas
                  | _ => None
                  end) events.

(** The event is a call of [start_run] or of [finish_run]. *)
Definition is_run_event (ev : event) : bool :=
  match ev with
  | EvStartRun _ | EvFinishRun _ _ => true
  | _ => false
  end.

(** The event is a call of the client. *)
Definition is_fetch (ev : event) : bool :=
  match ev with
  | EvFetch _ _ _ => true
  | _ => false
  end.

(** The lists of posts and of ideas handed to the two upserts. *)
Definition upserted_posts (events : list event) : list (list RedditPost.t) :=
  omap (fun ev => match ev with
                  | EvUpsertPosts posts => Some posts
                  | _ => None
                  end) events.

Definition upserted_ideas (events : list event) : list (list IdeaCandidate.t) :=
  omap (fun ev => match ev with
                  | EvUpsertIdeas ideas => Some ideas
                  | _ => None
                  end) events.

(** The messages handed to the notifier. *)
Definition sends (events : list event) : list (string * string * string) :=
  omap (fun ev => match ev with
                  | EvSend subject body report_path => Some (subject, body, report_path)
                  | _ => None
                  end) events.

(** The notifier that a run uses: [notifier or build_notifier(config)]. *)
Definition has_notifier {W} `{Outside W} (notifier : option (Notifier W)) (config : AppConfig.t)
  : bool :=
  match notifier with
  | Some _ => true
  | None => match build_notifier config with Some _ => true | None => false end
  end.

(** The rows of the successful runs of a period on a day. *)
Definition successes_on (period run_day_utc : string) (db : Db.t) : list RunLogRow.t :=
  filter (fun row => Storage.is_success_of period row
                     && String.eqb (RunLogRow.run_day_utc row) run_day_utc)
    (Db.run_logs db).

(** No period has two successful runs on one day. *)
Definition one_success_a_day (db : Db.t) : Prop :=
  forall period run_day_utc, (length (successes_on period run_day_utc db) <= 1)%nat.

(** The row of a run as [start_run] creates it. *)
Definition started_row (run_id : Z) (period : string) (runtime : datetime.t) : RunLogRow.t :=
  {| RunLogRow.run_id := run_id;
     RunLogRow.period := period;
     RunLogRow.run_day_utc := datetime.day runtime;
     RunLogRow.run_started_utc := datetime.timestamp runtime;
     RunLogRow.run_finished_utc := None;
     RunLogRow.status := "started";
     RunLogRow.fetched_posts := 0;
     RunLogRow.extracted_ideas := 0;
     RunLogRow.window_ideas := 0;
     RunLogRow.email_sent := 0;
     RunLogRow.message := EmptyString |}.

(** The row of a run that [start_run] created and [finish_run] closed. *)
Definition closed_row (run_id : Z) (period : string) (runtime finished : datetime.t)
  (status : string) (fetched_posts extracted_ideas window_ideas : Z) (email_sent : bool)
  (message : string) : RunLogRow.t :=
  {| RunLogRow.run_id := run_id;
     RunLogRow.period := period;
     RunLogRow.run_day_utc := datetime.day runtime;
     RunLogRow.run_started_utc := datetime.timestamp runtime;
     RunLogRow.run_finished_utc := Some (datetime.timestamp finished);
     RunLogRow.status := status;
     RunLogRow.fetched_posts := fetched_posts;
     RunLogRow.extracted_ideas := extracted_ideas;
     RunLogRow.window_ideas := window_ideas;
     RunLogRow.email_sent := if email_sent then 1 else 0;
     RunLogRow.message := message |}.

(** The path of the database file of a run: [config.data_dir / "reddit_ideas.db"]. *)
Definition db_path (config : AppConfig.t) : string :=
  path_join (AppConfig.data_dir config) "reddit_ideas.db".

(** The configuration with another enrichment section. *)
Definition with_gemini (gemini : option GeminiConfig.t) (config : AppConfig.t) : AppConfig.t :=
  {| AppConfig.subreddits := AppConfig.subreddits config;
     AppConfig.lookback_hours := AppConfig.lookback_hours config;
     AppConfig.max_posts_per_subreddit := AppConfig.max_posts_per_subreddit config;
     AppConfig.min_score := AppConfig.min_score config;
     AppConfig.report_top_n := AppConfig.report_top_n config;
     AppConfig.data_dir := AppConfig.data_dir config;
     AppConfig.output_dir := AppConfig.output_dir config;
     AppConfig.user_agent := AppConfig.user_agent config;
     AppConfig.include_keywords := AppConfig.include_keywords config;
     AppConfig.exclude_keywords := AppConfig.exclude_keywords config;
     AppConfig.smtp := AppConfig.smtp config;
     AppConfig.telegram := AppConfig.telegram config;
     AppConfig.gemini := gemini |}.

(** *** Relations between the state before and after a computation *)

(** [R] holds between the state before and the state after [m], however
    [m] ends. *)
Definition respects {W} (R : State.t W -> State.t W -> Prop) {A} (m : M W A) : Prop :=
  forall s s' r, m s = (s', r) -> R s s'.

(** [R] holds between the state before and the state after [m] when [m]
    raises. *)
Definition respects_on_raise {W} (R : State.t W -> State.t W -> Prop) {A} (m : M W A)
  : Prop :=
  forall s s' e, m s = (s', Raise e) -> R s s'.

Definition never_raises {W A} (m : M W A) : Prop :=
  forall s s' e, m s <> (s', Raise e).

(** The later state has the calls of the earlier one and then calls that
    all satisfy [P]. *)
Definition adds_only {W} (P : event -> Prop) (s s' : State.t W) : Prop :=
  exists evs, State.calls s' = State.calls s ++ evs /\ Forall P evs.

(** Nothing happened to the run log, neither in the table nor among the
    calls. *)
Definition run_log_untouched {W} (s s' : State.t W) : Prop :=
  Db.run_logs (State.db s') = Db.run_logs (State.db s)
  /\ adds_only (fun ev => is_run_event ev = false) s s'.

(** ** reddit_client.py *)

(** The [data] object of a child of a listing, by the keys that
    [_parse_post] reads. A key that is absent is [None]; a key that is
    present holds a value of the type that Reddit gives it: a string, a
    number, given here by its [int(...)], or a boolean. A child without
    [data] is read as the object without keys. *)
Module Child.
Record t := mk {
  id : option string;
  subreddit : option string;
  title : option string;
  selftext : option string;
  permalink : option string;
  url : option string;
  author : option string;
  created_utc : option Z;
  num_comments : option Z;
  ups : option Z;
  is_self : option bool
}.
End Child.

(** The payload of a listing, by what [fetch_new_posts_since] reads:
    [data.children], the empty list when absent, and [data.after]. *)
Module Listing.
Record t := mk {
  children : list Child.t;
  after : option string
}.
End Listing.

(** One [urlopen] of a listing URL: the decoded payload, or an
    exception. *)
Inductive fetched :=
| Payload (payload : Listing.t)
| Broken (e : exn).

(** Reddit as seen from the process; [N] is the state of the outside
    world. A request is made of the URL, the [User-Agent] header and the
    timeout. *)
Class RedditEndpoint (N : Type) := {
  reddit_urlopen : N -> string -> string -> Z -> N * fetched;
  reddit_sleep : N -> float -> N
}.

(** [urllib.parse.quote(s, safe)] on ASCII text: the letters, the digits,
    [_.-~] and the characters of [safe] stand for themselves, and any
    other character is written as [%XX]. *)
Definition hex_digit (n : N) : ascii :=
  ascii_of_N (if (n <? 10)%N then 48 + n else 55 + n).

Definition unreserved (c : ascii) : bool :=
  PyStr.is_upper c || PyStr.is_lower c || PyStr.is_digit c
  || Ascii.eqb c "_" || Ascii.eqb c "." || Ascii.eqb c "-" || Ascii.eqb c "~".

Fixpoint quote (safe : ascii -> bool) (s : string) : string :=
  match s with
  | EmptyString => EmptyString
  | String c s' =>
      if unreserved c || safe c then String c (quote safe s')
      else String "%" (String (hex_digit (PyStr.code c / 16))
                         (String (hex_digit (PyStr.code c mod 16)) (quote safe s')))
  end.

(** [urllib.parse.quote_plus(s)]: a blank becomes [+]. *)
Definition quote_plus (s : string) : string :=
  replace_char " " "+" (quote (fun c => Ascii.eqb c " ") s).

(** The URL of a request for a page: the endpoint of the subreddit and
    the encoded [query_params], [limit], [raw_json] and, when there is
    one, [after]. *)
Definition listing_url (subreddit : string) (limit : Z) (after : option string) : string :=
  let endpoint :=
    f_string ["https://www.reddit.com/r/"; quote (fun c => Ascii.eqb c "/") subreddit;
              "/new.json"] in
  let query :=
    f_string ["limit="; quote_plus (pretty limit); "&raw_json=1";
              match after with
              | Some a => if PyStr.truthy a then f_string ["&after="; quote_plus a]
                          else EmptyString
              | None => EmptyString
              end] in
  f_string [endpoint; "?"; query].

(** The class [RedditClient]. *)
Module Reddit.
Record t (N : Type) := mk {
  user_agent : string;
  timeout_seconds : Z;
  max_retries : Z;
  net : N
}.
Arguments mk {N} _ _ _ _.
Arguments user_agent {N} _.
Arguments timeout_seconds {N} _.
Arguments max_retries {N} _.
Arguments net {N} _.

Definition set_net {N} (n : N) (self : t N) : t N :=
  mk (user_agent self) (timeout_seconds self) (max_retries self) n.

Section Methods.
Context {N : Type} `{RedditEndpoint N}.

(** [if attempt < self.max_retries: time.sleep(1.5 * attempt)] *)
Definition backoff (attempt : Z) (self : t N) : t N :=
  if attempt <? max_retries self
  then set_net (reddit_sleep (net self) (1.5 * PyFloat.of_int attempt)%float) self
  else self.

(** The [for attempt in range(1, self.max_retries + 1)] loop of
    [_get_json] and the two [raise] statements after it. *)
Fixpoint get_json_loop (remaining : nat) (attempt : Z) (self : t N) (url : string)
  (last_error : option exn) : t N * outcome Listing.t :=
  match remaining with
  | O =>
      match last_error with
      | None => (self, Raise (Exception RuntimeError "Failed to fetch URL: unknown error"))
      | Some e =>
          (self, Raise (RaisedFrom RuntimeError (f_string ["Failed to fetch URL: "; url]) e))
      end
  | S remaining' =>
      let '(n, r) := reddit_urlopen (net self) url (user_agent self) (timeout_seconds self) in
      let self := set_net n self in
      match r with
      | Payload payload => (self, Return payload)
      | Broken exc =>
          if retried exc then
            get_json_loop remaining' (attempt + 1) (backoff attempt self) url (Some exc)
          else (self, Raise exc)
      end
  end.

Definition _get_json (self : t N) (url : string) : t N * outcome Listing.t :=
  get_json_loop (Z.to_nat (max_retries self)) 1 self url None.

Definition _parse_post (child : Child.t) (fallback_subreddit : string)
  : option RedditPost.t :=
  match Child.id child with
  | None => None
  | Some post_id =>
      if negb (PyStr.truthy post_id) then None
      else
        Some {|
          RedditPost.post_id := post_id;
          RedditPost.subreddit := default fallback_subreddit (Child.subreddit child);
          RedditPost.title := PyStr.strip (default EmptyString (Child.title child));
          RedditPost.selftext := PyStr.strip (default EmptyString (Child.selftext child));
          RedditPost.permalink :=
            String.append "https://reddit.com" (default EmptyString (Child.permalink child));
          RedditPost.url := default EmptyString (Child.url child);
          RedditPost.author := default "[deleted]" (Child.author child);
          RedditPost.created_utc := default 0 (Child.created_utc child);
          RedditPost.num_comments := default 0 (Child.num_comments child);
          RedditPost.upvotes := default 0 (Child.ups child);
          RedditPost.is_self := default false (Child.is_self child) |}
  end.

(** The [for child in children] loop: the posts so far, and [stop]. *)
Fixpoint children_loop (children : list Child.t) (subreddit : string)
  (since_utc normalized_max : Z) (posts : list RedditPost.t) : list RedditPost.t * bool :=
  match children with
  | [] => (posts, false)
  | child :: rest =>
      match _parse_post child subreddit with
      | None => children_loop rest subreddit since_utc normalized_max posts
      | Some post =>
          if RedditPost.created_utc post <? since_utc then (posts, true)
          else
            let posts := posts ++ [post] in
            if normalized_max <=? Z.of_nat (length posts) then (posts, false)
            else children_loop rest subreddit since_utc normalized_max posts
      end
  end.

(** What a call of [fetch_new_posts_since] leaves behind: the client
    after its requests, the [limit] and [after] of the requests in order,
    and the returned posts or the exception. *)
Record fetch_result := mk_fetch_result {
  fr_client : t N;
  fr_queries : list (Z * option string);
  fr_result : outcome (list RedditPost.t)
}.

(** The [while] loop, for at most [fuel] iterations; [None] when the
    loop has not ended by then. *)
Fixpoint fetch_pages (fuel : nat) (self : t N) (subreddit : string)
  (since_utc normalized_max : Z) (posts : list RedditPost.t) (after : option string)
  (queries : list (Z * option string)) : option fetch_result :=
  if negb (Z.of_nat (length posts) <? normalized_max)
  then Some (mk_fetch_result self queries (Return posts))
  else
    match fuel with
    | O => None
    | S fuel' =>
        let limit := Z.min (normalized_max - Z.of_nat (length posts)) 100 in
        let queries := queries ++ [(limit, after)] in
        let '(self, payload) := _get_json self (listing_url subreddit limit after) in
        match payload with
        | Raise e => Some (mk_fetch_result self queries (Raise e))
        | Return payload =>
            match Listing.children payload with
            | [] => Some (mk_fetch_result self queries (Return posts))
            | children =>
                let '(posts, stop) :=
                  children_loop children subreddit since_utc normalized_max posts in
                match Listing.after payload with
                | Some a =>
                    if negb (PyStr.truthy a) || stop
                    then Some (mk_fetch_result self queries (Return posts))
                    else fetch_pages fuel' self subreddit since_utc normalized_max posts
                           (Some a) queries
                | None => Some (mk_fetch_result self queries (Return posts))
                end
            end
        end
    end.

Definition fetch_new_posts_since (fuel : nat) (self : t N) (subreddit : string)
  (since_utc max_posts : Z) : option fetch_result :=
  let normalized_max := Z.max max_posts 1 in
  fetch_pages fuel self subreddit since_utc normalized_max [] None [].

Definition fetch_new_posts (fuel : nat) (self : t N) (subreddit : string) (limit : Z)
  : option fetch_result :=
  fetch_new_posts_since fuel self subreddit 0 limit.
End Methods.
Arguments fetch_result N : clear implicits.
Arguments fr_client {N} _.
Arguments fr_queries {N} _.
Arguments fr_result {N} _.
End Reddit.

(** A child that has an id, so that [_parse_post] makes a post of it. *)
Definition has_id (child : Child.t) : bool :=
  match Child.id child with
  | Some post_id => PyStr.truthy post_id
  | None => false
  end.

(** Reddit never sends a child without an id. *)
Definition sends_ids {N} `{RedditEndpoint N} : Prop :=
  forall n url user_agent timeout n' payload,
    reddit_urlopen n url user_agent timeout = (n', Payload payload) ->
    Forall (fun child => has_id child = true) (Listing.children payload).

(** ** Test doubles

    The stand-ins that the repository's tests use for the collaborators,
    and a few more, to run the definitions on concrete inputs. *)

(** A C library, by the values of [math.log10] at a few arguments; at the
    other arguments it is only known up to the decade. *)
Definition sample_log10 (n : Z) : float :=
  if n =? 1 then 0%float
  else if n =? 2 then 0.3010299956639812%float
  else if n =? 3 then 0.47712125471966244%float
  else if n =? 8 then 0.9030899869919435%float
  else if n =? 12 then 1.0791812460476249%float
  else if n =? 20 then 1.3010299956639813%float
  else if n =? 24 then 1.380211241711606%float
  else if n =? 30 then 1.4771212547196624%float
  else if n =? 32 then 1.505149978319906%float
  else if n =? 40 then 1.6020599913279625%float
  else if n =? 120 then 2.0791812460476247%float
  else PyFloat.of_int (Z.of_nat (String.length (pretty n)) - 1).

Definition sample_libm : Libm := {| math_log10 := sample_log10 |}.

(** A calendar that renders a timestamp by its digits and accepts the
    timestamps of the years 1 to 9999. *)
Definition sample_calendar : Calendar :=
  let render (ts : Z) : outcome string :=
    if (-62135596800 <=? ts) && (ts <=? 253402300799)
    then Return (String.append "@" (pretty ts))
    else Raise (Exception ValueError "year is out of range") in
  {| utc_isoformat := render; utc_strftime := render |}.

(** The world of [test_pipeline.py]: a clock, and the messages that the
    notifiers got and the files that were written. *)
Module FakeWorld.
Record t := mk {
  clock : datetime.t;
  sent : list (string * string * string);
  files : list string
}.
End FakeWorld.

Definition lookup_posts (posts_by_subreddit : list (string * list RedditPost.t))
  (subreddit : string) : list RedditPost.t :=
  match find (fun entry => String.eqb (fst entry) subreddit) posts_by_subreddit with
  | Some entry => snd entry
  | None => []
  end.

(** [FakeRedditClient.fetch_new_posts_since] *)
Definition FakeRedditClient (posts_by_subreddit : list (string * list RedditPost.t))
  : Client FakeWorld.t :=
  fun w subreddit since_utc max_posts =>
    let posts := lookup_posts posts_by_subreddit subreddit in
    let filtered := filter (fun post => since_utc <=? RedditPost.created_utc post) posts in
    (w, Return (firstn (Z.to_nat max_posts) filtered)).

(** [FakeNotifier.send] *)
Definition FakeNotifier : Notifier FakeWorld.t :=
  fun w subject body report_path =>
    (FakeWorld.mk (FakeWorld.clock w)
       (FakeWorld.sent w ++ [(subject, body, report_path)])%list (FakeWorld.files w),
     Return tt).

(** A notifier whose channel is down. *)
Definition BrokenNotifier : Notifier FakeWorld.t :=
  fun w _ _ _ => (w, Raise (Exception (OtherException "SMTPException") "connection refused")).

(** A client that is interrupted from the keyboard. *)
Definition InterruptedClient : Client FakeWorld.t :=
  fun w _ _ _ => (w, Raise (Exception KeyboardInterrupt EmptyString)).

(** A client whose requests all fail. *)
Definition BrokenClient : Client FakeWorld.t :=
  fun w _ _ _ => (w, Raise (Exception RuntimeError "Failed to fetch URL: unknown error")).

Definition write_file (w : FakeWorld.t) (destination : string) : FakeWorld.t * outcome unit :=
  (FakeWorld.mk (FakeWorld.clock w) (FakeWorld.sent w)
     (FakeWorld.files w ++ [destination])%list, Return tt).

Definition fake_outside : Outside FakeWorld.t := {|
  time_now := fun w => (w, datetime.timestamp (FakeWorld.clock w));
  mkdir := fun w _ => (w, Return tt);
  sqlite3_connect := fun w _ => (w, Return tt);
  RedditClient := fun _ => BrokenClient;
  export_ideas_csv := fun w _ destination => write_file w destination;
  write_report := fun w _ _ _ _ destination => write_file w destination;
  EmailNotifier := fun _ => FakeNotifier;
  TelegramNotifier := fun _ => FakeNotifier
|}.

(** [FakeGeminiAssessor] of [test_llm_assessor.py]; its state is the
    number of calls. *)
Definition FakeGeminiAssessor : Assessor nat :=
  fun calls post idea =>
    (S calls,
     Return (Some {|
       GeminiAssessment.profit_score := 82.0%float;
       GeminiAssessment.confidence := 0.74%float;
       GeminiAssessment.summary :=
         PyStr.take 240 (String.append "LLM summary for " (RedditPost.title post));
       GeminiAssessment.monetization_hint := "Charge for automation as a monthly SaaS.";
       GeminiAssessment.reason_tags := ["llm_real_pain"; "llm_pays_signal"] |})).

(** An endpoint that never answers in time; its state is the number of
    requests it has received. *)
Definition unreachable_endpoint : GeminiEndpoint nat := {|
  urlopen := fun n _ _ _ => (S n, Failure (Exception TimeoutError "timed out"));
  sleep := fun n _ => n
|}.

(** An endpoint that answers every request with the same reply. *)
Definition steady_endpoint (reply : option ParsedReply.t) : GeminiEndpoint nat := {|
  urlopen := fun n _ _ _ => (S n, Response reply);
  sleep := fun n _ => n
|}.

(** An endpoint that times out on its first [failures] requests and then
    answers with [reply]; its state is the number of requests received. *)
Definition flaky_endpoint (failures : nat) (reply : option ParsedReply.t)
  : GeminiEndpoint nat := {|
  urlopen := fun n _ _ _ =>
    (S n, if (n <? failures)%nat then Failure (Exception TimeoutError "timed out")
          else Response reply);
  sleep := fun n _ => n
|}.

(** An endpoint whose answers cannot be decoded as UTF-8. *)
Definition garbled_endpoint : GeminiEndpoint nat := {|
  urlopen := fun n _ _ _ =>
    (S n, Failure (Exception (OtherException "UnicodeDecodeError") "invalid start byte"));
  sleep := fun n _ => n
|}.

(** A reply with numbers out of range and tags to normalize. *)
Definition test_reply : ParsedReply.t :=
  {| ParsedReply.profit_score := Some 182.5%float;
     ParsedReply.confidence := Some (-0.5)%float;
     ParsedReply.summary := "  Teams lose hours to manual reports.  ";
     ParsedReply.monetization_hint := "Monthly subscription";
     ParsedReply.reason_tags := Some ["Real Pain"; "pays-signal!"; "real pain"; "fourth"] |}.

Definition test_post (post_id title selftext : string) (created_utc num_comments upvotes : Z)
  : RedditPost.t :=
  {| RedditPost.post_id := post_id;
     RedditPost.subreddit := "vibecoding";
     RedditPost.title := title;
     RedditPost.selftext := selftext;
     RedditPost.permalink := String.append "https://reddit.com/r/vibecoding/" post_id;
     RedditPost.url := String.append "https://reddit.com/r/vibecoding/" post_id;
     RedditPost.author := "u1";
     RedditPost.created_utc := created_utc;
     RedditPost.num_comments := num_comments;
     RedditPost.upvotes := upvotes;
     RedditPost.is_self := true |}.

Definition test_idea (post_id title : string) (relevance_score : float) (created_utc : Z)
  : IdeaCandidate.t :=
  {| IdeaCandidate.post_id := post_id;
     IdeaCandidate.subreddit := "vibecoding";
     IdeaCandidate.title := title;
     IdeaCandidate.problem_summary := "old summary";
     IdeaCandidate.solution_hint := "old hint";
     IdeaCandidate.relevance_score := relevance_score;
     IdeaCandidate.reason_tags := ["pain_point"];
     IdeaCandidate.created_utc := created_utc;
     IdeaCandidate.permalink := String.append "https://reddit.com/r/vibecoding/" post_id;
     IdeaCandidate.url := String.append "https://reddit.com/r/vibecoding/" post_id;
     IdeaCandidate.author := "u1";
     IdeaCandidate.num_comments := 3;
     IdeaCandidate.upvotes := 20;
     IdeaCandidate.llm_profit_score := None;
     IdeaCandidate.llm_confidence := None |}.

Definition test_gemini (max_candidates : Z) : GeminiConfig.t :=
  {| GeminiConfig.enabled := true;
     GeminiConfig.api_key := "fake-key";
     GeminiConfig.model := "gemini-2.5-flash-lite";
     GeminiConfig.temperature := 0.2%float;
     GeminiConfig.max_candidates := max_candidates;
     GeminiConfig.timeout_seconds := 20 |}.

(** [build_config] of the tests. *)
Definition test_config (subreddits : list string) (lookback_hours : Z)
  (gemini : option GeminiConfig.t) : AppConfig.t :=
  {| AppConfig.subreddits := subreddits;
     AppConfig.lookback_hours := lookback_hours;
     AppConfig.max_posts_per_subreddit := 10;
     AppConfig.min_score := 2.0%float;
     AppConfig.report_top_n := 10;
     AppConfig.data_dir := "data";
     AppConfig.output_dir := "output";
     AppConfig.user_agent := "test-agent";
     AppConfig.include_keywords :=
       ["problem"; "manual"; "automate"; "tool"; "app"; "passive income"];
     AppConfig.exclude_keywords := ["hiring"];
     AppConfig.smtp := None;
     AppConfig.telegram := None;
     AppConfig.gemini := gemini |}.

(** The posts and ideas of [test_enrichment_updates_top_candidates]. *)
Definition llm_test_posts : list RedditPost.t :=
  [ test_post "1" "Automate reporting for ops teams"
      "Manual reporting is slow and painful." 1700000000 3 20;
    test_post "2" "Low signal item" "Some post text." 1700000010 1 2;
    test_post "3" "Third item not assessed due to max_candidates"
      "Manual work problem for a niche." 1700000020 0 1 ].

Definition llm_test_ideas : list IdeaCandidate.t :=
  [ test_idea "1" "Automate reporting for ops teams" 4.0%float 1700000000;
    test_idea "2" "Low signal item" 3.8%float 1700000010;
    test_idea "3" "Third item" 1.1%float 1700000020 ].

(** The moment and the post of [test_run_once_generates_csv_and_report]:
    noon of 2026-02-12, and a post one hour older. *)
Definition noon : datetime.t := datetime.utc 1770897600.

Definition pipeline_post : RedditPost.t :=
  test_post "x1" "Tool idea to automate bug triage workflow"
    "This manual process is frustrating and slow." (1770897600 - 3600) 12 40.

(** Three posts for [extract_ideas]: two that score alike and one, from
    [test_extract_filters_low_signal_posts], that does not qualify. *)
Definition extractor_posts : list RedditPost.t :=
  [ test_post "x1" "Tool idea to automate bug triage workflow"
      "This manual process is frustrating and slow." 1770894000 12 40;
    test_post "bad1" "Weekend photos from my trip" "No work ideas here." 1700000200 0 1;
    test_post "x2" "Tool idea to automate bug triage workflow"
      "This manual process is frustrating and slow." 1770894060 12 40 ].

(** An idea with a tag that holds a comma. *)
Definition comma_idea : IdeaCandidate.t :=
  IdeaCandidate.set_reason_tags ["llm_low,cost"]
    (test_idea "1" "Automate reporting for ops teams" 4.0%float 1700000000).

(** A machine without any database file. *)
Definition fresh_state : Machine.t FakeWorld.t :=
  Machine.mk (FakeWorld.mk noon [] []) ∅ [].

Definition pipeline_client : Client FakeWorld.t :=
  FakeRedditClient [("vibecoding", [pipeline_post])].

(** The state that the run of [test_run_once_generates_csv_and_report]
    leaves behind. *)
Definition state_after_noon_run : Machine.t FakeWorld.t :=
  Eval vm_compute in
    fst (@run_once sample_libm sample_calendar _ fake_outside
           (test_config ["vibecoding"] 168 None) "daily" (Some pipeline_client)
           (Some FakeNotifier) (Some noon) fresh_state).

(** The two moments of [test_second_run_within_7_days_uses_last_success_time]:
    noon of 2026-02-01 and of 2026-02-02. *)
Definition first_noon : datetime.t := datetime.utc 1769947200.

Definition second_noon : datetime.t := datetime.utc 1770033600.

(** Two moments of the evening of 2026-02-12 in UTC: 22:30, given in UTC,
    and 23:15, given in the zone one hour east of UTC, where it is 00:15
    of 2026-02-13. *)
Definition evening_utc : datetime.t := datetime.utc 1770935400.

Definition same_evening_east : datetime.t :=
  {| datetime.timestamp := 1770938100; datetime.utcoffset := 3600 |}.

Definition incremental_client : Client FakeWorld.t :=
  FakeRedditClient
    [("vibecoding",
      [ test_post "new_post" "Automate weekly status updates"
          "Manual updates are slow and repetitive." (1770033600 - 1800) 8 32;
        test_post "old_post" "Old post outside incremental window"
          "An older post that should not be refetched after first run."
          (1769947200 - 8 * 24 * 60 * 60) 1 2 ])].

Definition state_after_first_noon : Machine.t FakeWorld.t :=
  Eval vm_compute in
    fst (@run_once sample_libm sample_calendar _ fake_outside
           (test_config ["vibecoding"] 168 None) "daily" (Some incremental_client)
           None (Some first_noon) fresh_state).

(** An endpoint that answers the k-th request with the k-th page of a
    list, and with an empty listing after the last one; its state is the
    number of requests received. *)
Definition paged_endpoint (pages : list Listing.t) : RedditEndpoint nat := {|
  reddit_urlopen := fun n _ _ _ =>
    (S n, Payload (nth n pages (Listing.mk [] None)));
  reddit_sleep := fun n _ => n
|}.

Definition test_child (id : string) (created_utc : Z) : Child.t :=
  {| Child.id := Some id;
     Child.subreddit := Some "vibecoding";
     Child.title := Some " Automate weekly status updates ";
     Child.selftext := Some "Manual updates are slow.";
     Child.permalink := Some (String.append "/r/vibecoding/comments/" id);
     Child.url := None;
     Child.author := None;
     Child.created_utc := Some created_utc;
     Child.num_comments := Some 8;
     Child.ups := Some 32;
     Child.is_self := Some true |}.

(** Two pages of two posts each, from new to old. *)
Definition test_pages : list Listing.t :=
  [ Listing.mk [test_child "p4" 1770033400; test_child "p3" 1770033300] (Some "t3_p3");
    Listing.mk [test_child "p2" 1770033200; test_child "p1" 1770033100] None ].

Definition test_reddit : Reddit.t nat := Reddit.mk "test-agent" 20 3 0%nat.

(** * Properties *)

(** ** Float comparison *)

Lemma SFcompare_refl s : s <> S754_nan -> SFcompare s s = Some Eq.
Proof.
  destruct s as [b|b| |b m e]; simpl; intros Hs; try congruence.
  - now destruct b.
  - rewrite Z.compare_refl, Pos.compare_cont_refl. now destruct b.
Qed.

Lemma is_nan_Prim2SF x : PrimFloat.is_nan x = true <-> Prim2SF x = S754_nan.
Proof.
  unfold PrimFloat.is_nan. rewrite FloatAxioms.eqb_spec. unfold SFeqb. split.
  - intros Hx. destruct (Prim2SF x) eqn:E; try reflexivity;
      rewrite SFcompare_refl in Hx by congruence; discriminate.
  - intros ->. reflexivity.
Qed.

Lemma is_number_Prim2SF x : PyFloat.is_number x <-> Prim2SF x <> S754_nan.
Proof.
  unfold PyFloat.is_number. rewrite <- is_nan_Prim2SF. destruct (PrimFloat.is_nan x); split; congruence.
Qed.

Ltac sf_cases :=
  repeat match goal with
    | b : bool |- _ => destruct b
    end; simpl; try congruence;
  repeat match goal with
    | |- context [(?x ?= ?y)%Z] => destruct (Z.compare_spec x y); subst; simpl
    | |- context [Pos.compare_cont Eq ?x ?y] =>
        change (Pos.compare_cont Eq x y) with (Pos.compare x y);
        destruct (Pos.compare_spec x y); subst; simpl
    end; try congruence; try lia.

Lemma SFltb_trans a b c : SFltb a b = true -> SFltb b c = true -> SFltb a c = true.
Proof.
  unfold SFltb, SFcompare.
  destruct a as [sa|sa| |sa ma ea], b as [sb|sb| |sb mb eb], c as [sc|sc| |sc mc ec];
    sf_cases.
Qed.

Lemma SFltb_asym a b : SFltb a b = true -> SFltb b a = false.
Proof.
  unfold SFltb, SFcompare.
  destruct a as [sa|sa| |sa ma ea], b as [sb|sb| |sb mb eb]; sf_cases.
Qed.

Lemma SFltb_neg_trans a b c :
  b <> S754_nan -> SFltb a b = false -> SFltb b c = false -> SFltb a c = false.
Proof.
  unfold SFltb, SFcompare.
  destruct a as [sa|sa| |sa ma ea], b as [sb|sb| |sb mb eb], c as [sc|sc| |sc mc ec];
    intros Hb; try congruence; clear Hb; sf_cases.
Qed.

Lemma SFleb_ltb a b : a <> S754_nan -> b <> S754_nan -> SFleb a b = negb (SFltb b a).
Proof.
  unfold SFleb, SFltb, SFcompare.
  destruct a as [sa|sa| |sa ma ea], b as [sb|sb| |sb mb eb]; intros Ha Hb;
    try congruence; clear Ha Hb; sf_cases.
Qed.

Lemma SFeqb_ltb a b :
  a <> S754_nan -> b <> S754_nan -> SFeqb a b = negb (SFltb a b) && negb (SFltb b a).
Proof.
  unfold SFeqb, SFltb, SFcompare.
  destruct a as [sa|sa| |sa ma ea], b as [sb|sb| |sb mb eb]; intros Ha Hb;
    try congruence; clear Ha Hb; sf_cases.
Qed.

Lemma SFltb_number a b : SFltb a b = true -> a <> S754_nan /\ b <> S754_nan.
Proof.
  unfold SFltb, SFcompare.
  destruct a as [sa|sa| |sa ma ea], b as [sb|sb| |sb mb eb]; simpl; intros; split; congruence.
Qed.

Lemma SFeqb_number a b : SFeqb a b = true -> a <> S754_nan /\ b <> S754_nan.
Proof.
  unfold SFeqb, SFcompare.
  destruct a as [sa|sa| |sa ma ea], b as [sb|sb| |sb mb eb]; simpl; intros; split; congruence.
Qed.

Lemma lt_trans a b c : PyFloat.lt a b = true -> PyFloat.lt b c = true -> PyFloat.lt a c = true.
Proof. unfold PyFloat.lt. rewrite !FloatAxioms.ltb_spec. apply SFltb_trans. Qed.

Lemma lt_asym a b : PyFloat.lt a b = true -> PyFloat.lt b a = false.
Proof. unfold PyFloat.lt. rewrite !FloatAxioms.ltb_spec. apply SFltb_asym. Qed.

Lemma lt_neg_trans a b c :
  PyFloat.is_number b -> PyFloat.lt a b = false -> PyFloat.lt b c = false -> PyFloat.lt a c = false.
Proof.
  unfold PyFloat.lt. rewrite !FloatAxioms.ltb_spec, is_number_Prim2SF. apply SFltb_neg_trans.
Qed.

Lemma le_not_lt a b : PyFloat.is_number a -> PyFloat.is_number b -> PyFloat.le a b = negb (PyFloat.lt b a).
Proof.
  unfold PyFloat.le, PyFloat.lt. rewrite FloatAxioms.leb_spec, FloatAxioms.ltb_spec, !is_number_Prim2SF.
  apply SFleb_ltb.
Qed.

Lemma eq_not_lt a b :
  PyFloat.is_number a -> PyFloat.is_number b ->
  PyFloat.eq a b = negb (PyFloat.lt a b) && negb (PyFloat.lt b a).
Proof.
  unfold PyFloat.eq, PyFloat.lt. rewrite FloatAxioms.eqb_spec, !ltb_spec, !is_number_Prim2SF.
  apply SFeqb_ltb.
Qed.

Lemma lt_is_number a b : PyFloat.lt a b = true -> PyFloat.is_number a /\ PyFloat.is_number b.
Proof. unfold PyFloat.lt. rewrite FloatAxioms.ltb_spec, !is_number_Prim2SF. apply SFltb_number. Qed.

Lemma eq_is_number a b : PyFloat.eq a b = true -> PyFloat.is_number a /\ PyFloat.is_number b.
Proof. unfold PyFloat.eq. rewrite FloatAxioms.eqb_spec, !is_number_Prim2SF. apply SFeqb_number. Qed.

Lemma eq_refl_number a : PyFloat.is_number a -> PyFloat.eq a a = true.
Proof.
  intros Ha. unfold PyFloat.eq. unfold PyFloat.is_number, PrimFloat.is_nan in Ha.
  now destruct (a =? a)%float.
Qed.

Lemma eq_sym a b : PyFloat.eq a b = PyFloat.eq b a.
Proof.
  unfold PyFloat.eq. rewrite !FloatAxioms.eqb_spec. unfold SFeqb, SFcompare.
  destruct (Prim2SF a) as [sa|sa| |sa ma ea], (Prim2SF b) as [sb|sb| |sb mb eb]; sf_cases.
Qed.

Lemma round_is_number x n : PyFloat.is_number (PyFloat.round x n) -> PyFloat.is_number x.
Proof.
  unfold PyFloat.round. destruct (Prim2SF x) eqn:E; try tauto.
  intros _. apply is_number_Prim2SF. congruence.
Qed.

Lemma SFltb_eqb_absurd a b k :
  SFltb a b = true -> SFeqb a k = true -> SFeqb b k = true -> False.
Proof.
  unfold SFltb, SFeqb, SFcompare.
  destruct a as [sa|sa| |sa ma ea], b as [sb|sb| |sb mb eb], k as [sk|sk| |sk mk ek];
    sf_cases.
Qed.

Lemma lt_eq_absurd a b k :
  PyFloat.lt a b = true -> PyFloat.eq a k = true -> PyFloat.eq b k = true -> False.
Proof.
  unfold PyFloat.lt, PyFloat.eq. rewrite FloatAxioms.ltb_spec, !FloatAxioms.eqb_spec.
  apply SFltb_eqb_absurd.
Qed.

Lemma le_refl_number a : PyFloat.is_number a -> PyFloat.le a a = true.
Proof.
  intros Ha. rewrite le_not_lt by assumption.
  destruct (PyFloat.lt a a) eqn:E; [|reflexivity].
  apply lt_asym in E as E'. congruence.
Qed.

Lemma le_trans_number a b c :
  PyFloat.is_number a -> PyFloat.is_number b -> PyFloat.is_number c ->
  PyFloat.le a b = true -> PyFloat.le b c = true -> PyFloat.le a c = true.
Proof.
  intros Ha Hb Hc. rewrite !le_not_lt by assumption. rewrite !negb_true_iff.
  intros Hab Hbc. now apply lt_neg_trans with b.
Qed.

(** ** Stable sorting *)

Section SortByFacts.
Context {A : Type} (before : A -> A -> bool).

Lemma insert_by_perm x xs : insert_by before x xs ≡ₚ x :: xs.
Proof.
  induction xs as [|y ys IH]; simpl; [reflexivity|].
  destruct (before y x); [|reflexivity].
  rewrite IH. apply Permutation_swap.
Qed.

Lemma sort_by_perm xs : sort_by before xs ≡ₚ xs.
Proof.
  induction xs as [|x xs IH]; simpl; [reflexivity|].
  rewrite insert_by_perm. now rewrite IH.
Qed.

Lemma sort_by_length xs : length (sort_by before xs) = length xs.
Proof. apply Permutation_length, sort_by_perm. Qed.

Lemma sort_by_elem_of x xs : x ∈ sort_by before xs <-> x ∈ xs.
Proof. now rewrite sort_by_perm. Qed.

Lemma sort_by_nil_inv xs : sort_by before xs = [] -> xs = [].
Proof.
  intros E. apply Permutation_nil_r. rewrite <- E. symmetry. apply sort_by_perm.
Qed.
End SortByFacts.

Section SortDescFacts.
Context {A : Type} (key : A -> float).

#[local] Abbreviation not_below := (not_below key).
#[local] Abbreviation numbers := (numbers key).

Lemma insert_desc_sorted x xs :
  PyFloat.is_number (key x) -> numbers xs ->
  StronglySorted not_below xs ->
  StronglySorted not_below (insert_by (fun a b => PyFloat.lt (key b) (key a)) x xs).
Proof.
  intros Hx Hxs Hs. induction Hs as [|y ys Hs IH Hy]; simpl.
  - repeat constructor.
  - inversion Hxs as [|? ? Hny Hnys]; subst.
    destruct (PyFloat.lt (key x) (key y)) eqn:E.
    + constructor; [now apply IH|].
      rewrite insert_by_perm. constructor; [|assumption].
      unfold not_below. rewrite le_not_lt by assumption.
      now rewrite (lt_asym _ _ E).
    + assert (Hyx : not_below x y).
      { unfold not_below. rewrite le_not_lt by assumption. now rewrite E. }
      constructor; [now constructor|].
      constructor; [assumption|].
      rewrite Forall_forall in Hy, Hnys. apply Forall_forall. intros z Hz.
      unfold not_below in *.
      apply le_trans_number with (key y); auto.
Qed.

Lemma sort_desc_numbers xs : numbers xs -> numbers (sort_desc key xs).
Proof. unfold numbers, sort_desc. now rewrite sort_by_perm. Qed.

Lemma sort_desc_sorted xs :
  numbers xs -> StronglySorted not_below (sort_desc key xs).
Proof.
  unfold sort_desc. induction xs as [|x xs IH]; simpl; intros Hn.
  - constructor.
  - inversion Hn; subst. apply insert_desc_sorted; auto.
    now apply sort_desc_numbers.
Qed.

(** The elements whose key equals [k] keep their order. *)
Lemma sort_desc_stable k xs :
  filter (fun a => PyFloat.eq (key a) k) (sort_desc key xs)
  = filter (fun a => PyFloat.eq (key a) k) xs.
Proof.
  unfold sort_desc. induction xs as [|x xs IH]; simpl; [reflexivity|].
  rewrite filter_cons, <- IH. clear IH.
  induction (sort_by (fun a b => PyFloat.lt (key b) (key a)) xs) as [|y ys IH]; simpl.
  - now rewrite filter_cons.
  - destruct (PyFloat.lt (key x) (key y)) eqn:E.
    + rewrite !filter_cons, IH.
      destruct (decide (PyFloat.eq (key y) k)) as [Hy|Hy];
        destruct (decide (PyFloat.eq (key x) k)) as [Hx|Hx]; try reflexivity.
      apply Is_true_true in Hx, Hy. destruct (lt_eq_absurd _ _ _ E Hx Hy).
    + now rewrite !filter_cons.
Qed.

(** The first element of the sorted list is a best one. *)
Lemma sort_desc_head x rest xs :
  numbers xs -> sort_desc key xs = x :: rest ->
  x ∈ xs /\ forall y, y ∈ xs -> not_below x y.
Proof.
  intros Hn E. split.
  - apply (sort_by_elem_of (fun a b => PyFloat.lt (key b) (key a))).
    unfold sort_desc in E. rewrite E. left.
  - intros y Hy. pose proof (sort_desc_sorted xs Hn) as Hs. rewrite E in Hs.
    apply (sort_by_elem_of (fun a b => PyFloat.lt (key b) (key a))) in Hy.
    unfold sort_desc in E. rewrite E in Hy.
    inversion Hs as [|? ? _ Hall]; subst.
    apply elem_of_cons in Hy as [->|Hy].
    + apply le_refl_number. apply sort_desc_numbers in Hn.
      unfold sort_desc in Hn. rewrite E in Hn. now inversion Hn.
    + rewrite Forall_forall in Hall. now apply Hall.
Qed.
End SortDescFacts.

Lemma filter_ext_Forall {A : Type} (P Q : A -> Prop)
  `{!forall x, Decision (P x)} `{!forall x, Decision (Q x)} (l : list A) :
  Forall (fun x => P x <-> Q x) l -> filter P l = filter Q l.
Proof.
  induction 1 as [|x l Hx _ IH]; [reflexivity|].
  rewrite !filter_cons, IH.
  destruct (decide (P x)), (decide (Q x)); tauto.
Qed.

(** ** extractor.py: [extract_ideas] *)

Section ExtractFacts.
Context `{Libm}.

Lemma extract_loop_filter posts config :
  extract_loop posts config
  = map (fun post => extracted_idea post config)
      (filter (fun post => negb (PyFloat.lt (fst (score_post post config))
                                   (AppConfig.min_score config))) posts).
Proof.
  induction posts as [|post rest IH]; [reflexivity|].
  cbn [extract_loop].
  destruct (score_post post config) as [score tags] eqn:E.
  destruct (PyFloat.lt score (AppConfig.min_score config)) eqn:Elt.
  - rewrite filter_cons_False; [assumption|].
    rewrite E. simpl. rewrite Elt. intros [].
  - rewrite filter_cons_True by (rewrite E; simpl; now rewrite Elt).
    simpl. unfold extracted_idea at 1. rewrite E. now f_equal.
Qed.

Lemma extracted_idea_score post config :
  IdeaCandidate.relevance_score (extracted_idea post config)
  = PyFloat.round (fst (score_post post config)) 3.
Proof. unfold extracted_idea. now destruct (score_post post config). Qed.

(** C7. The ideas of [extract_ideas] are those of the posts whose
    heuristic score is not below [min_score], one for each such post:
    there is one for each post whose score is at least [min_score] and
    none for a post that scores below it, whatever the threshold is. When
    the threshold and the scores are numbers, the posts kept are those
    whose score is at least [min_score]. The ideas come by decreasing
    relevance score when the scores are numbers, and the ideas whose
    relevance scores are equal stand in the order of their posts. *)
Theorem extract_ideas_threshold_and_order posts config :
  let ideas := extract_ideas posts config in
  let score post := fst (score_post post config) in
  let qualifying :=
    filter (fun post => negb (PyFloat.lt (score post) (AppConfig.min_score config))) posts in
  let expected := map (fun post => extracted_idea post config) qualifying in
  let scores_are_numbers :=
    Forall (fun post =>
              PyFloat.is_number (IdeaCandidate.relevance_score (extracted_idea post config)))
      posts in
  ideas ≡ₚ expected
  /\ Forall (fun post =>
               (PyFloat.le (AppConfig.min_score config) (score post) = true ->
                post ∈ qualifying)
               /\ (PyFloat.lt (score post) (AppConfig.min_score config) = true ->
                   post ∉ qualifying)) posts
  /\ (PyFloat.is_number (AppConfig.min_score config) -> scores_are_numbers ->
      qualifying
      = filter (fun post => PyFloat.le (AppConfig.min_score config) (score post)) posts)
  /\ (scores_are_numbers -> StronglySorted (not_below IdeaCandidate.relevance_score) ideas)
  /\ forall k,
       filter (fun idea => PyFloat.eq (IdeaCandidate.relevance_score idea) k) ideas
       = filter (fun idea => PyFloat.eq (IdeaCandidate.relevance_score idea) k) expected.
Proof.
  intros ideas score qualifying expected scores_are_numbers.
  assert (Hloop : extract_loop posts config = expected) by apply extract_loop_filter.
  subst ideas. unfold extract_ideas. rewrite Hloop.
  split; [apply sort_by_perm|]. split; [|split; [|split]].
  - apply Forall_forall. intros post Hpost. split.
    + intros Hle. apply list_elem_of_filter. split; [|assumption].
      destruct (PyFloat.lt (score post) (AppConfig.min_score config)) eqn:Elt; [|exact I].
      destruct (lt_is_number _ _ Elt) as [Hs Hm].
      rewrite le_not_lt, Elt in Hle by assumption. discriminate Hle.
    + intros Hlt Hin. apply list_elem_of_filter in Hin as [Hkeep _].
      rewrite Hlt in Hkeep. exact Hkeep.
  - intros Hmin Hposts. unfold qualifying.
    apply filter_ext_Forall. unfold scores_are_numbers in Hposts.
    rewrite Forall_forall in Hposts |- *.
    intros post Hpost. specialize (Hposts post Hpost).
    rewrite extracted_idea_score in Hposts. apply round_is_number in Hposts.
    unfold score. rewrite le_not_lt by assumption. reflexivity.
  - intros Hposts. apply sort_desc_sorted. unfold numbers, expected. rewrite Forall_map.
    unfold qualifying. apply Forall_forall. intros post Hpost.
    apply list_elem_of_filter in Hpost as [_ Hpost].
    unfold scores_are_numbers in Hposts. rewrite Forall_forall in Hposts. auto.
  - intros k. apply sort_desc_stable.
Qed.
End ExtractFacts.

Lemma extract_ideas_threshold_and_order_witness :
  let posts := extractor_posts in
  let config := test_config ["vibecoding"] 168 None in
  let ideas := @extract_ideas sample_libm posts config in
  map IdeaCandidate.post_id ideas = ["x1"; "x2"]
  /\ StronglySorted (not_below IdeaCandidate.relevance_score) ideas.
Proof.
  intros posts config ideas.
  destruct (@extract_ideas_threshold_and_order sample_libm posts config)
    as (_ & _ & _ & Hsorted & _).
  split; [vm_compute; reflexivity|].
  apply Hsorted. repeat constructor; vm_compute; reflexivity.
Defined.

(** ** llm_assessor.py: the enrichment loop *)

Lemma sorted_set_elem_of x xs : x ∈ PyStr.sorted_set xs <-> x ∈ xs.
Proof.
  assert (Hins : forall y ys, x ∈ PyStr.insert_sorted y ys <-> x = y \/ x ∈ ys).
  { intros y ys. induction ys as [|z zs IH]; simpl.
    - rewrite list_elem_of_singleton. rewrite elem_of_nil. tauto.
    - destruct (String.compare y z) eqn:E.
      + apply String.compare_eq_iff in E. subst. rewrite elem_of_cons. tauto.
      + rewrite !elem_of_cons. tauto.
      + rewrite !elem_of_cons, IH. tauto. }
  unfold PyStr.sorted_set. induction xs as [|y ys IH]; simpl; [reflexivity|].
  rewrite Hins, IH, elem_of_cons. reflexivity.
Qed.

Lemma merge_assessment_score idea assessment :
  IdeaCandidate.relevance_score (merge_assessment idea assessment)
  = PyFloat.round
      (IdeaCandidate.relevance_score idea * 0.35
       + GeminiAssessment.profit_score assessment / 10.0 * 0.65)%float 3.
Proof.
  unfold merge_assessment.
  destruct (PyStr.truthy (GeminiAssessment.summary assessment)),
    (PyStr.truthy (GeminiAssessment.monetization_hint assessment)); reflexivity.
Qed.

Lemma merge_assessment_tags idea assessment tag :
  tag ∈ IdeaCandidate.reason_tags (merge_assessment idea assessment)
  <-> tag ∈ IdeaCandidate.reason_tags idea \/ tag = "llm_assessed"
      \/ tag ∈ GeminiAssessment.reason_tags assessment.
Proof.
  unfold merge_assessment.
  destruct (PyStr.truthy (GeminiAssessment.summary assessment)),
    (PyStr.truthy (GeminiAssessment.monetization_hint assessment)); simpl;
    rewrite sorted_set_elem_of, elem_of_app, elem_of_cons; reflexivity.
Qed.

Lemma select_targets_spec ideas g :
  exists others,
    select_targets ideas g ++ others ≡ₚ seq 0 (length ideas).
Proof.
  unfold select_targets.
  exists (skipn (Z.to_nat (Z.max (GeminiConfig.max_candidates g) 1))
            (sort_desc (ref_score ideas) (seq 0 (length ideas)))).
  rewrite take_drop. apply sort_by_perm.
Qed.

Lemma select_targets_NoDup ideas g : NoDup (select_targets ideas g).
Proof.
  destruct (select_targets_spec ideas g) as [others Hp].
  pose proof (NoDup_seq 0 (length ideas)) as Hn. rewrite <- Hp in Hn.
  now apply NoDup_app in Hn as [Hn _].
Qed.

Lemma select_targets_valid ideas g r :
  r ∈ select_targets ideas g -> (r < length ideas)%nat.
Proof.
  destruct (select_targets_spec ideas g) as [others Hp]. intros Hr.
  assert (Hin : r ∈ seq 0 (length ideas)) by (rewrite <- Hp, elem_of_app; now left).
  apply elem_of_seq in Hin. lia.
Qed.

Section EnrichFacts.
Context {A : Type} `{Assessor A}.

Lemma enrich_loop_app post_by_id pre rest assessor heap calls :
  enrich_loop post_by_id (pre ++ rest) assessor heap calls
  = match enrich_loop post_by_id pre assessor heap calls with
    | (assessor1, heap1, calls1, Return _) => enrich_loop post_by_id rest assessor1 heap1 calls1
    | (assessor1, heap1, calls1, Raise e) => (assessor1, heap1, calls1, Raise e)
    end.
Proof.
  revert assessor heap calls. induction pre as [|r pre IH]; intros; simpl; [reflexivity|].
  destruct (heap !! r) as [idea|]; [|apply IH].
  destruct (post_by_id !! IdeaCandidate.post_id idea) as [post|]; [|apply IH].
  destruct (assess assessor post idea) as [assessor' [[assessment|]|e]];
    [apply IH | apply IH | reflexivity].
Qed.

(** The loop writes only to the objects it is given, and the store keeps
    its size. *)
Lemma enrich_loop_frame post_by_id targets assessor heap calls assessor' heap' calls' result :
  enrich_loop post_by_id targets assessor heap calls = (assessor', heap', calls', result) ->
  length heap' = length heap
  /\ forall r, r ∉ targets -> heap' !! r = heap !! r.
Proof.
  revert assessor heap calls. induction targets as [|t targets IH]; intros assessor heap calls; simpl.
  - intros [= <- <- <- <-]. auto.
  - assert (Hskip :
        enrich_loop post_by_id targets assessor heap calls = (assessor', heap', calls', result) ->
        length heap' = length heap /\ forall r, r ∉ t :: targets -> heap' !! r = heap !! r).
    { intros E. apply IH in E as [Hl Hf]. split; [assumption|].
      intros r Hr. apply Hf. intros Hin. apply Hr. now right. }
    destruct (heap !! t) as [idea|]; [|assumption].
    destruct (post_by_id !! IdeaCandidate.post_id idea) as [post|]; [|assumption].
    destruct (assess assessor post idea) as [assessor1 [[assessment|]|e]].
    + intros E. apply IH in E as [Hl Hf]. rewrite length_insert in Hl. split; [assumption|].
      intros r Hr. rewrite Hf by (intros Hin; apply Hr; now right).
      apply list_lookup_insert_ne. intros ->. apply Hr. left.
    + intros E. apply IH in E as [Hl Hf]. split; [assumption|].
      intros r Hr. apply Hf. intros Hin. apply Hr. now right.
    + intros [= <- <- <- <-]. auto.
Qed.

Lemma enrich_ideas_unfold ideas posts config g assessor :
  ideas <> [] -> AppConfig.gemini config = Some g -> GeminiConfig.enabled g = true ->
  enrich_ideas_with_gemini ideas posts config assessor
  = let '(assessor', heap, calls, result) :=
      enrich_loop (build_post_by_id posts) (select_targets ideas g) assessor ideas [] in
    mk_enrich_result assessor' heap calls
      match result with
      | Raise e => Raise e
      | Return _ =>
          Return (omap (fun r => heap !! r)
                    (sort_desc (ref_score heap)
                       (sort_desc (ref_score ideas) (seq 0 (length ideas)))))
      end.
Proof.
  intros Hne Hg Hen. unfold enrich_ideas_with_gemini.
  destruct ideas as [|idea0 ideas']; [congruence|].
  rewrite Hg, Hen. simpl negb. cbv iota.
  destruct (enrich_loop _ _ _ _ _) as [[[assessor' heap] calls] [u|e]]; reflexivity.
Qed.
End EnrichFacts.

Section EnrichTheorems.
Context {A : Type} `{Assessor A}.

(** What the loop does at a candidate that gets an assessment: the
    candidates before it were processed without an exception, the object
    still holds the idea, and [assess] returns a result. *)
Lemma enrich_loop_candidate post_by_id ideas pre r rest assessor assessor1 heap1 calls1
  idea post assessor2 assessment :
  NoDup (pre ++ r :: rest) -> (r < length ideas)%nat ->
  enrich_loop post_by_id pre assessor ideas [] = (assessor1, heap1, calls1, Return tt) ->
  ideas !! r = Some idea ->
  post_by_id !! IdeaCandidate.post_id idea = Some post ->
  assess assessor1 post idea = (assessor2, Return (Some assessment)) ->
  exists assessor3 heap3 calls3 result,
    enrich_loop post_by_id (pre ++ r :: rest) assessor ideas []
    = (assessor3, heap3, calls3, result)
    /\ length heap3 = length ideas
    /\ heap3 !! r = Some (merge_assessment idea assessment).
Proof.
  intros Hnd Hr Hpre Hidea Hpost Hassess.
  apply NoDup_app in Hnd as (_ & Hdisj & Hnd2). apply NoDup_cons in Hnd2 as [Hr_rest _].
  destruct (enrich_loop_frame _ _ _ _ _ _ _ _ _ Hpre) as [Hlen1 Hframe1].
  assert (Hr_pre : r ∉ pre) by (intros Hin; apply (Hdisj r Hin); left).
  rewrite enrich_loop_app, Hpre. simpl.
  rewrite (Hframe1 r Hr_pre), Hidea, Hpost, Hassess.
  destruct (enrich_loop post_by_id rest assessor2
              (<[r:=merge_assessment idea assessment]> heap1)
              (calls1 ++ [(post, idea)])) as [[[assessor3 heap3] calls3] result] eqn:E.
  destruct (enrich_loop_frame _ _ _ _ _ _ _ _ _ E) as [Hlen3 Hframe3].
  exists assessor3, heap3, calls3, result. split; [reflexivity|].
  rewrite length_insert in Hlen3. split; [congruence|].
  rewrite (Hframe3 r Hr_rest). apply list_lookup_insert_eq. lia.
Qed.

(** C6. A candidate that receives an enrichment result with profit score
    [P] while its idea has relevance score [S] ends with the relevance
    score [round(S * 0.35 + (P / 10.0) * 0.65, 3)], which is 6.73 for
    [S = 4.0] and [P = 82.0]; its tags contain [llm_assessed] and the
    tags of the result; and the idea is in the returned list. *)
Theorem enrichment_merge_blend ideas posts config g assessor pre r rest
  assessor1 heap1 calls1 idea post assessor2 assessment :
  AppConfig.gemini config = Some g -> GeminiConfig.enabled g = true ->
  select_targets ideas g = pre ++ r :: rest ->
  enrich_loop (build_post_by_id posts) pre assessor ideas []
  = (assessor1, heap1, calls1, Return tt) ->
  ideas !! r = Some idea ->
  build_post_by_id posts !! IdeaCandidate.post_id idea = Some post ->
  assess assessor1 post idea = (assessor2, Return (Some assessment)) ->
  let result := enrich_ideas_with_gemini ideas posts config assessor in
  let S := IdeaCandidate.relevance_score idea in
  let P := GeminiAssessment.profit_score assessment in
  exists merged,
    er_ideas result !! r = Some merged
    /\ IdeaCandidate.relevance_score merged
       = PyFloat.round (S * 0.35 + P / 10.0 * 0.65)%float 3
    /\ (S = 4.0%float -> P = 82.0%float ->
        IdeaCandidate.relevance_score merged = 6.73%float)
    /\ "llm_assessed" ∈ IdeaCandidate.reason_tags merged
    /\ (forall tag, tag ∈ GeminiAssessment.reason_tags assessment ->
                    tag ∈ IdeaCandidate.reason_tags merged)
    /\ (forall returned, er_result result = Return returned -> merged ∈ returned).
Proof.
  intros Hg Hen Htargets Hpre Hidea Hpost Hassess result S P.
  assert (Hne : ideas <> []) by (intros ->; discriminate).
  assert (Hr : (r < length ideas)%nat).
  { apply (select_targets_valid ideas g). rewrite Htargets, elem_of_app. right. left. }
  pose proof (select_targets_NoDup ideas g) as Hnd. rewrite Htargets in Hnd.
  destruct (enrich_loop_candidate _ _ _ _ _ _ _ _ _ _ _ _ _ Hnd Hr Hpre Hidea Hpost Hassess)
    as (assessor3 & heap3 & calls3 & res & Eloop & Hlen & Hmerged).
  subst result. rewrite (enrich_ideas_unfold _ _ _ _ _ Hne Hg Hen), Htargets, Eloop.
  exists (merge_assessment idea assessment). cbn [er_ideas er_result].
  split; [assumption|]. split; [apply merge_assessment_score|].
  split.
  { intros HS HP. rewrite merge_assessment_score. fold S P. rewrite HS, HP. reflexivity. }
  split; [apply merge_assessment_tags; auto|].
  split; [intros tag Htag; apply merge_assessment_tags; auto|].
  intros returned Hret. destruct res as [u|e]; [|discriminate].
  injection Hret as <-. apply list_elem_of_omap. exists r. split; [|assumption].
  apply sort_by_elem_of, sort_by_elem_of, elem_of_seq. lia.
Qed.

(** With a cap of zero or less, the targets are one reference, to an idea
    of the list; when the scores are numbers, no idea has a better one. *)
Lemma select_one_target ideas g :
  ideas <> [] -> GeminiConfig.max_candidates g <= 0 ->
  exists r top,
    select_targets ideas g = [r] /\ ideas !! r = Some top
    /\ (numbers IdeaCandidate.relevance_score ideas ->
        forall other, other ∈ ideas -> not_below IdeaCandidate.relevance_score top other).
Proof.
  intros Hne Hcap. unfold select_targets.
  replace (Z.max (GeminiConfig.max_candidates g) 1) with 1 by lia.
  change (Z.to_nat 1) with 1%nat.
  destruct (sort_desc (ref_score ideas) (seq 0 (length ideas))) as [|r others] eqn:E.
  { apply sort_by_nil_inv in E. destruct ideas; [congruence|discriminate]. }
  assert (Hr : r ∈ seq 0 (length ideas)).
  { apply (sort_by_elem_of (fun a b => PyFloat.lt (ref_score ideas b) (ref_score ideas a))).
    unfold sort_desc in E. rewrite E. left. }
  apply elem_of_seq in Hr.
  destruct (lookup_lt_is_Some_2 ideas r) as [top Htop]; [lia|].
  exists r, top. split; [reflexivity|]. split; [assumption|].
  intros Hnum other Hother.
  assert (Hrefs : numbers (ref_score ideas) (seq 0 (length ideas))).
  { apply Forall_forall. intros j Hj. apply elem_of_seq in Hj.
    destruct (lookup_lt_is_Some_2 ideas j) as [idea Hidea]; [lia|].
    unfold ref_score. rewrite Hidea. simpl.
    unfold numbers in Hnum. rewrite Forall_forall in Hnum. apply Hnum.
    apply list_elem_of_lookup. eauto. }
  destruct (sort_desc_head _ _ _ _ Hrefs E) as [_ Hbest].
  apply list_elem_of_lookup in Hother as [j Hj].
  assert (Hjlt : (j < length ideas)%nat) by (eapply lookup_lt_Some; eassumption).
  specialize (Hbest j). unfold not_below, ref_score in Hbest. rewrite Htop, Hj in Hbest.
  apply Hbest. apply elem_of_seq. lia.
Qed.

(** C10, as the code has it. With a cap of zero or less, one candidate is
    selected, an idea of the best score (when the scores are numbers), and
    [assess] is called for it once when its post is among [posts]; it is
    not called at all when the post is missing. *)
Theorem zero_cap_selects_one_candidate ideas posts config g assessor :
  ideas <> [] -> AppConfig.gemini config = Some g -> GeminiConfig.enabled g = true ->
  GeminiConfig.max_candidates g <= 0 ->
  exists r top,
    select_targets ideas g = [r] /\ ideas !! r = Some top
    /\ (numbers IdeaCandidate.relevance_score ideas ->
        forall other, other ∈ ideas -> not_below IdeaCandidate.relevance_score top other)
    /\ er_calls (enrich_ideas_with_gemini ideas posts config assessor)
       = match build_post_by_id posts !! IdeaCandidate.post_id top with
         | Some post => [(post, top)]
         | None => []
         end.
Proof.
  intros Hne Hg Hen Hcap.
  destruct (select_one_target ideas g Hne Hcap) as (r & top & Htargets & Htop & Hbest).
  exists r, top. repeat split; try assumption.
  rewrite (enrich_ideas_unfold _ _ _ _ _ Hne Hg Hen), Htargets. simpl.
  rewrite Htop.
  destruct (build_post_by_id posts !! IdeaCandidate.post_id top) as [post|]; [|reflexivity].
  destruct (assess assessor post top) as [assessor' [[assessment|]|e]]; reflexivity.
Qed.
End EnrichTheorems.

Lemma enrichment_merge_blend_witness :
  let config := test_config [] 168 (Some (test_gemini 2)) in
  let idea := test_idea "1" "Automate reporting for ops teams" 4.0%float 1700000000 in
  let result := @enrich_ideas_with_gemini nat FakeGeminiAssessor llm_test_ideas llm_test_posts
                  config 0%nat in
  (select_targets llm_test_ideas (test_gemini 2) = [] ++ 0%nat :: [1%nat]
   /\ llm_test_ideas !! 0%nat = Some idea)
  /\ exists merged,
       er_ideas result !! 0%nat = Some merged
       /\ IdeaCandidate.relevance_score merged = 6.73%float
       /\ "llm_assessed" ∈ IdeaCandidate.reason_tags merged
       /\ "llm_real_pain" ∈ IdeaCandidate.reason_tags merged.
Proof.
  intros config idea result.
  assert (Htargets : select_targets llm_test_ideas (test_gemini 2) = [] ++ 0%nat :: [1%nat])
    by (vm_compute; reflexivity).
  assert (Hidea : llm_test_ideas !! 0%nat = Some idea) by reflexivity.
  split; [split; assumption|].
  destruct (@enrichment_merge_blend nat FakeGeminiAssessor llm_test_ideas llm_test_posts
              config (test_gemini 2) 0%nat [] 0%nat [1%nat] 0%nat llm_test_ideas [] idea
              (test_post "1" "Automate reporting for ops teams"
                 "Manual reporting is slow and painful." 1700000000 3 20)
              1%nat
              {| GeminiAssessment.profit_score := 82.0%float;
                 GeminiAssessment.confidence := 0.74%float;
                 GeminiAssessment.summary := "LLM summary for Automate reporting for ops teams";
                 GeminiAssessment.monetization_hint := "Charge for automation as a monthly SaaS.";
                 GeminiAssessment.reason_tags := ["llm_real_pain"; "llm_pays_signal"] |}
              eq_refl eq_refl Htargets eq_refl Hidea)
    as (merged & Hat & _ & Hscore & Hmark & Htags & _).
  - vm_compute. reflexivity.
  - vm_compute. reflexivity.
  - exists merged. split; [exact Hat|]. split; [apply Hscore; reflexivity|].
    split; [exact Hmark|]. apply Htags. left.
Defined.

Lemma zero_cap_selects_one_candidate_witness :
  let config := test_config [] 168 (Some (test_gemini 0)) in
  (llm_test_ideas <> [] /\ GeminiConfig.max_candidates (test_gemini 0) <= 0)
  /\ exists post top,
       llm_test_ideas !! 0%nat = Some top /\ llm_test_posts !! 0%nat = Some post
       /\ er_calls (@enrich_ideas_with_gemini nat FakeGeminiAssessor llm_test_ideas
                      llm_test_posts config 0%nat) = [(post, top)].
Proof.
  intros config.
  assert (Hne : llm_test_ideas <> []) by discriminate.
  assert (Hcap : GeminiConfig.max_candidates (test_gemini 0) <= 0) by (simpl; lia).
  split; [split; assumption|].
  destruct (@zero_cap_selects_one_candidate nat FakeGeminiAssessor llm_test_ideas
              llm_test_posts config (test_gemini 0) 0%nat Hne eq_refl eq_refl Hcap)
    as (r & top & Htargets & Htop & _ & Hcalls).
  assert (Hr : r = 0%nat).
  { assert (E : select_targets llm_test_ideas (test_gemini 0) = [0%nat])
      by (vm_compute; reflexivity).
    rewrite E in Htargets. congruence. }
  subst r. injection Htop as <-.
  eexists _, _. split; [reflexivity|]. split; [reflexivity|]. exact Hcalls.
Defined.

(** With no post for the best idea, a cap of zero leads to no call of
    [assess]: the assessor is left as it was. *)
Lemma zero_cap_without_post_assesses_nothing :
  let config := test_config [] 168 (Some (test_gemini 0)) in
  let result := @enrich_ideas_with_gemini nat FakeGeminiAssessor llm_test_ideas [] config 0%nat in
  length (er_calls result) <> 1%nat /\ er_assessor result = 0%nat.
Proof. vm_compute. split; [discriminate | reflexivity]. Qed.

(** ** llm_assessor.py: a request that fails at every attempt *)

Section GeminiFacts.
Context {N : Type} `{GeminiEndpoint N}.

Lemma generate_loop_exhausted remaining attempt (self : GeminiAssessor.t N) post idea last_error :
  all_attempts_fail remaining attempt self post idea ->
  exists self' e,
    generate_loop remaining attempt self post idea last_error = (self', Raise e)
    /\ exc_cls e = RuntimeError.
Proof.
  revert attempt self last_error.
  induction remaining as [|remaining IH]; intros attempt self last_error Hfail; simpl.
  - destruct last_error; eexists _, _; split; reflexivity.
  - destruct Hfail as (n & exc & Hopen & Hretried & Hfail).
    rewrite Hopen, Hretried. apply IH. exact Hfail.
Qed.

Lemma gemini_assess_exhausted (self : GeminiAssessor.t N) post idea :
  all_attempts_fail (Z.to_nat (GeminiAssessor.max_retries self)) 1 self post idea ->
  exists self' e, assess self post idea = (self', Raise e) /\ exc_cls e = RuntimeError.
Proof.
  intros Hfail. unfold assess, GeminiAssessor_Assessor, gemini_assess, _generate_content.
  destruct (generate_loop_exhausted _ _ _ _ _ None Hfail) as (self' & e & -> & Hcls).
  eauto.
Qed.

(** C4, as the code has it. When every attempt of the request for a
    candidate fails, the exception that [_generate_content] raises leaves
    [enrich_ideas_with_gemini]: the candidate's idea is as it was, and so
    are the ideas of the candidates after it, for which [assess] is never
    called; the candidates before it keep what was merged into them. *)
Theorem exhausted_retries_escape_the_merger ideas posts config g (self : GeminiAssessor.t N)
  pre r rest self1 heap1 calls1 idea post :
  AppConfig.gemini config = Some g -> GeminiConfig.enabled g = true ->
  select_targets ideas g = pre ++ r :: rest ->
  enrich_loop (build_post_by_id posts) pre self ideas [] = (self1, heap1, calls1, Return tt) ->
  ideas !! r = Some idea ->
  build_post_by_id posts !! IdeaCandidate.post_id idea = Some post ->
  all_attempts_fail (Z.to_nat (GeminiAssessor.max_retries self1)) 1 self1 post idea ->
  let result := enrich_ideas_with_gemini ideas posts config self in
  (exists e, er_result result = Raise e /\ exc_cls e = RuntimeError)
  /\ er_ideas result = heap1
  /\ er_ideas result !! r = Some idea
  /\ (forall r', r' ∈ rest -> er_ideas result !! r' = ideas !! r')
  /\ er_calls result = calls1 ++ [(post, idea)].
Proof.
  intros Hg Hen Htargets Hpre Hidea Hpost Hfail result.
  assert (Hne : ideas <> []) by (intros ->; discriminate).
  pose proof (select_targets_NoDup ideas g) as Hnd. rewrite Htargets in Hnd.
  apply NoDup_app in Hnd as (_ & Hdisj & Hnd2). apply NoDup_cons in Hnd2 as [Hr_rest _].
  destruct (enrich_loop_frame _ _ _ _ _ _ _ _ _ Hpre) as [Hlen1 Hframe1].
  destruct (gemini_assess_exhausted _ _ _ Hfail) as (self2 & e & Hassess & Hcls).
  assert (Eloop : enrich_loop (build_post_by_id posts) (pre ++ r :: rest) self ideas []
                  = (self2, heap1, calls1 ++ [(post, idea)], Raise e)).
  { rewrite enrich_loop_app, Hpre. simpl.
    rewrite (Hframe1 r) by (intros Hin; apply (Hdisj r Hin); left).
    rewrite Hidea, Hpost, Hassess. reflexivity. }
  subst result. rewrite (enrich_ideas_unfold _ _ _ _ _ Hne Hg Hen), Htargets, Eloop.
  cbn [er_result er_ideas er_calls].
  split; [eauto|]. split; [reflexivity|]. split.
  - rewrite (Hframe1 r) by (intros Hin; apply (Hdisj r Hin); left). assumption.
  - split; [|reflexivity]. intros r' Hr'. apply Hframe1.
    intros Hin. apply (Hdisj r' Hin). now right.
Qed.
End GeminiFacts.

Lemma exhausted_retries_escape_the_merger_witness :
  let config := test_config [] 168 (Some (test_gemini 2)) in
  let self := GeminiAssessor.mk (test_gemini 2) 3 0%nat in
  let idea := test_idea "1" "Automate reporting for ops teams" 4.0%float 1700000000 in
  let post := test_post "1" "Automate reporting for ops teams"
                "Manual reporting is slow and painful." 1700000000 3 20 in
  let result := @enrich_ideas_with_gemini _ (@GeminiAssessor_Assessor nat unreachable_endpoint)
                  llm_test_ideas llm_test_posts config self in
  (select_targets llm_test_ideas (test_gemini 2) = [] ++ 0%nat :: [1%nat]
   /\ @all_attempts_fail nat unreachable_endpoint 3 1 self post idea)
  /\ (exists e, er_result result = Raise e /\ exc_cls e = RuntimeError)
  /\ er_ideas result = llm_test_ideas
  /\ er_calls result = [(post, idea)].
Proof.
  intros config self idea post result.
  assert (Htargets : select_targets llm_test_ideas (test_gemini 2) = [] ++ 0%nat :: [1%nat])
    by (vm_compute; reflexivity).
  assert (Hfail : @all_attempts_fail nat unreachable_endpoint 3 1 self post idea).
  { simpl. repeat (eexists _, _; split; [reflexivity|]; split; [reflexivity|]). exact I. }
  split; [split; assumption|].
  destruct (@exhausted_retries_escape_the_merger nat unreachable_endpoint llm_test_ideas
              llm_test_posts config (test_gemini 2) self [] 0%nat [1%nat] self
              llm_test_ideas [] idea post eq_refl eq_refl Htargets eq_refl eq_refl)
    as (Hraise & Hideas & _ & _ & Hcalls).
  - vm_compute. reflexivity.
  - exact Hfail.
  - split; [exact Hraise|]. split; [exact Hideas | exact Hcalls].
Defined.

(** A request that times out at each of its three attempts: the
    exception leaves the merger after the first candidate, and the second
    candidate is never assessed. *)
Lemma unreachable_endpoint_aborts_the_batch :
  let config := test_config [] 168 (Some (test_gemini 2)) in
  let result := @enrich_ideas_with_gemini _ (@GeminiAssessor_Assessor nat unreachable_endpoint)
                  llm_test_ideas llm_test_posts config
                  (GeminiAssessor.mk (test_gemini 2) 3 0%nat) in
  er_result result
  = Raise (RaisedFrom RuntimeError "Gemini request failed."
             (Exception TimeoutError "timed out"))
  /\ length (er_calls result) = 1%nat
  /\ GeminiAssessor.net (er_assessor result) = 3%nat.
Proof. vm_compute. repeat split. Qed.

(** ** extractor.py: [derive_problem_summary] *)

Lemma first_pain_sentence_none sentences :
  Forall (fun sentence => has_pain_signal sentence = false) sentences ->
  first_pain_sentence sentences = None.
Proof.
  induction 1 as [|sentence rest Hs _ IH]; [reflexivity|].
  cbn [first_pain_sentence]. unfold has_pain_signal in Hs.
  destruct (PyStr.truthy (PyStr.strip sentence)); cbn [negb andb] in *; [|assumption].
  now rewrite Hs.
Qed.

Lemma first_pain_sentence_some before sentence after :
  Forall (fun s => has_pain_signal s = false) before ->
  has_pain_signal sentence = true ->
  first_pain_sentence (before ++ sentence :: after)
  = Some (PyStr.take 220 (PyStr.strip sentence)).
Proof.
  intros Hbefore Hs. induction Hbefore as [|s rest Hfirst _ IH].
  - cbn [app first_pain_sentence].
    unfold has_pain_signal in Hs. apply andb_true_iff in Hs as [-> ->]. reflexivity.
  - cbn [app first_pain_sentence]. unfold has_pain_signal in Hfirst.
    destruct (PyStr.truthy (PyStr.strip s)); cbn [negb andb] in *; [|assumption].
    now rewrite Hfirst.
Qed.

(** C8, as the code has it. The summary is the title, cut to 220
    characters, when the stripped body is empty. Otherwise it is the first
    sentence with a pain signal, stripped and cut; and without such a
    sentence it is the first sentence of the stripped body when that
    sentence is not blank, and the title when it is. *)
Theorem derive_problem_summary_cases (post : RedditPost.t) :
  let text := PyStr.strip (RedditPost.selftext post) in
  let sentences := PyStr.re_split sentence_sep text in
  let title := PyStr.take 220 (RedditPost.title post) in
  (text = EmptyString /\ derive_problem_summary post = title)
  \/ (text <> EmptyString
      /\ exists before sentence after,
           sentences = before ++ sentence :: after
           /\ Forall (fun s => has_pain_signal s = false) before
           /\ has_pain_signal sentence = true
           /\ derive_problem_summary post = PyStr.take 220 (PyStr.strip sentence))
  \/ (text <> EmptyString
      /\ Forall (fun s => has_pain_signal s = false) sentences
      /\ exists first rest,
           sentences = first :: rest
           /\ derive_problem_summary post
              = if PyStr.truthy (PyStr.strip first)
                then PyStr.take 220 (PyStr.strip first) else title).
Proof.
  intros text sentences title. unfold derive_problem_summary. fold text. fold sentences.
  destruct text as [|c text'] eqn:Etext; [left; split; reflexivity|].
  right. simpl negb. cbv iota.
  assert (Hsplit : exists first rest, sentences = first :: rest).
  { unfold sentences, PyStr.re_split.
    destruct (PyStr.re_split_from sentence_sep false (String c text')); eauto. }
  destruct Hsplit as (first & rest & Hsentences).
  assert (Hcases :
    (exists before sentence after,
        sentences = before ++ sentence :: after
        /\ Forall (fun s => has_pain_signal s = false) before
        /\ has_pain_signal sentence = true)
    \/ Forall (fun s => has_pain_signal s = false) sentences).
  { clear. induction sentences as [|s ss IH]; [right; constructor|].
    destruct (has_pain_signal s) eqn:E.
    - left. exists [], s, ss. repeat split; [constructor | assumption].
    - destruct IH as [(before & sentence & after & -> & Hb & Hs)|Hall].
      + left. exists (s :: before), sentence, after.
        repeat split; [constructor; assumption | assumption].
      + right. constructor; assumption. }
  destruct Hcases as [(before & sentence & after & Hdec & Hbefore & Hs)|Hall].
  - left. split; [discriminate|]. exists before, sentence, after.
    repeat split; try assumption.
    rewrite Hdec, (first_pain_sentence_some _ _ _ Hbefore Hs). reflexivity.
  - right. split; [discriminate|]. split; [assumption|]. exists first, rest.
    split; [assumption|].
    rewrite (first_pain_sentence_none _ Hall), Hsentences. reflexivity.
Qed.

(** A body that opens with a separator and has no pain signal: the code
    gives the title although the body has a sentence that is not empty. *)
Lemma leading_separator_falls_back_to_title :
  let post := test_post "a" "Any takers" "...so anyway, here is my story" 0 0 0 in
  derive_problem_summary post = "Any takers"
  /\ summary_by_first_nonempty_sentence post = "so anyway, here is my story".
Proof. vm_compute. split; reflexivity. Qed.

(** ** storage.py: writing an idea and reading it back *)

Lemma append_nil_l s : String.append EmptyString s = s.
Proof. reflexivity. Qed.

Lemma append_cons_l c t s : String.append (String c t) s = String c (String.append t s).
Proof. reflexivity. Qed.

Lemma append_empty_r t : String.append t EmptyString = t.
Proof.
  induction t as [|c t IH]; [reflexivity|]. rewrite append_cons_l. congruence.
Qed.

Lemma split_from_app sep t s :
  PyStr.has_char sep t = false ->
  PyStr.split_from sep (String.append t s)
  = let '(p, ps) := PyStr.split_from sep s in (String.append t p, ps).
Proof.
  induction t as [|c t IH]; intros Hc.
  - rewrite append_nil_l. now destruct (PyStr.split_from sep s).
  - cbn [PyStr.has_char] in Hc. apply orb_false_iff in Hc as [Hc Ht].
    rewrite append_cons_l. cbn [PyStr.split_from]. rewrite (IH Ht).
    destruct (PyStr.split_from sep s) as [p ps].
    rewrite Ascii.eqb_sym, Hc. reflexivity.
Qed.

Lemma split_join_tags tags :
  storable_tags tags ->
  filter (fun tag => PyStr.truthy tag) (PyStr.split "," (PyStr.join "," tags)) = tags.
Proof.
  unfold PyStr.split. induction 1 as [|tag rest [Htag Hcomma] Hrest IH]; [reflexivity|].
  destruct rest as [|tag2 rest].
  - cbn [PyStr.join]. rewrite <- (append_empty_r tag) at 1.
    rewrite (split_from_app _ _ _ Hcomma). cbn [PyStr.split_from]. rewrite append_empty_r.
    rewrite filter_cons_True by (rewrite Htag; exact I). reflexivity.
  - change (PyStr.join "," (tag :: tag2 :: rest))
      with (String.append tag (String "," (PyStr.join "," (tag2 :: rest)))).
    rewrite (split_from_app _ _ _ Hcomma). cbn [PyStr.split_from].
    destruct (PyStr.split_from "," (PyStr.join "," (tag2 :: rest))) as [p ps] eqn:E.
    rewrite Ascii.eqb_refl, append_empty_r.
    rewrite filter_cons_True by (rewrite Htag; exact I). now rewrite IH.
Qed.

Lemma sqlite_real_eq x y : sqlite_real x = Some y -> PyFloat.eq x y = true.
Proof.
  unfold sqlite_real. destruct (PrimFloat.is_nan x) eqn:En; [discriminate|].
  destruct (PyFloat.eq x 0) eqn:E0; intros [= <-]; [assumption|].
  now apply eq_refl_number.
Qed.

Lemma sqlite_real_opt_eq x :
  number_or_none x -> opt_float_eq x (x ≫= sqlite_real) = true.
Proof.
  destruct x as [v|]; simpl; [|reflexivity]. intros Hv.
  unfold sqlite_real. rewrite Hv.
  destruct (PyFloat.eq v 0) eqn:E0; simpl; [assumption|]. now apply eq_refl_number.
Qed.

Lemma upsert_row_elem_of {R : Type} (key : R -> string) (row : R) rows :
  row ∈ upsert_row key row rows.
Proof.
  induction rows as [|r rs IH]; simpl; [left|].
  destruct (String.eqb (key r) (key row)); [left | now right].
Qed.

(** C9, as the code has it. An idea whose tags are not empty and hold no
    comma, and whose LLM numbers are not NaN, once written by the upsert
    is read back by the windowed query, for a floor that fits 64 bits and
    lies at or below its creation time, as an idea that compares equal to
    it. *)
Theorem idea_round_trip idea extracted_utc db db' created_utc_floor :
  storable_tags (IdeaCandidate.reason_tags idea) ->
  number_or_none (IdeaCandidate.llm_profit_score idea) ->
  number_or_none (IdeaCandidate.llm_confidence idea) ->
  Storage.upsert_ideas [idea] extracted_utc db = Return db' ->
  int64_ok created_utc_floor = true ->
  created_utc_floor <= IdeaCandidate.created_utc idea ->
  exists ideas read,
    Storage.get_ideas_since created_utc_floor db' = Return ideas
    /\ read ∈ ideas
    /\ idea_eq idea read = true
    /\ IdeaCandidate.reason_tags read = IdeaCandidate.reason_tags idea.
Proof.
  intros Htags Hprofit Hconf Hup Hbound Hfloor.
  unfold Storage.upsert_ideas in Hup. simpl in Hup.
  destruct (idea_row idea extracted_utc) as [row|e] eqn:Erow; [|discriminate].
  injection Hup as <-.
  unfold idea_row in Erow.
  destruct (int64_ok _ && int64_ok _ && int64_ok _ && int64_ok _); [|discriminate].
  destruct (sqlite_real (IdeaCandidate.relevance_score idea)) as [score|] eqn:Escore;
    [|discriminate].
  injection Erow as <-.
  unfold Storage.get_ideas_since. rewrite Hbound.
  eexists _, _. split; [reflexivity|]. split.
  - apply list_elem_of_fmap_2.
    apply sort_by_elem_of. apply list_elem_of_filter. split; [|apply upsert_row_elem_of].
    simpl. apply Is_true_true. apply Z.leb_le. exact Hfloor.
  - unfold Storage.idea_of_row. cbn -[PyStr.split PyStr.join sqlite_real].
    rewrite (split_join_tags _ Htags). split; [|reflexivity].
    unfold idea_eq. cbn -[sqlite_real PyFloat.eq].
    rewrite !bool_decide_eq_true_2 by reflexivity.
    rewrite (sqlite_real_eq _ _ Escore).
    rewrite (sqlite_real_opt_eq _ Hprofit), (sqlite_real_opt_eq _ Hconf). reflexivity.
Qed.

Lemma idea_round_trip_witness :
  let idea := test_idea "1" "Automate reporting for ops teams" 4.0%float 1700000000 in
  storable_tags (IdeaCandidate.reason_tags idea)
  /\ exists db' ideas read,
       Storage.upsert_ideas [idea] 1700000100 Db.empty = Return db'
       /\ Storage.get_ideas_since 1700000000 db' = Return ideas
       /\ read ∈ ideas
       /\ idea_eq idea read = true.
Proof.
  intros idea.
  assert (Htags : storable_tags (IdeaCandidate.reason_tags idea))
    by (repeat constructor).
  split; [exact Htags|].
  destruct (Storage.upsert_ideas [idea] 1700000100 Db.empty) as [db'|e] eqn:Hup;
    [|vm_compute in Hup; discriminate Hup].
  destruct (idea_round_trip idea 1700000100 Db.empty db' 1700000000 Htags I I Hup eq_refl)
    as (ideas & read & Hideas & Hread & Heq & _); [simpl; lia|].
  exists db', ideas, read. repeat split; assumption.
Defined.

(** A tag with a comma comes back as two tags, and the idea read back
    does not compare equal to the one written. *)
Lemma comma_tag_is_split_on_read_back :
  exists db' ideas,
    Storage.upsert_ideas [comma_idea] 1700000100 Db.empty = Return db'
    /\ Storage.get_ideas_since 0 db' = Return ideas
    /\ map IdeaCandidate.reason_tags ideas = [["llm_low"; "cost"]]
    /\ existsb (idea_eq comma_idea) ideas = false.
Proof.
  eexists _, _. split; [reflexivity|]. split; [reflexivity|]. vm_compute. split; reflexivity.
Qed.

(** ** pipeline.py: what the steps of a run do to the state *)

Section MonadFacts.
Context {W : Type}.

Lemma bind_inv {A B} (m : M W A) (k : A -> M W B) s s' r :
  bind m k s = (s', r) ->
  (exists s1 a, m s = (s1, Return a) /\ k a s1 = (s', r))
  \/ (exists e, m s = (s', Raise e) /\ r = Raise e).
Proof.
  unfold bind. destruct (m s) as [s1 [a|e]]; intros E.
  - left. eauto.
  - right. injection E as <- <-. eauto.
Qed.

Context (R : State.t W -> State.t W -> Prop) `{!PreOrder R}.

Lemma respects_ret {A} (a : A) : respects R (ret a).
Proof. intros s s' r [= <- _]. reflexivity. Qed.

Lemma respects_raise {A} e : respects R (raise e : M W A).
Proof. intros s s' r [= <- _]. reflexivity. Qed.

Lemma respects_of_outcome {A} (o : outcome A) : respects R (of_outcome o).
Proof. intros s s' r [= <- _]. reflexivity. Qed.

Lemma respects_bind {A B} (m : M W A) (k : A -> M W B) :
  respects R m -> (forall a, respects R (k a)) -> respects R (bind m k).
Proof.
  intros Hm Hk s s' r E. apply bind_inv in E as [(s1 & a & E1 & E2)|(e & E1 & _)].
  - transitivity s1; [eapply Hm | eapply Hk]; eassumption.
  - eapply Hm; eassumption.
Qed.

Lemma respects_try_except {A} (body : M W A) handler :
  respects R body -> (forall e, respects R (handler e)) -> respects R (try_except body handler).
Proof.
  intros Hb Hh s s' r. unfold try_except.
  destruct (body s) as [s1 [a|e]] eqn:E; intros E'.
  - injection E' as <- <-. eapply Hb; eassumption.
  - destruct (is_exception e).
    + transitivity s1; [eapply Hb | eapply Hh]; eassumption.
    + injection E' as <- <-. eapply Hb; eassumption.
Qed.

Lemma respects_weaken {A} (m : M W A) : respects R m -> respects_on_raise R m.
Proof. intros Hm s s' e E. eapply Hm; eassumption. Qed.

Lemma never_raises_respects {A} (m : M W A) : never_raises m -> respects_on_raise R m.
Proof. intros Hm s s' e E. destruct (Hm _ _ _ E). Qed.

Lemma respects_on_raise_bind {A B} (m : M W A) (k : A -> M W B) :
  respects R m -> (forall a, respects_on_raise R (k a)) -> respects_on_raise R (bind m k).
Proof.
  intros Hm Hk s s' e0 E. apply bind_inv in E as [(s1 & a & E1 & E2)|(e & E1 & _)].
  - transitivity s1; [eapply Hm | eapply Hk]; eassumption.
  - eapply Hm; eassumption.
Qed.

(** The three ways in which a step touches the state. *)
Hypothesis R_world : forall s w, R s (State.mk w (State.db s) (State.calls s)).

Lemma respects_on_world {A} (f : W -> W * outcome A) : respects R (on_world f).
Proof.
  intros s s' r. unfold on_world. destruct (f (State.world s)) as [w o].
  intros [= <- _]. apply R_world.
Qed.

Lemma respects_now_or_clock `{Outside W} now : respects R (now_or_clock now).
Proof. destruct now; [apply respects_ret | apply respects_on_world]. Qed.

Lemma respects_log ev :
  (forall s, R s (State.mk (State.world s) (State.db s) (State.calls s ++ [ev]))) ->
  respects R (log ev).
Proof. intros Hev s s' r [= <- _]. apply Hev. Qed.

Lemma respects_on_db {A} (f : Db.t -> outcome (Db.t * A)) :
  (forall s db' a, f (State.db s) = Return (db', a) ->
                   R s (State.mk (State.world s) db' (State.calls s))) ->
  respects R (on_db f).
Proof.
  intros Hf s s' r. unfold on_db. destruct (f (State.db s)) as [[db' a]|e] eqn:E.
  - intros [= <- _]. eapply Hf; eassumption.
  - intros [= <- _]. reflexivity.
Qed.
End MonadFacts.

Section EventFacts.
Context {W : Type}.

#[export] Instance adds_only_preorder P : PreOrder (@adds_only W P).
Proof.
  split.
  - intros s. exists []. split; [now rewrite app_nil_r | constructor].
  - intros s1 s2 s3 (evs1 & E1 & H1) (evs2 & E2 & H2). exists (evs1 ++ evs2). split.
    + rewrite E2, E1. now rewrite app_assoc.
    + apply Forall_app. split; assumption.
Qed.

#[export] Instance run_log_untouched_preorder : PreOrder (@run_log_untouched W).
Proof.
  split.
  - intros s. split; reflexivity.
  - intros s1 s2 s3 [E1 H1] [E2 H2]. split; [congruence | etransitivity; eassumption].
Qed.

Lemma adds_only_world P (s : State.t W) w :
  adds_only P s (State.mk w (State.db s) (State.calls s)).
Proof. exists []. split; [simpl; now rewrite app_nil_r | constructor]. Qed.

Lemma adds_only_db P (s : State.t W) db' :
  adds_only P s (State.mk (State.world s) db' (State.calls s)).
Proof. exists []. split; [simpl; now rewrite app_nil_r | constructor]. Qed.

Lemma adds_only_log (P : event -> Prop) (s : State.t W) ev :
  P ev -> adds_only P s (State.mk (State.world s) (State.db s) (State.calls s ++ [ev])).
Proof. intros Hev. exists [ev]. split; [reflexivity | repeat constructor; assumption]. Qed.

Lemma fetches_app evs1 evs2 : fetches (evs1 ++ evs2) = fetches evs1 ++ fetches evs2.
Proof. unfold fetches. apply omap_app. Qed.

Lemma fetches_no_fetch evs : Forall (fun ev => is_fetch ev = false) evs -> fetches evs = [].
Proof.
  induction 1 as [|ev evs Hev _ IH]; [reflexivity|].
  unfold fetches in *. simpl. destruct ev; try discriminate; assumption.
Qed.

Lemma fetches_fetch_events since_utc max_posts subreddits :
  fetches (map (fun subreddit => EvFetch subreddit since_utc max_posts) subreddits)
  = map (fun subreddit => (subreddit, since_utc, max_posts)) subreddits.
Proof. induction subreddits as [|x xs IH]; [reflexivity|]. unfold fetches in *. simpl. now f_equal. Qed.

(** The fetch loop calls the client for the subreddits in order, each
    time with the same floor and cap, until a call raises. *)
Lemma fetch_loop_calls (client : Client W) subreddits since_utc max_posts posts s s' r :
  fetch_loop client subreddits since_utc max_posts posts s = (s', r) ->
  State.db s' = State.db s
  /\ exists k,
       State.calls s'
       = State.calls s ++ map (fun subreddit => EvFetch subreddit since_utc max_posts)
                            (take k subreddits)
       /\ forall res, r = Return res -> k = length subreddits.
Proof.
  revert posts s. induction subreddits as [|subreddit rest IH]; intros posts s; simpl.
  - intros [= <- <-]. split; [reflexivity|]. exists 0%nat. split; [simpl; now rewrite app_nil_r|].
    reflexivity.
  - unfold bind at 1. unfold log at 1. unfold bind at 1. unfold on_world at 1. simpl.
    destruct (client (State.world s) subreddit since_utc max_posts) as [w [fetched|e]].
    + intros E. apply IH in E as [Hdb (k & Hcalls & Hk)]. simpl in *.
      split; [assumption|]. exists (S k). split.
      * rewrite Hcalls. simpl. now rewrite <- app_assoc.
      * intros res Hr. f_equal. eapply Hk. eassumption.
    + intros [= <- <-]. simpl. split; [reflexivity|]. exists 1%nat. split.
      * reflexivity.
      * discriminate.
Qed.
End EventFacts.

Lemma upsert_posts_keeps posts fetched_utc db db' :
  Storage.upsert_posts posts fetched_utc db = Return db' ->
  Db.run_logs db' = Db.run_logs db /\ Db.ideas db' = Db.ideas db.
Proof.
  unfold Storage.upsert_posts. destruct posts as [|post rest]; [intros [= <-]; auto|].
  destruct (executemany _ _ _ _); [|discriminate]. intros [= <-]. auto.
Qed.

Lemma upsert_ideas_keeps ideas extracted_utc db db' :
  Storage.upsert_ideas ideas extracted_utc db = Return db' ->
  Db.run_logs db' = Db.run_logs db /\ Db.posts db' = Db.posts db.
Proof.
  unfold Storage.upsert_ideas. destruct ideas as [|idea rest]; [intros [= <-]; auto|].
  destruct (executemany _ _ _ _); [|discriminate]. intros [= <-]. auto.
Qed.

(** Steps through a sequence of calls, for a relation on states whose
    three obligations [tac] proves. *)
Ltac respects_steps tac :=
  repeat first
    [ apply respects_ret; typeclasses eauto
    | apply respects_raise; typeclasses eauto
    | apply respects_of_outcome; typeclasses eauto
    | apply respects_now_or_clock; [typeclasses eauto | tac]
    | apply respects_on_world; tac
    | apply respects_log; tac
    | apply respects_on_db; [typeclasses eauto | tac]
    | apply respects_bind; [typeclasses eauto | | intros]
    | match goal with
      | |- respects _ (match ?x with _ => _ end) => destruct x
      end ].

Ltac adds_only_obligation :=
  intros;
  first [ apply adds_only_world
        | apply adds_only_db
        | apply adds_only_log; reflexivity ].

Ltac untouched_obligation :=
  intros;
  first
    [ split; [reflexivity | adds_only_obligation]
    | match goal with
      | E : match Storage.upsert_posts _ _ _ with _ => _ end = Return _ |- _ =>
          let F := fresh in
          destruct (Storage.upsert_posts _ _ _) eqn:F; [|discriminate E];
          injection E as <- _; apply upsert_posts_keeps in F as [F _];
          split; [exact F | adds_only_obligation]
      | E : match Storage.upsert_ideas _ _ _ with _ => _ end = Return _ |- _ =>
          let F := fresh in
          destruct (Storage.upsert_ideas _ _ _) eqn:F; [|discriminate E];
          injection E as <- _; apply upsert_ideas_keeps in F as [F _];
          split; [exact F | adds_only_obligation]
      | E : match Storage.get_ideas_since _ _ with _ => _ end = Return _ |- _ =>
          destruct (Storage.get_ideas_since _ _); [|discriminate E];
          injection E as <- _; split; [reflexivity | adds_only_obligation]
      | E : Return _ = Return _ |- _ =>
          injection E as <- _; split; [reflexivity | adds_only_obligation]
      end ].

Section RunBodyFacts.
Context `{Libm} `{Calendar} {W : Type} `{Outside W}.

(** The calls of the client that the [try] body makes: one for each
    subreddit, in order, all with the floor and the cap, up to the first
    one that raises. *)
Lemma run_body_fetches config period (client : Client W) notifier now runtime started_utc
  run_id lookback_floor s1 s2 r :
  run_body config period client notifier now runtime started_utc run_id lookback_floor s1
  = (s2, r) ->
  exists evs k,
    State.calls s2 = State.calls s1 ++ evs
    /\ fetches evs
       = map (fun subreddit =>
                (subreddit, lookback_floor, AppConfig.max_posts_per_subreddit config))
           (take k (AppConfig.subreddits config))
    /\ forall res, r = Return res -> k = length (AppConfig.subreddits config).
Proof.
  unfold run_body. intros E.
  apply bind_inv in E as [(sf & posts & Ef & Et)|(e & Ef & ->)].
  - apply fetch_loop_calls in Ef as [_ (k & Hcalls & Hk)].
    specialize (Hk posts eq_refl). subst k.
    match type of Et with
    | ?m sf = _ => assert (Hq : respects (adds_only (fun ev => is_fetch ev = false)) m)
    end.
    { unfold upsert_posts, upsert_ideas, get_ideas_since, finish_run.
      respects_steps adds_only_obligation. }
    destruct (Hq _ _ _ Et) as (evs & Hevs & Hnone).
    eexists _, (length (AppConfig.subreddits config)). split; [|split; [|reflexivity]].
    + rewrite Hevs, Hcalls, <- app_assoc. reflexivity.
    + rewrite fetches_app, (fetches_no_fetch _ Hnone), app_nil_r, firstn_all.
      apply fetches_fetch_events.
  - apply fetch_loop_calls in Ef as [_ (k & Hcalls & _)].
    eexists _, k. split; [exact Hcalls|]. split; [apply fetches_fetch_events | discriminate].
Qed.

(** When the [try] body raises, it has not touched the run log. *)
Lemma run_body_raise_untouched config period (client : Client W) notifier now runtime
  started_utc run_id lookback_floor :
  respects_on_raise run_log_untouched
    (run_body config period client notifier now runtime started_utc run_id lookback_floor).
Proof.
  unfold run_body.
  apply respects_on_raise_bind; [typeclasses eauto| |intros posts].
  { intros s s' r E. apply fetch_loop_calls in E as [Hdb (k & Hcalls & _)].
    split; [now rewrite Hdb|]. eexists. split; [exact Hcalls|].
    apply Forall_forall. intros ev Hev. apply list_elem_of_fmap in Hev as (x & -> & _).
    reflexivity. }
  unfold upsert_posts, upsert_ideas, get_ideas_since.
  repeat (apply respects_on_raise_bind;
          [typeclasses eauto | solve [respects_steps untouched_obligation] | intros]).
  apply never_raises_respects. intros s s' e.
  unfold finish_run, bind, log, on_db, ret. simpl. discriminate.
Qed.
End RunBodyFacts.

(** ** storage.py: the run log *)

Lemma next_run_id_fresh rows row :
  row ∈ rows -> RunLogRow.run_id row < Storage.next_run_id rows.
Proof.
  unfold Storage.next_run_id. induction 1 as [row rows|row other rows _ IH]; simpl; lia.
Qed.

(** [finish_run] on the run that [start_run] has just created closes that
    row and no other. *)
Lemma finish_run_closes_new_row rows row db status finished fetched extracted window
  email_sent message :
  Db.run_logs db = rows ++ [row] ->
  RunLogRow.run_id row = Storage.next_run_id rows ->
  Db.run_logs (Storage.finish_run (Storage.next_run_id rows) status finished fetched
                 extracted window email_sent message db)
  = rows ++ [Storage.finished_row status finished fetched extracted window email_sent
               message row].
Proof.
  intros Hdb Hid. unfold Storage.finish_run. simpl. rewrite Hdb, map_app. simpl.
  rewrite Hid, Z.eqb_refl. f_equal.
  rewrite <- (map_id rows) at 2. apply map_ext_in. intros r Hr.
  apply list_elem_of_In, next_run_id_fresh in Hr.
  destruct (Z.eqb_spec (RunLogRow.run_id r) (Storage.next_run_id rows)); [lia|reflexivity].
Qed.

Lemma has_successful_run_after_start period day started period' day' db :
  Storage.has_successful_run_on_day period' day'
    (fst (Storage.start_run period day started db))
  = Storage.has_successful_run_on_day period' day' db.
Proof.
  unfold Storage.has_successful_run_on_day, Storage.start_run. simpl.
  rewrite existsb_app. simpl. unfold Storage.is_success_of. simpl.
  now rewrite andb_false_r, !orb_false_r.
Qed.

Lemma get_latest_successful_run_after_start period day started period' db :
  Storage.get_latest_successful_run period' (fst (Storage.start_run period day started db))
  = Storage.get_latest_successful_run period' db.
Proof.
  unfold Storage.get_latest_successful_run, Storage.start_run. simpl.
  rewrite filter_app. rewrite filter_cons_False, filter_nil, app_nil_r; [reflexivity|].
  unfold Storage.is_success_of. simpl. rewrite andb_false_r. intros [].
Qed.

(** The first element of a stable sort precedes every other, when the
    order is a strict weak one. *)
Lemma sort_by_head {A : Type} (before : A -> A -> bool) xs x rest :
  (forall a, before a a = false) ->
  (forall a b, before a b = true -> before b a = false) ->
  (forall a b c, before a b = false -> before b c = false -> before a c = false) ->
  sort_by before xs = x :: rest ->
  forall y, y ∈ xs -> before y x = false.
Proof.
  intros Hirr Hasym Hneg. revert x rest.
  induction xs as [|a xs IH]; intros x rest E y Hy; [inversion Hy|].
  simpl in E. destruct (sort_by before xs) as [|h t] eqn:Es.
  - apply sort_by_nil_inv in Es. subst xs. simpl in E. injection E as <- <-.
    apply list_elem_of_singleton in Hy. subst y. apply Hirr.
  - simpl in E. destruct (before h a) eqn:Eha; injection E as <- <-.
    + apply elem_of_cons in Hy as [->|Hy]; [now apply Hasym | now apply (IH h t)].
    + apply elem_of_cons in Hy as [->|Hy]; [apply Hirr|].
      apply Hneg with h; [now apply (IH h t) | assumption].
Qed.

Lemma latest_order_strict_weak :
  (forall a, Storage.latest_order a a = false)
  /\ (forall a b, Storage.latest_order a b = true -> Storage.latest_order b a = false)
  /\ (forall a b c, Storage.latest_order a b = false -> Storage.latest_order b c = false ->
                    Storage.latest_order a c = false).
Proof.
  unfold Storage.latest_order, Storage.null_lt, Storage.null_eq.
  repeat split; intros;
    repeat match goal with
      | r : RunLogRow.t |- _ => destruct r as [? ? ? ? [?|] ? ? ? ? ? ?]
      end; simpl in *;
    repeat match goal with
      | H : _ || _ = true |- _ => apply orb_true_iff in H as [H|H]
      | H : _ && _ = true |- _ => apply andb_true_iff in H as [? ?]
      | H : _ || _ = false |- _ => apply orb_false_iff in H as [? ?]
      | H : _ && _ = false |- _ => apply andb_false_iff in H as [H|H]
      end;
    rewrite ?Z.ltb_lt, ?Z.ltb_ge, ?Z.eqb_eq, ?Z.eqb_neq in *;
    try discriminate;
    repeat match goal with
      | |- _ || _ = false => apply orb_false_iff; split
      | |- _ && _ = false => apply andb_false_iff
      end;
    rewrite ?Z.ltb_ge, ?Z.eqb_neq;
    try reflexivity; try lia;
    try (destruct (Z.eqb_spec run_finished_utc run_finished_utc1);
         [right; apply Z.ltb_ge; lia | left; reflexivity]).
Qed.

(** The run that [get_latest_successful_run] returns comes from a row of
    a successful run of the period, and no successful run of the period
    has a later finish time; it returns nothing only when the period has
    no successful run. *)
Lemma get_latest_successful_run_spec period db :
  match Storage.get_latest_successful_run period db with
  | Some run =>
      exists row,
        row ∈ Db.run_logs db /\ Storage.is_success_of period row = true
        /\ run = Storage.run_log_of_row row
        /\ forall other,
             other ∈ Db.run_logs db -> Storage.is_success_of period other = true ->
             Storage.null_lt (RunLogRow.run_finished_utc row)
               (RunLogRow.run_finished_utc other) = false
  | None =>
      forall row, row ∈ Db.run_logs db -> Storage.is_success_of period row = false
  end.
Proof.
  unfold Storage.get_latest_successful_run.
  destruct (sort_by Storage.latest_order
              (filter (fun row => Storage.is_success_of period row) (Db.run_logs db)))
    as [|row rest] eqn:E.
  - apply sort_by_nil_inv in E. intros row Hrow.
    destruct (Storage.is_success_of period row) eqn:Es; [|reflexivity].
    assert (Hin : row ∈ filter (fun row => Storage.is_success_of period row) (Db.run_logs db))
      by (apply list_elem_of_filter; split; [now rewrite Es | assumption]).
    rewrite E in Hin. inversion Hin.
  - exists row.
    assert (Hrow : row ∈ filter (fun row => Storage.is_success_of period row) (Db.run_logs db)).
    { apply (sort_by_elem_of Storage.latest_order). rewrite E. left. }
    apply list_elem_of_filter in Hrow as [Hs Hrow]. apply Is_true_true in Hs.
    repeat split; try assumption.
    intros other Hother Hso.
    destruct latest_order_strict_weak as (Hirr & Hasym & Hneg).
    assert (Hord : Storage.latest_order other row = false).
    { apply (sort_by_head _ _ _ _ Hirr Hasym Hneg E).
      apply list_elem_of_filter. split; [now rewrite Hso | assumption]. }
    unfold Storage.latest_order in Hord. now apply orb_false_iff in Hord as [Hord _].
Qed.

Section ClockFacts.
Context {W : Type} `{Outside W}.

(** Reading the time leaves the database and the log of calls alone, and
    does not raise. *)
Lemma now_or_clock_total now (s : State.t W) :
  exists w dt, now_or_clock now s = (State.mk w (State.db s) (State.calls s), Return dt).
Proof.
  destruct now as [dt|]; simpl.
  - exists (State.world s), dt. now destruct s.
  - unfold on_world. destruct (datetime_now (State.world s)) as [w dt]. eauto.
Qed.

Lemma now_or_clock_inv now (s s0 : State.t W) dt :
  now_or_clock now s = (s0, Return dt) ->
  State.db s0 = State.db s /\ State.calls s0 = State.calls s.
Proof.
  destruct (now_or_clock_total now s) as (w & dt' & ->). intros [= <- _]. auto.
Qed.
End ClockFacts.

(** ** pipeline.py: [run_once] on an opened storage *)

Lemma valid_period_normal period :
  period = "daily" \/ period = "weekly" ->
  PyStr.strip (PyStr.lower period) = period
  /\ PyStr.mem period ["daily"; "weekly"] = true.
Proof. intros [-> | ->]; split; reflexivity. Qed.

Lemma filter_run_events_none evs :
  Forall (fun ev => is_run_event ev = false) evs ->
  filter (fun ev => is_run_event ev) evs = [].
Proof.
  induction 1 as [|ev evs Hev _ IH]; [reflexivity|].
  rewrite filter_cons_False; [assumption|]. rewrite Hev. intros [].
Qed.

Section RunLoggedFacts.
Context `{Libm} `{Calendar} {W : Type} `{Outside W}.

(** [run_logged] up to the test for a same-day success: the state after
    [start_run], for the time [runtime] of the run. *)
Lemma run_logged_unfold config period reddit_client notifier now (s : State.t W) runtime :
  let run_id := Storage.next_run_id (Db.run_logs (State.db s)) in
  let started_utc := datetime.timestamp runtime in
  let s1 :=
    State.mk (State.world s)
      (fst (Storage.start_run period (datetime.day runtime) started_utc (State.db s)))
      (State.calls s ++ [EvStartRun run_id]) in
  let lookback_seconds := Z.max (AppConfig.lookback_hours config) 1 * 60 * 60 in
  run_logged config period reddit_client notifier now runtime s
  = if Storage.has_successful_run_on_day period (datetime.day runtime) (State.db s)
    then run_skipped now period (datetime.day runtime) started_utc run_id s1
    else
      try_except
        (run_body config period
           match reddit_client with
           | Some c => c
           | None => RedditClient (AppConfig.user_agent config)
           end
           notifier now runtime started_utc run_id
           (lookback_floor_of
              (Storage.get_latest_successful_run period (State.db s))
              started_utc lookback_seconds (started_utc - lookback_seconds)))
        (run_failed now run_id) s1.
Proof.
  intros run_id started_utc s1 lookback_seconds.
  unfold run_logged.
  unfold bind at 1. unfold start_run, bind, on_db, log, ret.
  cbn [fst snd State.db State.calls State.world].
  rewrite (eq_refl : Storage.start_run period (datetime.day runtime)
                       (datetime.timestamp runtime) (State.db s)
                     = (fst (Storage.start_run period (datetime.day runtime)
                               (datetime.timestamp runtime) (State.db s)), run_id)).
  cbn [fst snd State.db State.calls State.world].
  rewrite has_successful_run_after_start.
  destruct (Storage.has_successful_run_on_day period (datetime.day runtime) (State.db s));
    [reflexivity|].
  cbn [State.db State.calls State.world].
  rewrite get_latest_successful_run_after_start. reflexivity.
Qed.

(** With a successful run of the period stored for the day, the run adds
    a row and closes it as [skipped_same_day], and calls nothing but
    [start_run] and [finish_run]. *)
Lemma run_logged_skips config period reddit_client notifier now (s : State.t W) runtime :
  Storage.has_successful_run_on_day period (datetime.day runtime) (State.db s) = true ->
  let run_id := Storage.next_run_id (Db.run_logs (State.db s)) in
  exists s' result finished,
    run_logged config period reddit_client notifier now runtime s = (s', Return result)
    /\ RunResult.status result = "skipped_same_day"
    /\ RunResult.fetched_posts result = 0
    /\ RunResult.extracted_ideas result = 0
    /\ RunResult.window_ideas result = 0
    /\ RunResult.email_sent result = false
    /\ Db.run_logs (State.db s')
       = Db.run_logs (State.db s)
         ++ [closed_row run_id period runtime finished "skipped_same_day" 0 0 0 false
               (RunResult.message result)]
    /\ Db.posts (State.db s') = Db.posts (State.db s)
    /\ Db.ideas (State.db s') = Db.ideas (State.db s)
    /\ State.calls s'
       = State.calls s ++ [EvStartRun run_id; EvFinishRun run_id "skipped_same_day"].
Proof.
  intros Hskip run_id.
  rewrite run_logged_unfold, Hskip. unfold run_skipped.
  match goal with
  | |- context [bind (now_or_clock now) ?k ?s1] =>
      destruct (now_or_clock_total now s1) as (w & finished & Hfin);
      unfold bind at 1; rewrite Hfin
  end.
  unfold finish_run, bind, log, on_db, ret.
  cbn [fst snd State.db State.calls State.world].
  eexists _, _, finished. split; [reflexivity|].
  cbn [RunResult.status RunResult.fetched_posts RunResult.extracted_ideas
       RunResult.window_ideas RunResult.email_sent RunResult.message
       State.db State.calls].
  repeat (split; [reflexivity|]).
  split; [|split; [reflexivity|split; [reflexivity|]]].
  - unfold run_id.
    match goal with
    | |- Db.run_logs (Storage.finish_run _ ?st ?fin ?a ?b ?c ?e ?msg ?db) = _ =>
        exact (finish_run_closes_new_row (Db.run_logs (State.db s)) _ db st fin a b c e msg
                 eq_refl eq_refl)
    end.
  - rewrite <- app_assoc. reflexivity.
Qed.

(** When the [try] body raises an instance of [Exception], the handler
    closes the row as [failed] and raises the exception again; any other
    exception passes through, and the row stays as [start_run] made it. *)
Lemma run_logged_failure config period reddit_client notifier now (s : State.t W) runtime
  s2 exc :
  Storage.has_successful_run_on_day period (datetime.day runtime) (State.db s) = false ->
  let run_id := Storage.next_run_id (Db.run_logs (State.db s)) in
  let started_utc := datetime.timestamp runtime in
  let s1 :=
    State.mk (State.world s)
      (fst (Storage.start_run period (datetime.day runtime) started_utc (State.db s)))
      (State.calls s ++ [EvStartRun run_id]) in
  let lookback_seconds := Z.max (AppConfig.lookback_hours config) 1 * 60 * 60 in
  let lookback_floor :=
    lookback_floor_of (Storage.get_latest_successful_run period (State.db s))
      started_utc lookback_seconds (started_utc - lookback_seconds) in
  let client :=
    match reddit_client with
    | Some c => c
    | None => RedditClient (AppConfig.user_agent config)
    end in
  run_body config period client notifier now runtime started_utc run_id lookback_floor s1
  = (s2, Raise exc) ->
  (is_exception exc = true ->
   exists s3 finished,
     run_logged config period reddit_client notifier now runtime s = (s3, Raise exc)
     /\ Db.run_logs (State.db s3)
        = Db.run_logs (State.db s)
          ++ [closed_row run_id period runtime finished "failed" 0 0 0 false
                (f_string [type_name (exc_cls exc); ": "; exc_str exc])]
     /\ filter (fun ev => is_run_event ev) (State.calls s3)
        = filter (fun ev => is_run_event ev) (State.calls s)
          ++ [EvStartRun run_id; EvFinishRun run_id "failed"])
  /\ (is_exception exc = false ->
      run_logged config period reddit_client notifier now runtime s = (s2, Raise exc)
      /\ Db.run_logs (State.db s2)
         = Db.run_logs (State.db s) ++ [started_row run_id period runtime]
      /\ filter (fun ev => is_run_event ev) (State.calls s2)
         = filter (fun ev => is_run_event ev) (State.calls s) ++ [EvStartRun run_id]).
Proof.
  intros Hnot run_id started_utc s1 lookback_seconds lookback_floor client Hbody.
  rewrite run_logged_unfold, Hnot.
  fold run_id started_utc s1 lookback_seconds lookback_floor client.
  unfold try_except. rewrite Hbody.
  destruct (run_body_raise_untouched _ _ _ _ _ _ _ _ _ _ _ _ Hbody)
    as [Hlogs (evs & Hcalls & Hquiet)].
  split; intros ->.
  - unfold run_failed.
    destruct (now_or_clock_total now s2) as (w & finished & Hfin).
    unfold bind at 1. rewrite Hfin.
    unfold finish_run, bind, log, on_db, ret, raise.
    cbn [fst snd State.db State.calls State.world].
    eexists _, finished. split; [reflexivity|].
    cbn [State.db State.calls]. split.
    + exact (finish_run_closes_new_row (Db.run_logs (State.db s)) _ (State.db s2)
               _ _ _ _ _ _ _ Hlogs eq_refl).
    + rewrite Hcalls. subst s1. cbn [State.calls].
      rewrite !filter_app, (filter_run_events_none _ Hquiet), app_nil_r, <- app_assoc.
      reflexivity.
  - split; [reflexivity|]. split; [exact Hlogs|].
    rewrite Hcalls. subst s1. cbn [State.calls].
    rewrite !filter_app, (filter_run_events_none _ Hquiet), app_nil_r. reflexivity.
Qed.

(** The calls of the client that a run makes, when it is not skipped. *)
Lemma run_logged_fetches config period reddit_client notifier now (s s' : State.t W)
  runtime r :
  Storage.has_successful_run_on_day period (datetime.day runtime) (State.db s) = false ->
  let started_utc := datetime.timestamp runtime in
  let lookback_seconds := Z.max (AppConfig.lookback_hours config) 1 * 60 * 60 in
  let floor :=
    lookback_floor_of (Storage.get_latest_successful_run period (State.db s))
      started_utc lookback_seconds (started_utc - lookback_seconds) in
  run_logged config period reddit_client notifier now runtime s = (s', r) ->
  exists evs k,
    State.calls s' = State.calls s ++ evs
    /\ fetches evs
       = map (fun subreddit =>
                (subreddit, floor, AppConfig.max_posts_per_subreddit config))
           (take k (AppConfig.subreddits config))
    /\ forall res, r = Return res -> k = length (AppConfig.subreddits config).
Proof.
  intros Hnot started_utc lookback_seconds floor.
  rewrite run_logged_unfold, Hnot.
  fold started_utc lookback_seconds floor. unfold try_except.
  match goal with
  | |- context [run_body ?c ?p ?cl ?n ?nw ?rt ?st ?id ?fl ?s1] =>
      destruct (run_body c p cl n nw rt st id fl s1) as [s2 [res|exc]] eqn:Hbody;
      destruct (run_body_fetches _ _ _ _ _ _ _ _ _ _ _ _ Hbody)
        as (evs & k & Hcalls & Hfetches & Hall)
  end; cbn [State.calls] in Hcalls.
  - intros [= <- <-].
    exists ([EvStartRun (Storage.next_run_id (Db.run_logs (State.db s)))] ++ evs), k.
    split; [rewrite Hcalls, <- app_assoc; reflexivity|].
    split; [rewrite fetches_app; exact Hfetches | exact Hall].
  - destruct (is_exception exc).
    + unfold run_failed.
      destruct (now_or_clock_total now s2) as (w & finished & Hfin).
      unfold bind at 1. rewrite Hfin.
      unfold finish_run, bind, log, on_db, ret, raise.
      cbn [fst snd State.db State.calls State.world].
      intros [= <- <-]. cbn [State.calls].
      exists ([EvStartRun (Storage.next_run_id (Db.run_logs (State.db s)))] ++ evs
              ++ [EvFinishRun (Storage.next_run_id (Db.run_logs (State.db s))) "failed"]), k.
      split; [rewrite Hcalls, <- !app_assoc; reflexivity|].
      split; [|discriminate].
      rewrite !fetches_app. cbn [fetches omap list_omap app]. rewrite app_nil_r.
      exact Hfetches.
    + intros [= <- <-].
      exists ([EvStartRun (Storage.next_run_id (Db.run_logs (State.db s)))] ++ evs), k.
      split; [rewrite Hcalls, <- app_assoc; reflexivity|].
      split; [rewrite fetches_app; exact Hfetches | discriminate].
Qed.

Lemma bind_ext {S A B} (m : S -> S * outcome A) (k1 k2 : A -> S -> S * outcome B) s :
  (forall a s', k1 a s' = k2 a s') -> bind m k1 s = bind m k2 s.
Proof. intros Hk. unfold bind. destruct (m s) as [s1 [a|e]]; auto. Qed.

Lemma extract_ideas_ignores_gemini posts config gemini1 gemini2 :
  extract_ideas posts (with_gemini gemini1 config)
  = extract_ideas posts (with_gemini gemini2 config).
Proof.
  unfold extract_ideas. f_equal.
  induction posts as [|post rest IH]; [reflexivity|].
  cbn [extract_loop]. rewrite IH. reflexivity.
Qed.

Lemma run_logged_ignores_gemini config gemini period reddit_client notifier now runtime
  (s : State.t W) :
  run_logged (with_gemini gemini config) period reddit_client notifier now runtime s
  = run_logged (with_gemini None config) period reddit_client notifier now runtime s.
Proof.
  unfold run_logged.
  repeat (apply bind_ext; intros).
  match goal with |- (if ?b then _ else _) _ = _ => destruct b end; [reflexivity|].
  apply bind_ext. intros latest s1. unfold try_except.
  match goal with
  | |- match ?x with _ => _ end = match ?y with _ => _ end =>
      replace x with y; [reflexivity|]
  end.
  unfold run_body. apply bind_ext. intros posts s2.
  rewrite (extract_ideas_ignores_gemini posts config gemini None). reflexivity.
Qed.
End RunLoggedFacts.

(** ** pipeline.py: [run_once] *)

Section RunOnceFacts.
Context `{Libm} `{Calendar} {W : Type} `{Outside W}.

(** Reading the time changes nothing but the world, and does not raise. *)
Lemma machine_now_total now (m : Machine.t W) :
  exists w dt,
    machine_now now m = (Machine.mk w (Machine.disk m) (Machine.calls m), Return dt).
Proof.
  destruct now as [dt|]; simpl.
  - exists (Machine.world m), dt. now destruct m.
  - unfold machine_call. destruct (datetime_now (Machine.world m)) as [w dt]. eauto.
Qed.

(** The tables of the files after one file has been written. *)
Lemma db_after_write path other db (w : W) (disk : gmap string Db.t) calls :
  Machine.db other (Machine.mk w (<[path := db]> disk) calls)
  = if String.eqb path other then db else Machine.db other (Machine.mk w disk calls).
Proof.
  unfold Machine.db. cbn [Machine.disk].
  destruct (String.eqb_spec path other) as [->|Hne].
  - now rewrite lookup_insert_eq.
  - now rewrite lookup_insert_ne.
Qed.

(** What lines 40 to 48 leave behind when they go through: the file of
    the database is there, with the tables that it had, and nothing has
    been logged. *)
Lemma run_setup_inv config now (m m1 : Machine.t W) runtime storage :
  run_setup config now m = (m1, Return (runtime, storage)) ->
  (exists m0, machine_now now m = (m0, Return runtime))
  /\ storage = db_path config
  /\ Machine.calls m1 = Machine.calls m
  /\ forall other, Machine.db other m1 = Machine.db other m.
Proof.
  unfold run_setup, open_storage. intros E.
  destruct (machine_now_total now m) as (w0 & dt & Hnow).
  unfold bind at 1 in E. rewrite Hnow in E.
  unfold bind, machine_call, ret in E. cbn [Machine.world Machine.disk Machine.calls] in E.
  destruct (mkdir w0 (AppConfig.data_dir config)) as [w1 [[]|?]]; [|discriminate E].
  cbn [Machine.world Machine.disk Machine.calls] in E.
  destruct (mkdir w1 (AppConfig.output_dir config)) as [w2 [[]|?]]; [|discriminate E].
  cbn [Machine.world Machine.disk Machine.calls] in E.
  destruct (mkdir w2 (AppConfig.data_dir config)) as [w3 [[]|?]]; [|discriminate E].
  cbn [Machine.world Machine.disk Machine.calls] in E.
  destruct (sqlite3_connect w3 _) as [w4 [[]|?]]; [|discriminate E].
  cbn [Machine.world Machine.disk Machine.calls] in E.
  injection E as <- <- <-.
  split; [eauto|]. split; [reflexivity|]. split; [reflexivity|].
  intros other. rewrite db_after_write.
  destruct (String.eqb_spec (path_join (AppConfig.data_dir config) "reddit_ideas.db") other)
    as [<-|_]; reflexivity.
Qed.

(** When they raise, nothing has been written and nothing logged. *)
Lemma run_setup_failure config now (m m1 : Machine.t W) e :
  run_setup config now m = (m1, Raise e) ->
  Machine.calls m1 = Machine.calls m /\ Machine.disk m1 = Machine.disk m.
Proof.
  unfold run_setup, open_storage. intros E.
  destruct (machine_now_total now m) as (w0 & dt & Hnow).
  unfold bind at 1 in E. rewrite Hnow in E.
  unfold bind, machine_call, ret in E. cbn [Machine.world Machine.disk Machine.calls] in E.
  destruct (mkdir w0 (AppConfig.data_dir config)) as [w1 [[]|?]];
    [|injection E as <- _; split; reflexivity].
  cbn [Machine.world Machine.disk Machine.calls] in E.
  destruct (mkdir w1 (AppConfig.output_dir config)) as [w2 [[]|?]];
    [|injection E as <- _; split; reflexivity].
  cbn [Machine.world Machine.disk Machine.calls] in E.
  destruct (mkdir w2 (AppConfig.data_dir config)) as [w3 [[]|?]];
    [|injection E as <- _; split; reflexivity].
  cbn [Machine.world Machine.disk Machine.calls] in E.
  destruct (sqlite3_connect w3 _) as [w4 [[]|?]];
    [|injection E as <- _; split; reflexivity].
  discriminate E.
Qed.

(** [run_once] for a valid period: the setup and then the run on the
    storage. *)
Lemma run_once_unfold config period reddit_client notifier now (m : Machine.t W) :
  period = "daily" \/ period = "weekly" ->
  run_once config period reddit_client notifier now m
  = match run_setup config now m with
    | (m1, Return (runtime, storage)) =>
        with_storage storage
          (run_logged config period reddit_client notifier now runtime) m1
    | (m1, Raise e) => (m1, Raise e)
    end.
Proof.
  intros Hperiod. destruct (valid_period_normal _ Hperiod) as [Hnorm Hmem].
  unfold run_once. rewrite Hnorm, Hmem. cbn [negb]. unfold bind.
  destruct (run_setup config now m) as [m1 [[runtime storage]|e]]; reflexivity.
Qed.

(** The state on which the run on the storage starts, after a setup that
    went through. *)
Lemma run_once_after_setup config period reddit_client notifier now (m m1 : Machine.t W)
  runtime storage :
  period = "daily" \/ period = "weekly" ->
  run_setup config now m = (m1, Return (runtime, storage)) ->
  let s := State.mk (Machine.world m1) (Machine.db (db_path config) m) (Machine.calls m) in
  run_once config period reddit_client notifier now m
  = let '(s', r) := run_logged config period reddit_client notifier now runtime s in
    (storage_done (db_path config) s' m1, r).
Proof.
  intros Hperiod Hsetup s. rewrite (run_once_unfold _ _ _ _ _ _ Hperiod), Hsetup.
  destruct (run_setup_inv _ _ _ _ _ _ Hsetup) as (_ & -> & Hcalls & Hdb).
  unfold with_storage, storage_view. rewrite Hcalls, Hdb. reflexivity.
Qed.

Lemma db_storage_done path (s : State.t W) (m : Machine.t W) other :
  Machine.db other (storage_done path s m)
  = if String.eqb path other then State.db s else Machine.db other m.
Proof.
  unfold storage_done. rewrite db_after_write.
  destruct (String.eqb path other); [reflexivity|]. now destruct m.
Qed.

(** The two ways in which a run of a valid period goes: the setup raises,
    or the run on the storage ends. *)
Lemma run_once_inv config period reddit_client notifier now (m m' : Machine.t W) r :
  period = "daily" \/ period = "weekly" ->
  run_once config period reddit_client notifier now m = (m', r) ->
  (exists e,
     r = Raise e /\ run_setup config now m = (m', Raise e)
     /\ Machine.calls m' = Machine.calls m /\ Machine.disk m' = Machine.disk m)
  \/ (exists m1 runtime s',
        run_setup config now m = (m1, Return (runtime, db_path config))
        /\ run_logged config period reddit_client notifier now runtime
             (State.mk (Machine.world m1) (Machine.db (db_path config) m) (Machine.calls m))
           = (s', r)
        /\ Machine.db (db_path config) m' = State.db s'
        /\ Machine.calls m' = State.calls s'
        /\ forall other, other <> db_path config -> Machine.db other m' = Machine.db other m).
Proof.
  intros Hperiod Hrun.
  destruct (run_setup config now m) as [m1 [[runtime storage]|e]] eqn:Hsetup.
  - right. rewrite (run_once_after_setup _ _ _ _ _ _ _ _ _ Hperiod Hsetup) in Hrun.
    destruct (run_setup_inv _ _ _ _ _ _ Hsetup) as (_ & -> & _ & Hdb).
    destruct (run_logged _ _ _ _ _ _ _) as [s' r'] eqn:Hlogged.
    injection Hrun as <- <-.
    exists m1, runtime, s'. split; [reflexivity|]. split; [exact Hlogged|].
    split; [rewrite db_storage_done, String.eqb_refl; reflexivity|].
    split; [reflexivity|].
    intros other Hother. rewrite db_storage_done.
    destruct (String.eqb_spec (db_path config) other) as [<-|_]; [congruence | apply Hdb].
  - left. rewrite (run_once_unfold _ _ _ _ _ _ Hperiod), Hsetup in Hrun.
    injection Hrun as <- <-. exists e.
    destruct (run_setup_failure _ _ _ _ _ Hsetup) as [Hcalls Hdisk].
    repeat split; assumption.
Qed.

(** Once the run log holds a successful run of the period for the day as
    [strftime] writes it, a run of that period, once it has opened its
    storage, adds a run row and closes it as [skipped_same_day], returns a
    result with that status, zero counts and no notification, leaves the
    posts and the ideas as they are, and calls nothing but [start_run] and
    [finish_run]. *)
Lemma stored_success_skips_the_run config period reddit_client notifier now
  (m m1 : Machine.t W) runtime storage :
  period = "daily" \/ period = "weekly" ->
  run_setup config now m = (m1, Return (runtime, storage)) ->
  let db := Machine.db (db_path config) m in
  Storage.has_successful_run_on_day period (datetime.day runtime) db = true ->
  let run_id := Storage.next_run_id (Db.run_logs db) in
  exists m' result finished,
    run_once config period reddit_client notifier now m = (m', Return result)
    /\ RunResult.status result = "skipped_same_day"
    /\ RunResult.fetched_posts result = 0
    /\ RunResult.extracted_ideas result = 0
    /\ RunResult.window_ideas result = 0
    /\ RunResult.email_sent result = false
    /\ Db.run_logs (Machine.db (db_path config) m')
       = Db.run_logs db
         ++ [closed_row run_id period runtime finished "skipped_same_day" 0 0 0 false
               (RunResult.message result)]
    /\ Db.posts (Machine.db (db_path config) m') = Db.posts db
    /\ Db.ideas (Machine.db (db_path config) m') = Db.ideas db
    /\ Machine.calls m'
       = Machine.calls m ++ [EvStartRun run_id; EvFinishRun run_id "skipped_same_day"].
Proof.
  intros Hperiod Hsetup db Hskip run_id. subst run_id db.
  rewrite (run_once_after_setup _ _ _ _ _ _ _ _ _ Hperiod Hsetup).
  destruct (run_logged_skips config period reddit_client notifier now
              (State.mk (Machine.world m1) (Machine.db (db_path config) m) (Machine.calls m))
              runtime Hskip)
    as (s' & result & finished & -> & Hres).
  cbn [State.db State.calls] in Hres.
  exists (storage_done (db_path config) s' m1), result, finished.
  rewrite db_storage_done, String.eqb_refl. split; [reflexivity|]. exact Hres.
Qed.

(** C5, as the code has it. In a run that is not skipped, when the [try]
    body raises an instance of [Exception], at whatever step, the row
    that [start_run] created is closed as [failed] with zero counts, no
    notification and a message made of the exception's class and text;
    [finish_run] is called once, and [run_once] raises the same
    exception. An exception that is not an instance of [Exception] passes
    through the [except] clause: [run_once] raises it, [finish_run] is
    not called and the row stays as [start_run] created it. *)
Theorem failure_closes_the_run_and_reraises config period reddit_client notifier now
  (m m1 : Machine.t W) runtime storage s2 exc :
  period = "daily" \/ period = "weekly" ->
  run_setup config now m = (m1, Return (runtime, storage)) ->
  let db := Machine.db (db_path config) m in
  Storage.has_successful_run_on_day period (datetime.day runtime) db = false ->
  let run_id := Storage.next_run_id (Db.run_logs db) in
  let started_utc := datetime.timestamp runtime in
  let s1 :=
    State.mk (Machine.world m1)
      (fst (Storage.start_run period (datetime.day runtime) started_utc db))
      (Machine.calls m ++ [EvStartRun run_id]) in
  let lookback_seconds := Z.max (AppConfig.lookback_hours config) 1 * 60 * 60 in
  let lookback_floor :=
    lookback_floor_of (Storage.get_latest_successful_run period db)
      started_utc lookback_seconds (started_utc - lookback_seconds) in
  let client :=
    match reddit_client with
    | Some c => c
    | None => RedditClient (AppConfig.user_agent config)
    end in
  run_body config period client notifier now runtime started_utc run_id lookback_floor s1
  = (s2, Raise exc) ->
  (is_exception exc = true ->
   exists m3 finished,
     run_once config period reddit_client notifier now m = (m3, Raise exc)
     /\ Db.run_logs (Machine.db (db_path config) m3)
        = Db.run_logs db
          ++ [closed_row run_id period runtime finished "failed" 0 0 0 false
                (f_string [type_name (exc_cls exc); ": "; exc_str exc])]
     /\ filter (fun ev => is_run_event ev) (Machine.calls m3)
        = filter (fun ev => is_run_event ev) (Machine.calls m)
          ++ [EvStartRun run_id; EvFinishRun run_id "failed"])
  /\ (is_exception exc = false ->
      exists m3,
        run_once config period reddit_client notifier now m = (m3, Raise exc)
        /\ Db.run_logs (Machine.db (db_path config) m3)
           = Db.run_logs db ++ [started_row run_id period runtime]
        /\ filter (fun ev => is_run_event ev) (Machine.calls m3)
           = filter (fun ev => is_run_event ev) (Machine.calls m) ++ [EvStartRun run_id]).
Proof.
  intros Hperiod Hsetup db Hnot run_id started_utc s1 lookback_seconds lookback_floor client
    Hbody.
  subst client lookback_floor lookback_seconds s1 started_utc run_id db.
  rewrite (run_once_after_setup _ _ _ _ _ _ _ _ _ Hperiod Hsetup).
  destruct (run_logged_failure config period reddit_client notifier now
              (State.mk (Machine.world m1) (Machine.db (db_path config) m) (Machine.calls m))
              runtime s2 exc Hnot Hbody)
    as [Hcaught Hpassed].
  cbn [State.db State.calls] in Hcaught, Hpassed.
  split; intros Hexc.
  - destruct (Hcaught Hexc) as (s3 & finished & -> & Hlogs & Hcalls).
    exists (storage_done (db_path config) s3 m1), finished.
    rewrite db_storage_done, String.eqb_refl. split; [reflexivity|]. split; assumption.
  - destruct (Hpassed Hexc) as (-> & Hlogs & Hcalls).
    exists (storage_done (db_path config) s2 m1).
    rewrite db_storage_done, String.eqb_refl. split; [reflexivity|]. split; assumption.
Qed.

(** C2, as the code has it. In a run that is not skipped, each call of
    the client gets the same floor. The floor is the finish time [T] of
    the latest successful run of the period when the run starts no more
    than [max(lookback_hours, 1) * 3600] seconds after [T]; it is the
    start time less that many seconds when there is no such run, when it
    has no finish time, or when it finished longer ago. The latest
    successful run is one of the period than which none finished later.
    The client is called for the subreddits in order, for all of them
    when the run returns. *)
Theorem fetch_floor_is_checkpoint_or_default config period reddit_client notifier now
  (s s0 : Machine.t W) runtime :
  period = "daily" \/ period = "weekly" ->
  machine_now now s = (s0, Return runtime) ->
  let db := Machine.db (db_path config) s in
  Storage.has_successful_run_on_day period (datetime.day runtime) db = false ->
  let started_utc := datetime.timestamp runtime in
  let lookback_seconds := Z.max (AppConfig.lookback_hours config) 1 * 3600 in
  let latest := Storage.get_latest_successful_run period db in
  exists floor,
    (forall run T, latest = Some run -> RunLog.run_finished_utc run = Some T ->
                   started_utc - T <= lookback_seconds -> floor = T)
    /\ (forall run T, latest = Some run -> RunLog.run_finished_utc run = Some T ->
                      lookback_seconds < started_utc - T ->
                      floor = started_utc - lookback_seconds)
    /\ (forall run, latest = Some run -> RunLog.run_finished_utc run = None ->
                    floor = started_utc - lookback_seconds)
    /\ (latest = None -> floor = started_utc - lookback_seconds)
    /\ (forall run,
          latest = Some run ->
          exists row,
            row ∈ Db.run_logs db /\ Storage.is_success_of period row = true
            /\ run = Storage.run_log_of_row row
            /\ forall other,
                 other ∈ Db.run_logs db ->
                 Storage.is_success_of period other = true ->
                 Storage.null_lt (RunLogRow.run_finished_utc row)
                   (RunLogRow.run_finished_utc other) = false)
    /\ (latest = None ->
        forall row, row ∈ Db.run_logs db ->
                    Storage.is_success_of period row = false)
    /\ forall s' r,
         run_once config period reddit_client notifier now s = (s', r) ->
         exists evs k,
           Machine.calls s' = Machine.calls s ++ evs
           /\ fetches evs
              = map (fun subreddit =>
                       (subreddit, floor, AppConfig.max_posts_per_subreddit config))
                  (take k (AppConfig.subreddits config))
           /\ forall res, r = Return res -> k = length (AppConfig.subreddits config).
Proof.
  intros Hperiod Hnow db Hnot started_utc lookback_seconds latest.
  assert (Hsec : Z.max (AppConfig.lookback_hours config) 1 * 60 * 60 = lookback_seconds)
    by (unfold lookback_seconds; lia).
  exists (lookback_floor_of latest started_utc lookback_seconds
            (started_utc - lookback_seconds)).
  split; [|split; [|split; [|split; [|split; [|split]]]]].
  - intros run T -> HT Hle. unfold lookback_floor_of. rewrite HT.
    destruct (Z.leb_spec (started_utc - T) lookback_seconds); [reflexivity|lia].
  - intros run T -> HT Hlt. unfold lookback_floor_of. rewrite HT.
    destruct (Z.leb_spec (started_utc - T) lookback_seconds); [lia|reflexivity].
  - intros run -> HT. unfold lookback_floor_of. now rewrite HT.
  - intros ->. reflexivity.
  - intros run Hrun. pose proof (get_latest_successful_run_spec period db) as Hs.
    fold latest in Hs. rewrite Hrun in Hs. exact Hs.
  - intros Hnone. pose proof (get_latest_successful_run_spec period db) as Hs.
    fold latest in Hs. rewrite Hnone in Hs. exact Hs.
  - intros s' r Hrun.
    apply (run_once_inv _ _ _ _ _ _ _ _ Hperiod) in Hrun
      as [(e & -> & _ & Hcalls & _)|(m1 & runtime' & s1 & Hsetup & Hlogged & _ & Hcalls & _)].
    + exists [], 0%nat. split; [rewrite Hcalls, app_nil_r; reflexivity|].
      split; [reflexivity | discriminate].
    + destruct (run_setup_inv _ _ _ _ _ _ Hsetup) as ((m0 & Hnow') & _).
      rewrite Hnow in Hnow'. injection Hnow' as _ <-.
      destruct (run_logged_fetches config period reddit_client notifier now
                  (State.mk (Machine.world m1) db (Machine.calls s)) s1 runtime r
                  Hnot Hlogged)
        as (evs & k & Hevs & Hfetches & Hall).
      cbn [State.db State.calls] in Hevs, Hfetches. rewrite Hsec in Hfetches.
      exists evs, k. rewrite Hcalls. repeat split; assumption.
Qed.

(** C3, as the code has it. The enrichment section of the configuration
    has no part in a run: [run_once] does the same with any enrichment
    section as without one, and the ideas that it extracts and persists
    carry no LLM score. *)
Theorem run_once_ignores_enrichment config gemini period reddit_client notifier now
  (s : Machine.t W) :
  run_once (with_gemini gemini config) period reddit_client notifier now s
  = run_once (with_gemini None config) period reddit_client notifier now s
  /\ forall posts idea,
       idea ∈ extract_ideas posts (with_gemini gemini config) ->
       IdeaCandidate.llm_profit_score idea = None
       /\ IdeaCandidate.llm_confidence idea = None.
Proof.
  split.
  - unfold run_once.
    destruct (negb (PyStr.mem (PyStr.strip (PyStr.lower period)) ["daily"; "weekly"]));
      [reflexivity|].
    change (run_setup (with_gemini gemini config) now)
      with (run_setup (with_gemini None config) now).
    apply bind_ext. intros [runtime storage] s1. unfold with_storage.
    now rewrite run_logged_ignores_gemini.
  - intros posts idea Hidea. unfold extract_ideas in Hidea.
    apply sort_by_elem_of in Hidea. rewrite extract_loop_filter in Hidea.
    apply list_elem_of_fmap in Hidea as (post & -> & _).
    unfold extracted_idea. destruct (score_post post (with_gemini gemini config)). auto.
Qed.
End RunOnceFacts.

Lemma failure_closes_the_run_and_reraises_witness :
  let config := test_config ["vibecoding"] 168 None in
  exists m3 row,
    @run_once sample_libm sample_calendar _ fake_outside config "daily"
      (Some pipeline_client) (Some BrokenNotifier) (Some noon) fresh_state
    = (m3, Raise (Exception (OtherException "SMTPException") "connection refused"))
    /\ Db.run_logs (Machine.db (db_path config) m3) = [row]
    /\ RunLogRow.status row = "failed"
    /\ RunLogRow.message row = "SMTPException: connection refused"
    /\ filter (fun ev => is_run_event ev) (Machine.calls m3)
       = [EvStartRun 1; EvFinishRun 1 "failed"].
Proof.
  intros config.
  set (m1 := fst (@run_setup _ fake_outside config (Some noon) fresh_state)).
  assert (Hsetup : @run_setup _ fake_outside config (Some noon) fresh_state
                   = (m1, Return (noon, db_path config))) by (vm_compute; reflexivity).
  set (db := Machine.db (db_path config) fresh_state).
  destruct (@run_body sample_libm sample_calendar _ fake_outside config "daily"
              pipeline_client (Some BrokenNotifier) (Some noon) noon
              (datetime.timestamp noon) (Storage.next_run_id (Db.run_logs db))
              (lookback_floor_of (Storage.get_latest_successful_run "daily" db)
                 (datetime.timestamp noon)
                 (Z.max (AppConfig.lookback_hours config) 1 * 60 * 60)
                 (datetime.timestamp noon
                  - Z.max (AppConfig.lookback_hours config) 1 * 60 * 60))
              (State.mk (Machine.world m1)
                 (fst (Storage.start_run "daily" (datetime.day noon)
                         (datetime.timestamp noon) db))
                 (Machine.calls fresh_state
                  ++ [EvStartRun (Storage.next_run_id (Db.run_logs db))])))
    as [s2 [res|exc]] eqn:Hbody;
    [vm_compute in Hbody; discriminate Hbody|].
  assert (Hexc : exc = Exception (OtherException "SMTPException") "connection refused")
    by (vm_compute in Hbody; congruence).
  destruct (@failure_closes_the_run_and_reraises sample_libm sample_calendar _ fake_outside
              config "daily" (Some pipeline_client) (Some BrokenNotifier) (Some noon)
              fresh_state m1 noon (db_path config) s2 exc (or_introl eq_refl) Hsetup
              eq_refl Hbody)
    as [Hcaught _].
  subst exc. destruct (Hcaught eq_refl) as (m3 & finished & Hrun & Hlogs & Hcalls).
  eexists m3, _. split; [exact Hrun|]. split; [exact Hlogs|].
  split; [reflexivity|]. split; [reflexivity|]. exact Hcalls.
Defined.

(** A [KeyboardInterrupt] while the client fetches passes through the
    [except Exception] clause: the run raises it and leaves its row in
    the status [started]. *)
Lemma keyboard_interrupt_leaves_the_run_started :
  let config := test_config ["vibecoding"] 168 None in
  let run := @run_once sample_libm sample_calendar _ fake_outside config "daily"
               (Some InterruptedClient) (Some FakeNotifier) (Some noon) fresh_state in
  snd run = Raise (Exception KeyboardInterrupt EmptyString)
  /\ map RunLogRow.status (Db.run_logs (Machine.db (db_path config) (fst run)))
     = ["started"]
  /\ filter (fun ev => is_run_event ev) (Machine.calls (fst run)) = [EvStartRun 1].
Proof. vm_compute. repeat split. Qed.

Lemma fetch_floor_is_checkpoint_or_default_witness :
  let config := test_config ["vibecoding"] 168 None in
  let s := state_after_first_noon in
  Storage.has_successful_run_on_day "daily" (datetime.day second_noon)
    (Machine.db (db_path config) s) = false
  /\ forall s' r,
       @run_once sample_libm sample_calendar _ fake_outside config "daily"
         (Some incremental_client) None (Some second_noon) s = (s', r) ->
       exists evs,
         Machine.calls s' = Machine.calls s ++ evs
         /\ fetches evs = [("vibecoding", datetime.timestamp first_noon, 10)].
Proof.
  intros config s.
  assert (Hnot : Storage.has_successful_run_on_day "daily" (datetime.day second_noon)
                   (Machine.db (db_path config) s) = false) by reflexivity.
  split; [exact Hnot|].
  destruct (@fetch_floor_is_checkpoint_or_default sample_libm sample_calendar _ fake_outside
              config "daily" (Some incremental_client) None (Some second_noon)
              s s second_noon (or_introl eq_refl) eq_refl Hnot)
    as (floor & Hrecent & _ & _ & _ & _ & _ & Hcalls).
  assert (Hfloor : floor = datetime.timestamp first_noon).
  { eapply Hrecent; [reflexivity | reflexivity | vm_compute; discriminate]. }
  intros s' r Hrun. destruct (Hcalls s' r Hrun) as (evs & k & Hevs & Hfetches & Hall).
  exists evs. split; [exact Hevs|]. rewrite Hfetches, Hfloor.
  assert (Hr : exists res, r = Return res).
  { vm_compute in Hrun. injection Hrun as _ <-. eauto. }
  destruct Hr as [res Hr]. rewrite (Hall res Hr). reflexivity.
Defined.

(** With [lookback_hours = 0] and no earlier run, the floor is one hour
    before the start, not the start itself. *)
Lemma zero_lookback_hours_fetch_one_hour_back :
  let config := test_config ["vibecoding"] 0 None in
  fetches (Machine.calls
             (fst (@run_once sample_libm sample_calendar _ fake_outside config "daily"
                     (Some pipeline_client) (Some FakeNotifier) (Some noon) fresh_state)))
  = [("vibecoding", datetime.timestamp noon - 3600, 10)]
  /\ datetime.timestamp noon - AppConfig.lookback_hours config * 3600
     = datetime.timestamp noon.
Proof. vm_compute. split; reflexivity. Qed.

(** With the enrichment switched on, the ideas handed to the report
    writer carry the heuristic score and no LLM score; the merger, had it
    been called on the extracted ideas, would have blended the score. *)
Lemma enabled_enrichment_is_not_run :
  let config := test_config ["vibecoding"] 168 (Some (test_gemini 2)) in
  let run := @run_once sample_libm sample_calendar _ fake_outside config "daily"
               (Some pipeline_client) (Some FakeNotifier) (Some noon) fresh_state in
  let merged := @enrich_ideas_with_gemini nat FakeGeminiAssessor
                  (@extract_ideas sample_libm [pipeline_post] config) [pipeline_post]
                  config 0%nat in
  map (map (fun idea => (IdeaCandidate.relevance_score idea,
                         IdeaCandidate.llm_profit_score idea)))
    (reported (Machine.calls (fst run)))
  = [[(4.561%float, None)]]
  /\ match er_result merged with
     | Return ideas =>
         map (fun idea => (IdeaCandidate.relevance_score idea,
                           IdeaCandidate.llm_profit_score idea)) ideas
     | Raise _ => []
     end = [(6.926%float, Some 82.0%float)].
Proof. vm_compute. split; reflexivity. Qed.

(** C1. The day that [run_once] stores and tests is the day of [now] on
    the wall clock of its own zone. A daily run at 22:30 UTC of
    2026-02-12 succeeds; a second daily run at 23:15 UTC of the same
    day, given as 00:15 of 2026-02-13 in the zone one hour east, is not
    skipped: it fetches, notifies and is stored as a second success,
    under the day 2026-02-13. *)
Theorem same_utc_day_in_another_zone_runs_again :
  let config := test_config ["vibecoding"] 168 None in
  let first := @run_once sample_libm sample_calendar _ fake_outside config "daily"
                 (Some pipeline_client) (Some FakeNotifier) (Some evening_utc)
                 fresh_state in
  let second := @run_once sample_libm sample_calendar _ fake_outside config "daily"
                  (Some pipeline_client) (Some FakeNotifier) (Some same_evening_east)
                  (fst first) in
  let added := drop (length (Machine.calls (fst first))) (Machine.calls (fst second)) in
  datetime.utc_day evening_utc = "2026-02-12"
  /\ datetime.utc_day same_evening_east = "2026-02-12"
  /\ datetime.day same_evening_east = "2026-02-13"
  /\ match snd first with
     | Return result => RunResult.status result
     | Raise _ => EmptyString
     end = "success"
  /\ match snd second with
     | Return result => RunResult.status result
     | Raise _ => EmptyString
     end = "success"
  /\ fetches added = [("vibecoding", datetime.timestamp evening_utc, 10)]
  /\ length (sends added) = 1%nat
  /\ map (fun row => (RunLogRow.run_day_utc row, RunLogRow.status row))
       (Db.run_logs (Machine.db (db_path config) (fst second)))
     = [("2026-02-12", "success"); ("2026-02-13", "success")].
Proof. vm_compute. repeat split. Qed.

(** * Further properties *)
(** ** Sorted sets of strings *)

Lemma insert_sorted_increasing x xs :
  increasing xs -> increasing (PyStr.insert_sorted x xs).
Proof.
  unfold increasing. induction 1 as [|y ys Hs IH Hhd]; simpl.
  - repeat constructor.
  - destruct (String.compare x y) eqn:E.
    + now constructor.
    + constructor; [now constructor | now constructor].
    + constructor; [assumption|].
      assert (Hyx : String.compare y x = Lt).
      { rewrite String.compare_antisym, E. reflexivity. }
      destruct ys as [|z zs]; simpl.
      * now constructor.
      * destruct (String.compare x z); constructor; try assumption;
          now inversion Hhd.
Qed.

Lemma sorted_set_increasing xs : increasing (PyStr.sorted_set xs).
Proof.
  unfold PyStr.sorted_set. induction xs as [|x xs IH]; simpl.
  - constructor.
  - now apply insert_sorted_increasing.
Qed.

(** ** Stable sorting by a strict weak order *)

Lemma StronglySorted_mono {A : Type} (R R' : A -> A -> Prop) xs :
  (forall a b, R a b -> R' a b) -> StronglySorted R xs -> StronglySorted R' xs.
Proof.
  intros HR. induction 1 as [|x xs _ IH Hx]; constructor; [assumption|].
  eapply Forall_impl; [exact Hx | auto].
Qed.

Lemma sort_by_sorted_on {A : Type} (P : A -> Prop) (before : A -> A -> bool) xs :
  (forall a b, P a -> P b -> before a b = true -> before b a = false) ->
  (forall a b c, P a -> P b -> P c ->
                 before a b = false -> before b c = false -> before a c = false) ->
  Forall P xs ->
  StronglySorted (fun a b => before b a = false) (sort_by before xs).
Proof.
  intros Hasym Hneg HP. induction HP as [|x xs Hx HP IH]; simpl; [constructor|].
  assert (Hall : Forall P (sort_by before xs)) by now rewrite sort_by_perm.
  induction IH as [|y ys Hs IH Hy]; simpl.
  - repeat constructor.
  - apply Forall_cons in Hall as [Hpy Hall].
    destruct (before y x) eqn:E.
    + constructor; [now apply IH|].
      rewrite insert_by_perm. constructor; [now apply Hasym | assumption].
    + constructor; [now constructor|].
      constructor; [assumption|].
      rewrite Forall_forall in Hy, Hall |- *. intros z Hz.
      apply Hneg with y; auto.
Qed.

Lemma sort_by_sorted {A : Type} (before : A -> A -> bool) xs :
  (forall a b, before a b = true -> before b a = false) ->
  (forall a b c, before a b = false -> before b c = false -> before a c = false) ->
  StronglySorted (fun a b => before b a = false) (sort_by before xs).
Proof.
  intros Hasym Hneg.
  apply (sort_by_sorted_on (fun _ => True)); [auto | eauto | apply Forall_forall; auto].
Qed.

Lemma StronglySorted_app_cross {A : Type} (R : A -> A -> Prop) xs ys :
  StronglySorted R (xs ++ ys) -> forall a b, a ∈ xs -> b ∈ ys -> R a b.
Proof.
  induction xs as [|x xs IH]; simpl; intros Hs a b Ha Hb; [inversion Ha|].
  inversion Hs as [|? ? Hs' Hx]; subst.
  apply elem_of_cons in Ha as [->|Ha]; [|now apply IH].
  rewrite Forall_forall in Hx. apply Hx. apply elem_of_app. now right.
Qed.

Lemma StronglySorted_fmap {A B : Type} (f : A -> B) (R : B -> B -> Prop) xs :
  StronglySorted (fun a b => R (f a) (f b)) xs -> StronglySorted R (map f xs).
Proof.
  induction 1 as [|x xs _ IH Hx]; simpl; constructor; [assumption|].
  now apply Forall_map.
Qed.

(** ** extractor.py: the tags of [score_post] *)

Lemma tags_of_spec b1 b2 b3 b4 b5 b6 :
  let tags := tags_of b1 b2 b3 b4 b5 b6 in
  bool_decide ("keyword_match" ∈ tags) = b1
  /\ bool_decide ("noise_signal" ∈ tags) = b2
  /\ bool_decide ("pain_point" ∈ tags) = b3
  /\ bool_decide ("solution_possible" ∈ tags) = b4
  /\ bool_decide ("monetization" ∈ tags) = b5
  /\ bool_decide ("question" ∈ tags) = b6
  /\ bool_decide ("low_signal" ∈ tags) = bool_decide (tags = ["low_signal"])
  /\ bool_decide (tags ⊆ SCORE_TAGS) = true.
Proof. destruct b1, b2, b3, b4, b5, b6; vm_compute; repeat split. Qed.

Lemma bool_decide_is (P : Prop) `{!Decision P} (b : bool) :
  bool_decide P = b -> (P <-> b = true).
Proof. intros <-. symmetry. apply bool_decide_eq_true. Qed.

Section ScorePostFacts.
Context `{Libm}.

Lemma score_post_tags post config :
  let text := post_text post in
  snd (score_post post config)
  = tags_of (negb (_keyword_hits text (AppConfig.include_keywords config) =? 0))
      (negb (_keyword_hits text (AppConfig.exclude_keywords config) =? 0))
      (_contains_any text PAIN_SIGNALS) (_contains_any text SOLUTION_SIGNALS)
      (_contains_any text MONETIZATION_SIGNALS) (PyStr.has_char "?" (RedditPost.title post)).
Proof.
  cbv zeta. unfold score_post.
  destruct (_keyword_hits (post_text post) (AppConfig.include_keywords config) =? 0),
    (_keyword_hits (post_text post) (AppConfig.exclude_keywords config) =? 0),
    (_contains_any (post_text post) PAIN_SIGNALS),
    (_contains_any (post_text post) SOLUTION_SIGNALS),
    (_contains_any (post_text post) MONETIZATION_SIGNALS),
    (PyStr.has_char "?" (RedditPost.title post));
    reflexivity.
Qed.

(** X1. The tags that [score_post] returns are in strictly increasing
    order, hence without a duplicate, and are among the seven labels; each
    label but [low_signal] is there exactly when its test on the post
    succeeds, and [low_signal] is there exactly when it is the only tag. *)
Theorem score_post_tags_shape post config :
  let text := post_text post in
  let tags := snd (score_post post config) in
  increasing tags
  /\ (forall tag, tag ∈ tags -> tag ∈ SCORE_TAGS)
  /\ ("keyword_match" ∈ tags
      <-> _keyword_hits text (AppConfig.include_keywords config) <> 0)
  /\ ("noise_signal" ∈ tags
      <-> _keyword_hits text (AppConfig.exclude_keywords config) <> 0)
  /\ ("pain_point" ∈ tags <-> _contains_any text PAIN_SIGNALS = true)
  /\ ("solution_possible" ∈ tags <-> _contains_any text SOLUTION_SIGNALS = true)
  /\ ("monetization" ∈ tags <-> _contains_any text MONETIZATION_SIGNALS = true)
  /\ ("question" ∈ tags <-> PyStr.has_char "?" (RedditPost.title post) = true)
  /\ ("low_signal" ∈ tags <-> tags = ["low_signal"]).
Proof.
  cbv zeta. rewrite score_post_tags.
  match goal with
  | |- context [tags_of ?b1 ?b2 ?b3 ?b4 ?b5 ?b6] =>
      destruct (tags_of_spec b1 b2 b3 b4 b5 b6) as (H1 & H2 & H3 & H4 & H5 & H6 & H7 & H8)
  end.
  split; [apply sorted_set_increasing|].
  split; [intros tag Htag; apply bool_decide_eq_true in H8; now apply H8|].
  split; [rewrite (bool_decide_is _ _ H1), negb_true_iff; apply Z.eqb_neq|].
  split; [rewrite (bool_decide_is _ _ H2), negb_true_iff; apply Z.eqb_neq|].
  split; [exact (bool_decide_is _ _ H3)|].
  split; [exact (bool_decide_is _ _ H4)|].
  split; [exact (bool_decide_is _ _ H5)|].
  split; [exact (bool_decide_is _ _ H6)|].
  rewrite (bool_decide_is _ _ H7). apply bool_decide_eq_true.
Qed.
End ScorePostFacts.

(** ** extractor.py: the length of the summary *)

Lemma take_length n s : (String.length (PyStr.take n s) <= n)%nat.
Proof.
  revert s. induction n as [|n IH]; intros [|c s]; simpl; try lia.
  specialize (IH s). lia.
Qed.

Lemma take_truthy n s : PyStr.truthy s = true -> PyStr.truthy (PyStr.take (S n) s) = true.
Proof. now destruct s. Qed.

Lemma first_pain_sentence_inv sentences s :
  first_pain_sentence sentences = Some s ->
  exists sentence,
    sentence ∈ sentences /\ has_pain_signal sentence = true
    /\ s = PyStr.take 220 (PyStr.strip sentence).
Proof.
  induction sentences as [|sentence rest IH]; [discriminate|].
  cbn [first_pain_sentence]. unfold has_pain_signal.
  destruct (PyStr.truthy (PyStr.strip sentence)) eqn:Et; cbn [negb andb].
  - destruct (_contains_any (PyStr.lower (PyStr.strip sentence)) PAIN_SIGNALS) eqn:Ep.
    + intros [= <-]. exists sentence. rewrite Et, Ep. repeat split. left.
    + intros E. destruct (IH E) as (x & Hx & Hp & ->). exists x. split; [now right|auto].
  - intros E. destruct (IH E) as (x & Hx & Hp & ->). exists x. split; [now right|auto].
Qed.

(** X2. The summary has at most 220 characters, and it is empty only for
    a post whose title is empty. *)
Theorem derive_problem_summary_bounded post :
  (String.length (derive_problem_summary post) <= 220)%nat
  /\ (derive_problem_summary post = EmptyString -> RedditPost.title post = EmptyString).
Proof.
  assert (Htitle : PyStr.take 220 (RedditPost.title post) = EmptyString ->
                   RedditPost.title post = EmptyString).
  { destruct (RedditPost.title post); [reflexivity | discriminate]. }
  unfold derive_problem_summary.
  destruct (PyStr.truthy (PyStr.strip (RedditPost.selftext post))); cbn [negb].
  2: { split; [apply take_length | exact Htitle]. }
  destruct (first_pain_sentence _) as [s|] eqn:E.
  - apply first_pain_sentence_inv in E as (sentence & _ & Hp & ->).
    split; [apply take_length|].
    unfold has_pain_signal in Hp. apply andb_true_iff in Hp as [Ht _].
    intros E. apply (take_truthy 219) in Ht. rewrite E in Ht. discriminate.
  - destruct (PyStr.re_split sentence_sep _) as [|s0 rest].
    + cbn [PyStr.truthy]. split; [apply take_length | exact Htitle].
    + destruct (PyStr.truthy (PyStr.strip s0)) eqn:Et.
      * split; [apply take_length|].
        intros E'. apply (take_truthy 219) in Et. rewrite E' in Et. discriminate.
      * split; [apply take_length | exact Htitle].
Qed.

(** ** extractor.py: [summarize_themes] *)

Lemma count_of_incr key k counts :
  count_of k (counter_incr key counts)
  = if String.eqb key k then Some (default 0 (count_of k counts) + 1)
    else count_of k counts.
Proof.
  unfold count_of. induction counts as [|[k0 n] rest IH]; simpl.
  - rewrite (String.eqb_sym key k). destruct (String.eqb k key); reflexivity.
  - destruct (String.eqb_spec k0 key) as [->|Hne]; simpl.
    + destruct (String.eqb key k); reflexivity.
    + destruct (String.eqb_spec k0 k) as [->|Hk]; simpl.
      * apply String.eqb_neq in Hne. rewrite String.eqb_sym, Hne. reflexivity.
      * exact IH.
Qed.

Lemma counter_incr_keys key k counts :
  k ∈ map fst (counter_incr key counts) <-> k = key \/ k ∈ map fst counts.
Proof.
  induction counts as [|[k0 n] rest IH]; simpl.
  - rewrite list_elem_of_singleton, elem_of_nil. tauto.
  - destruct (String.eqb_spec k0 key) as [->|Hne]; simpl.
    + rewrite !elem_of_cons. tauto.
    + rewrite !elem_of_cons, IH. tauto.
Qed.

Lemma counter_incr_NoDup key counts :
  NoDup (map fst counts) -> NoDup (map fst (counter_incr key counts)).
Proof.
  induction counts as [|[k0 n] rest IH]; simpl; intros Hnd.
  - repeat constructor. apply not_elem_of_nil.
  - apply NoDup_cons in Hnd as [Hk0 Hnd].
    destruct (String.eqb_spec k0 key) as [->|Hne]; simpl.
    + now constructor.
    + constructor; [|now apply IH].
      rewrite counter_incr_keys. intros [->|Hin]; [now apply Hne | now apply Hk0].
Qed.

Lemma count_of_elem_of k n counts :
  NoDup (map fst counts) -> (k, n) ∈ counts <-> count_of k counts = Some n.
Proof.
  unfold count_of. induction counts as [|[k0 n0] rest IH]; simpl; intros Hnd.
  - rewrite elem_of_nil. split; [tauto | discriminate].
  - apply NoDup_cons in Hnd as [Hk0 Hnd]. rewrite elem_of_cons.
    destruct (String.eqb_spec k0 k) as [->|Hne]; simpl.
    + split.
      * intros [[= ->]|Hin]; [reflexivity|].
        exfalso. apply Hk0. apply list_elem_of_fmap. now exists (k, n).
      * intros [= ->]. now left.
    + rewrite <- (IH Hnd). split; [|tauto].
      intros [[= -> ->]|Hin]; [now destruct Hne | assumption].
Qed.

Lemma occurrences_cons x y ys :
  occurrences x (y :: ys) = (if String.eqb y x then 1 else 0) + occurrences x ys.
Proof.
  unfold occurrences. rewrite filter_cons.
  destruct (String.eqb_spec y x) as [->|Hne].
  - rewrite decide_True by reflexivity. simpl length. lia.
  - rewrite decide_False by assumption. lia.
Qed.

Lemma occurrences_pos x xs : x ∈ xs <-> 0 < occurrences x xs.
Proof.
  induction xs as [|y ys IH].
  - rewrite elem_of_nil. unfold occurrences. simpl. lia.
  - rewrite occurrences_cons, elem_of_cons, IH.
    assert (0 <= occurrences x ys) by (unfold occurrences; lia).
    destruct (String.eqb_spec y x) as [->|Hne]; split; try lia; auto.
    intros [->|?]; [now destruct Hne | lia].
Qed.

Lemma counts_of_tags tags counts :
  NoDup (map fst counts) ->
  let counts' := fold_left (fun counts tag => counter_incr tag counts) tags counts in
  NoDup (map fst counts')
  /\ forall k,
       count_of k counts'
       = if occurrences k tags =? 0 then count_of k counts
         else Some (default 0 (count_of k counts) + occurrences k tags).
Proof.
  revert counts. induction tags as [|tag tags IH]; intros counts Hnd; simpl.
  - split; [assumption|]. intros k. reflexivity.
  - destruct (IH (counter_incr tag counts) (counter_incr_NoDup _ _ Hnd)) as [Hnd' Hc].
    split; [assumption|]. intros k. rewrite Hc, occurrences_cons, count_of_incr.
    assert (0 <= occurrences k tags) by (unfold occurrences; lia).
    destruct (String.eqb tag k); simpl;
      destruct (Z.eqb_spec (occurrences k tags) 0) as [E|E];
      try destruct (Z.eqb_spec (1 + occurrences k tags) 0) as [E'|E'];
      try destruct (Z.eqb_spec (0 + occurrences k tags) 0) as [E''|E''];
      try lia; try reflexivity; f_equal; lia.
Qed.

Lemma fold_left_concat {A B C : Type} (f : A -> B -> A) (g : C -> list B) xs a :
  fold_left (fun a x => fold_left f (g x) a) xs a = fold_left f (concat (map g xs)) a.
Proof.
  revert a. induction xs as [|x xs IH]; intros a; simpl; [reflexivity|].
  now rewrite fold_left_app, IH.
Qed.

(** X3. [summarize_themes] lists every tag of the ideas once, with the
    number of its occurrences, by decreasing count. *)
Theorem summarize_themes_counts ideas :
  let themes := summarize_themes ideas in
  NoDup (map fst themes)
  /\ (forall tag n,
        (tag, n) ∈ themes
        <-> tag ∈ all_tags ideas /\ n = occurrences tag (all_tags ideas))
  /\ StronglySorted (fun a b => snd b <= snd a) themes.
Proof.
  cbv zeta. unfold summarize_themes, most_common.
  rewrite (fold_left_concat (fun counts tag => counter_incr tag counts)
             IdeaCandidate.reason_tags).
  fold (all_tags ideas).
  destruct (counts_of_tags (all_tags ideas) [] (NoDup_nil_2)) as [Hnd Hc].
  split; [|split].
  - now rewrite sort_by_perm.
  - intros tag n. rewrite sort_by_elem_of, (count_of_elem_of _ _ _ Hnd), Hc.
    rewrite occurrences_pos.
    destruct (Z.eqb_spec (occurrences tag (all_tags ideas)) 0) as [E|E]; simpl.
    + split; [discriminate | lia].
    + assert (0 <= occurrences tag (all_tags ideas)) by (unfold occurrences; lia).
      split; [intros [= <-]; lia | intros [_ ->]; f_equal; lia].
  - eapply StronglySorted_mono; [|apply sort_by_sorted].
    + intros a b Hab. simpl in Hab. apply Z.ltb_ge in Hab. exact Hab.
    + intros a b Hab. apply Z.ltb_lt in Hab. apply Z.ltb_ge. lia.
    + intros a b c Hab Hbc. apply Z.ltb_ge in Hab, Hbc. apply Z.ltb_ge. lia.
Qed.

(** ** llm_assessor.py: what a reply is turned into *)

Lemma clamp_float_bounds parsed minimum maximum fallback :
  PyFloat.is_number parsed -> PyFloat.is_number minimum -> PyFloat.is_number maximum ->
  PyFloat.le minimum maximum = true ->
  let r := _clamp_float (Some parsed) minimum maximum fallback in
  PyFloat.le minimum r = true /\ PyFloat.le r maximum = true.
Proof.
  intros Hp Hlo Hhi Hle. cbv zeta. unfold _clamp_float, PyFloat.max, PyFloat.min.
  destruct (PyFloat.lt maximum parsed) eqn:E1.
  - destruct (PyFloat.lt maximum minimum) eqn:E2.
    + rewrite le_not_lt, E2 in Hle by assumption. discriminate.
    + split; [assumption | now apply le_refl_number].
  - destruct (PyFloat.lt parsed minimum) eqn:E2.
    + split; [now apply le_refl_number | assumption].
    + split; rewrite le_not_lt by assumption; [rewrite E2 | rewrite E1]; reflexivity.
Qed.

(** X4. For a number that parses, [_clamp_float] returns a value between
    the bounds, and the number itself when it lies between them. *)
Theorem clamp_float_in_range parsed minimum maximum fallback :
  PyFloat.is_number parsed -> PyFloat.is_number minimum -> PyFloat.is_number maximum ->
  PyFloat.le minimum maximum = true ->
  let r := _clamp_float (Some parsed) minimum maximum fallback in
  PyFloat.le minimum r = true /\ PyFloat.le r maximum = true
  /\ (PyFloat.le minimum parsed = true -> PyFloat.le parsed maximum = true -> r = parsed).
Proof.
  intros Hp Hlo Hhi Hle.
  destruct (clamp_float_bounds parsed minimum maximum fallback Hp Hlo Hhi Hle) as [Hmin Hmax].
  cbv zeta. split; [exact Hmin|]. split; [exact Hmax|].
  intros Habove Hbelow. rewrite le_not_lt in Habove, Hbelow by assumption.
  unfold _clamp_float, PyFloat.max, PyFloat.min.
  destruct (PyFloat.lt maximum parsed); [discriminate|].
  destruct (PyFloat.lt parsed minimum); [discriminate|]. reflexivity.
Qed.

Lemma clamp_float_in_range_witness :
  _clamp_float (Some 182.5%float) 0 100 50 = 100%float
  /\ PyFloat.le 0 (_clamp_float (Some 182.5%float) 0 100 50) = true.
Proof.
  destruct (clamp_float_in_range 182.5 0 100 50 eq_refl eq_refl eq_refl eq_refl)
    as (Hlo & _ & _).
  split; [reflexivity | exact Hlo].
Defined.

(** A NaN is neither clamped nor replaced by the fallback. *)
Lemma clamp_float_number parsed minimum maximum fallback :
  PyFloat.is_number (_clamp_float (Some parsed) minimum maximum fallback) ->
  PyFloat.is_number minimum -> PyFloat.is_number maximum ->
  PyFloat.is_number parsed.
Proof.
  unfold _clamp_float, PyFloat.max, PyFloat.min. intros Hr Hlo Hhi.
  destruct (PrimFloat.is_nan parsed) eqn:En; [|exact En].
  destruct (PyFloat.lt maximum parsed) eqn:E1.
  { apply lt_is_number in E1 as [_ E1]. rewrite E1 in En. discriminate. }
  destruct (PyFloat.lt parsed minimum) eqn:E2.
  { apply lt_is_number in E2 as [E2 _]. rewrite E2 in En. discriminate. }
  rewrite Hr in En. discriminate.
Qed.

Lemma insert_sorted_length x xs :
  (length (PyStr.insert_sorted x xs) <= S (length xs))%nat.
Proof.
  induction xs as [|y ys IH]; simpl; [lia|].
  destruct (String.compare x y); simpl; lia.
Qed.

Lemma sorted_set_length xs : (length (PyStr.sorted_set xs) <= length xs)%nat.
Proof.
  unfold PyStr.sorted_set. induction xs as [|x xs IH]; simpl; [lia|].
  pose proof (insert_sorted_length x (fold_right PyStr.insert_sorted [] xs)). lia.
Qed.

Lemma normalize_loop_length items : (length (normalize_loop items) <= length items)%nat.
Proof.
  induction items as [|item rest IH]; cbn [normalize_loop length]; [lia|].
  destruct (PyStr.truthy _); cbn [length]; lia.
Qed.

Lemma keep_chars_has_char cls c s :
  PyStr.has_char c (keep_chars cls s) = true -> cls c = true.
Proof.
  induction s as [|d s IH]; simpl; [discriminate|].
  destruct (cls d) eqn:E; simpl; [|assumption].
  intros Hc. apply orb_true_iff in Hc as [Hc|Hc]; [|auto].
  apply Ascii.eqb_eq in Hc. now subst.
Qed.

Lemma take_has_char n c s :
  PyStr.has_char c (PyStr.take n s) = true -> PyStr.has_char c s = true.
Proof.
  revert s. induction n as [|n IH]; intros [|d s]; simpl; try discriminate.
  intros Hc. apply orb_true_iff in Hc as [Hc|Hc]; apply orb_true_iff; auto.
Qed.

Lemma normalize_loop_elem_of tag items :
  tag ∈ normalize_loop items ->
  exists body,
    tag = String.append "llm_" body
    /\ (1 <= String.length body <= 24)%nat
    /\ forall c, PyStr.has_char c body = true -> tag_char c = true.
Proof.
  induction items as [|item rest IH]; cbn [normalize_loop]; [intros Hin; inversion Hin|].
  destruct (PyStr.truthy _) eqn:Et; [|assumption].
  intros Hin. apply elem_of_cons in Hin as [->|Hin]; [|auto].
  eexists. split; [reflexivity|]. split.
  - split; [|apply take_length].
    destruct (keep_chars _ _); [discriminate Et|]. cbn [PyStr.take String.length]. lia.
  - intros c Hc. apply take_has_char in Hc. now apply keep_chars_has_char in Hc.
Qed.

(** X5. [_normalize_reason_tags] returns at most three tags, in strictly
    increasing order; each is [llm_] followed by one to 24 characters
    among the lower-case letters, the digits and the underscore. A value
    that is not a list gives no tag. *)
Theorem normalize_reason_tags_shape value :
  let tags := _normalize_reason_tags value in
  (length tags <= 3)%nat /\ increasing tags
  /\ (forall tag, tag ∈ tags ->
        exists body,
          tag = String.append "llm_" body
          /\ (1 <= String.length body <= 24)%nat
          /\ forall c, PyStr.has_char c body = true -> tag_char c = true)
  /\ (value = None -> tags = []).
Proof.
  cbv zeta. destruct value as [items|]; simpl.
  2: { split; [lia|]. split; [constructor|]. split; [|reflexivity].
       intros tag Hin. inversion Hin. }
  split; [|split; [|split; [|discriminate]]].
  - pose proof (sorted_set_length (normalize_loop (firstn 3 items))).
    pose proof (normalize_loop_length (firstn 3 items)).
    pose proof (firstn_le_length 3 items).
    assert (length (firstn 3 items) <= 3)%nat by (rewrite length_firstn; lia). lia.
  - apply sorted_set_increasing.
  - intros tag Hin. apply (proj1 (sorted_set_elem_of _ _)) in Hin.
    now apply normalize_loop_elem_of in Hin.
Qed.

Section AssessFacts.
Context {N : Type} `{GeminiEndpoint N}.

Lemma gemini_assess_inv (self self' : GeminiAssessor.t N) post idea assessment :
  gemini_assess self post idea = (self', Return (Some assessment)) ->
  exists parsed,
    assessment
    = GeminiAssessment.mk
        (_clamp_float (ParsedReply.profit_score parsed) 0.0 100.0 50.0)
        (_clamp_float (ParsedReply.confidence parsed) 0.0 1.0 0.5)
        (PyStr.take 240 (PyStr.strip (ParsedReply.summary parsed)))
        (PyStr.take 220 (PyStr.strip (ParsedReply.monetization_hint parsed)))
        (_normalize_reason_tags (ParsedReply.reason_tags parsed)).
Proof.
  unfold gemini_assess.
  destruct (_generate_content self post idea) as [self1 [[parsed|]|e]]; try discriminate.
  intros E. exists parsed. congruence.
Qed.

(** X6. An assessment that [GeminiAssessor.assess] returns holds a
    summary of at most 240 characters, a hint of at most 220 and at most
    three tags; its profit score, when it is a number, lies between 0 and
    100, and its confidence, when it is a number, between 0 and 1. *)
Theorem assess_result_in_range (self self' : GeminiAssessor.t N) post idea assessment :
  gemini_assess self post idea = (self', Return (Some assessment)) ->
  (String.length (GeminiAssessment.summary assessment) <= 240)%nat
  /\ (String.length (GeminiAssessment.monetization_hint assessment) <= 220)%nat
  /\ (length (GeminiAssessment.reason_tags assessment) <= 3)%nat
  /\ (PyFloat.is_number (GeminiAssessment.profit_score assessment) ->
      PyFloat.le 0 (GeminiAssessment.profit_score assessment) = true
      /\ PyFloat.le (GeminiAssessment.profit_score assessment) 100 = true)
  /\ (PyFloat.is_number (GeminiAssessment.confidence assessment) ->
      PyFloat.le 0 (GeminiAssessment.confidence assessment) = true
      /\ PyFloat.le (GeminiAssessment.confidence assessment) 1 = true).
Proof.
  intros E. apply gemini_assess_inv in E as (parsed & ->).
  unfold GeminiAssessment.summary, GeminiAssessment.monetization_hint,
    GeminiAssessment.reason_tags, GeminiAssessment.profit_score,
    GeminiAssessment.confidence.
  split; [apply take_length|]. split; [apply take_length|].
  split.
  { destruct (ParsedReply.reason_tags parsed) as [items|]; simpl; [|lia].
    pose proof (sorted_set_length (normalize_loop (firstn 3 items))).
    pose proof (normalize_loop_length (firstn 3 items)).
    assert (length (firstn 3 items) <= 3)%nat by (rewrite length_firstn; lia). lia. }
  split.
  - destruct (ParsedReply.profit_score parsed) as [p|]; [|intros _; split; reflexivity].
    intros Hn.
    assert (Hp : PyFloat.is_number p)
      by (eapply clamp_float_number; [exact Hn | reflexivity | reflexivity]).
    destruct (clamp_float_bounds p 0 100 50 Hp eq_refl eq_refl eq_refl) as (? & ?).
    auto.
  - destruct (ParsedReply.confidence parsed) as [p|]; [|intros _; split; reflexivity].
    intros Hn.
    assert (Hp : PyFloat.is_number p)
      by (eapply clamp_float_number; [exact Hn | reflexivity | reflexivity]).
    destruct (clamp_float_bounds p 0 1 0.5 Hp eq_refl eq_refl eq_refl) as (? & ?).
    auto.
Qed.

Lemma generate_loop_after_failures failed remaining attempt (self self1 : GeminiAssessor.t N)
  post idea last_error last :
  after_failures failed attempt self post idea last_error = Some (self1, last) ->
  generate_loop (failed + remaining) attempt self post idea last_error
  = generate_loop remaining (attempt + Z.of_nat failed) self1 post idea last.
Proof.
  revert attempt self last_error.
  induction failed as [|failed IH]; intros attempt self last_error; simpl.
  - intros [= <- <-]. now rewrite Z.add_0_r.
  - destruct (urlopen _ _ _ _) as [n [reply|exc]]; [discriminate|].
    destruct (retried exc); [|discriminate].
    intros E. rewrite (IH _ _ _ E). f_equal. lia.
Qed.

(** X7. [_generate_content] after [failed] attempts that ended in retried
    exceptions: when all [max_retries] attempts are used up, it raises a
    [RuntimeError], from the last exception if there is one; otherwise
    the next attempt decides, a response being returned and an exception
    of another class being raised as it is. *)
Theorem generate_content_attempts (self self1 : GeminiAssessor.t N) post idea failed last :
  (failed <= Z.to_nat (GeminiAssessor.max_retries self))%nat ->
  after_failures failed 1 self post idea None = Some (self1, last) ->
  let result := _generate_content self post idea in
  (failed = Z.to_nat (GeminiAssessor.max_retries self) ->
   result
   = (self1,
      Raise match last with
            | None => Exception RuntimeError "Gemini request failed with unknown error."
            | Some e => RaisedFrom RuntimeError "Gemini request failed." e
            end))
  /\ (forall n reply,
        (failed < Z.to_nat (GeminiAssessor.max_retries self))%nat ->
        urlopen (GeminiAssessor.net self1) (GeminiAssessor.config self1) post idea
        = (n, Response reply) ->
        result = (GeminiAssessor.set_net n self1, Return reply))
  /\ (forall n exc,
        (failed < Z.to_nat (GeminiAssessor.max_retries self))%nat ->
        urlopen (GeminiAssessor.net self1) (GeminiAssessor.config self1) post idea
        = (n, Failure exc) ->
        retried exc = false ->
        result = (GeminiAssessor.set_net n self1, Raise exc)).
Proof.
  intros Hle Hfail result. subst result. unfold _generate_content.
  set (total := Z.to_nat (GeminiAssessor.max_retries self)) in *.
  assert (Hgen : generate_loop total 1 self post idea None
                 = generate_loop (total - failed) (1 + Z.of_nat failed) self1 post idea last).
  { rewrite <- (generate_loop_after_failures _ _ _ _ _ _ _ _ _ Hfail). f_equal. lia. }
  rewrite Hgen. clear Hgen.
  split; [|split].
  - intros ->. rewrite Nat.sub_diag. simpl. now destruct last.
  - intros n reply Hlt Hopen.
    destruct (total - failed)%nat as [|remaining] eqn:E; [lia|].
    simpl. now rewrite Hopen.
  - intros n exc Hlt Hopen Hexc.
    destruct (total - failed)%nat as [|remaining] eqn:E; [lia|].
    simpl. now rewrite Hopen, Hexc.
Qed.
End AssessFacts.

Lemma assess_result_in_range_witness :
  let self := GeminiAssessor.mk (test_gemini 2) 3 0%nat in
  let post := test_post "1" "Automate reporting for ops teams"
                "Manual reporting is slow and painful." 1700000000 3 20 in
  let idea := test_idea "1" "Automate reporting for ops teams" 4.0%float 1700000000 in
  exists self' assessment,
    @gemini_assess nat (steady_endpoint (Some test_reply)) self post idea
    = (self', Return (Some assessment))
    /\ GeminiAssessment.profit_score assessment = 100%float
    /\ GeminiAssessment.confidence assessment = 0%float
    /\ GeminiAssessment.reason_tags assessment = ["llm_payssignal"; "llm_real_pain"]
    /\ (String.length (GeminiAssessment.summary assessment) <= 240)%nat.
Proof.
  intros self post idea.
  destruct (@gemini_assess nat (steady_endpoint (Some test_reply)) self post idea)
    as [self' [[assessment|]|e]] eqn:E; try (vm_compute in E; discriminate E).
  exists self', assessment.
  destruct (@assess_result_in_range nat (steady_endpoint (Some test_reply))
              self self' post idea assessment E) as (Hlen & _).
  split; [reflexivity|].
  vm_compute in E. injection E as _ <-.
  repeat split; try reflexivity. exact Hlen.
Defined.

Lemma generate_content_attempts_witness :
  let self := GeminiAssessor.mk (test_gemini 2) 3 0%nat in
  let post := test_post "1" "Automate reporting for ops teams"
                "Manual reporting is slow and painful." 1700000000 3 20 in
  let idea := test_idea "1" "Automate reporting for ops teams" 4.0%float 1700000000 in
  @_generate_content nat (flaky_endpoint 2 None) self post idea
  = (GeminiAssessor.mk (test_gemini 2) 3 3%nat, Return None)
  /\ @_generate_content nat garbled_endpoint self post idea
     = (GeminiAssessor.mk (test_gemini 2) 3 1%nat,
        Raise (Exception (OtherException "UnicodeDecodeError") "invalid start byte")).
Proof.
  intros self post idea. split.
  - assert (Hle : (2 <= Z.to_nat (GeminiAssessor.max_retries self))%nat) by (simpl; lia).
    destruct (@generate_content_attempts nat (flaky_endpoint 2 None) self
                (GeminiAssessor.mk (test_gemini 2) 3 2%nat) post idea 2
                (Some (Exception TimeoutError "timed out")) Hle eq_refl)
      as (_ & Hreply & _).
    apply (Hreply 3%nat None); [simpl; lia | reflexivity].
  - assert (Hle : (0 <= Z.to_nat (GeminiAssessor.max_retries self))%nat) by lia.
    destruct (@generate_content_attempts nat garbled_endpoint self self post idea 0 None
                Hle eq_refl) as (_ & _ & Hother).
    apply (Hother 1%nat); [simpl; lia | reflexivity | reflexivity].
Defined.

(** ** llm_assessor.py: what the enrichment touches *)

Lemma build_post_by_id_lookup posts k post :
  build_post_by_id posts !! k = Some post ->
  post ∈ posts /\ RedditPost.post_id post = k.
Proof.
  unfold build_post_by_id.
  assert (Hgen : forall (m : gmap string RedditPost.t),
             fold_left (fun m post => <[RedditPost.post_id post := post]> m) posts m !! k
             = Some post ->
             (post ∈ posts /\ RedditPost.post_id post = k) \/ m !! k = Some post).
  { induction posts as [|p rest IH]; intros m; simpl; [auto|].
    intros E. apply IH in E as [[Hin Hk]|E]; [left; split; [now right | assumption]|].
    destruct (decide (RedditPost.post_id p = k)) as [Hk|Hk].
    - subst k. rewrite lookup_insert_eq in E. injection E as ->. left. split; [left|reflexivity].
    - rewrite lookup_insert_ne in E by assumption. now right. }
  intros E. apply Hgen in E as [E|E]; [assumption|]. rewrite lookup_empty in E. discriminate.
Qed.

Lemma select_targets_length ideas g :
  (length (select_targets ideas g) <= Z.to_nat (Z.max (GeminiConfig.max_candidates g) 1))%nat
  /\ (length (select_targets ideas g) <= length ideas)%nat.
Proof.
  unfold select_targets, sort_desc. rewrite length_take, sort_by_length, length_seq. lia.
Qed.

Lemma merge_assessment_same_source idea assessment :
  same_source idea (merge_assessment idea assessment).
Proof.
  unfold merge_assessment, same_source.
  destruct (PyStr.truthy (GeminiAssessment.summary assessment)),
    (PyStr.truthy (GeminiAssessment.monetization_hint assessment));
    repeat split; reflexivity.
Qed.

Lemma same_source_refl a : same_source a a.
Proof. repeat split; reflexivity. Qed.

Lemma same_source_trans a b c : same_source a b -> same_source b c -> same_source a c.
Proof. unfold same_source. intuition congruence. Qed.

Section EnrichFrame.
Context {A : Type} `{Assessor A}.

(** The calls of the loop: at most one for each target, each for an idea
    as the store held it before the loop and for the post of its id. *)
Lemma enrich_loop_calls post_by_id targets assessor heap calls assessor' heap' calls' result :
  NoDup targets ->
  enrich_loop post_by_id targets assessor heap calls = (assessor', heap', calls', result) ->
  exists new,
    calls' = calls ++ new /\ (length new <= length targets)%nat
    /\ forall post idea,
         (post, idea) ∈ new ->
         exists r,
           r ∈ targets /\ heap !! r = Some idea
           /\ post_by_id !! IdeaCandidate.post_id idea = Some post.
Proof.
  revert assessor heap calls.
  induction targets as [|t targets IH]; intros assessor heap calls Hnd; simpl.
  - intros [= <- <- <- <-]. exists []. rewrite app_nil_r. split; [reflexivity|].
    split; [simpl; lia|]. intros post idea Hin. inversion Hin.
  - apply NoDup_cons in Hnd as [Ht Hnd].
    assert (Hskip :
        enrich_loop post_by_id targets assessor heap calls = (assessor', heap', calls', result) ->
        exists new,
          calls' = calls ++ new /\ (length new <= S (length targets))%nat
          /\ forall post idea,
               (post, idea) ∈ new ->
               exists r,
                 r ∈ t :: targets /\ heap !! r = Some idea
                 /\ post_by_id !! IdeaCandidate.post_id idea = Some post).
    { intros E. destruct (IH _ _ _ Hnd E) as (new & -> & Hlen & Hnew).
      exists new. split; [reflexivity|]. split; [lia|].
      intros p i Hin. destruct (Hnew _ _ Hin) as (r & Hr & Hi & Hp).
      exists r. split; [now right | auto]. }
    destruct (heap !! t) as [idea|] eqn:Eidea; [|assumption].
    destruct (post_by_id !! IdeaCandidate.post_id idea) as [post|] eqn:Epost; [|assumption].
    destruct (assess assessor post idea) as [assessor1 [[assessment|]|e]].
    + intros E. destruct (IH _ _ _ Hnd E) as (new & -> & Hlen & Hnew).
      exists ((post, idea) :: new). rewrite <- app_assoc. split; [reflexivity|].
      split; [simpl; lia|]. intros p i Hin.
      apply elem_of_cons in Hin as [[= -> ->]|Hin]; [exists t; split; [left|auto]|].
      destruct (Hnew _ _ Hin) as (r & Hr & Hi & Hp).
      exists r. split; [now right|]. split; [|assumption].
      rewrite list_lookup_insert_ne in Hi; [assumption|]. intros ->. contradiction.
    + intros E. destruct (IH _ _ _ Hnd E) as (new & -> & Hlen & Hnew).
      exists ((post, idea) :: new). rewrite <- app_assoc. split; [reflexivity|].
      split; [simpl; lia|]. intros p i Hin.
      apply elem_of_cons in Hin as [[= -> ->]|Hin]; [exists t; split; [left|auto]|].
      destruct (Hnew _ _ Hin) as (r & Hr & Hi & Hp).
      exists r. split; [now right | auto].
    + intros [= <- <- <- <-]. exists [(post, idea)]. split; [reflexivity|].
      split; [simpl; lia|]. intros p i Hin.
      apply list_elem_of_singleton in Hin as [= -> ->]. exists t. split; [left | auto].
Qed.

(** Whatever the loop does, every object keeps the fields that came from
    its post, and the store keeps its size. *)
Lemma enrich_loop_same_source post_by_id targets assessor heap calls assessor' heap' calls'
  result :
  enrich_loop post_by_id targets assessor heap calls = (assessor', heap', calls', result) ->
  forall r before, heap !! r = Some before ->
    exists after, heap' !! r = Some after /\ same_source before after.
Proof.
  revert assessor heap calls.
  induction targets as [|t targets IH]; intros assessor heap calls; simpl.
  - intros [= <- <- <- <-] r before Hr. exists before. split; [assumption|apply same_source_refl].
  - destruct (heap !! t) as [idea|] eqn:Eidea; [|apply IH].
    destruct (post_by_id !! IdeaCandidate.post_id idea) as [post|]; [|apply IH].
    destruct (assess assessor post idea) as [assessor1 [[assessment|]|e]].
    + intros E r before Hr.
      destruct (decide (r = t)) as [->|Hrt].
      * assert (before = idea) by congruence. subst before.
        destruct (IH _ _ _ E t (merge_assessment idea assessment)) as (after & Ha & Hs).
        { apply list_lookup_insert_eq. eapply lookup_lt_Some. eassumption. }
        exists after. split; [assumption|].
        eapply same_source_trans; [apply merge_assessment_same_source | exact Hs].
      * apply (IH _ _ _ E). rewrite list_lookup_insert_ne by congruence. assumption.
    + apply IH.
    + intros [= <- <- <- <-] r before Hr. exists before. split; [assumption|apply same_source_refl].
Qed.

(** X8. [enrich_ideas_with_gemini] calls [assess] at most once for each
    idea and at most [max(max_candidates, 1)] times, each time with an
    idea of the list and the post of its id; and it calls nothing and
    returns the list as it is when enrichment is not configured or
    switched off. *)
Theorem enrichment_calls_bounded ideas posts config assessor :
  let result := enrich_ideas_with_gemini ideas posts config assessor in
  (length (er_calls result) <= length ideas)%nat
  /\ (forall g, AppConfig.gemini config = Some g ->
         (length (er_calls result)
          <= Z.to_nat (Z.max (GeminiConfig.max_candidates g) 1))%nat)
  /\ (forall post idea,
        (post, idea) ∈ er_calls result ->
        idea ∈ ideas /\ post ∈ posts
        /\ RedditPost.post_id post = IdeaCandidate.post_id idea)
  /\ (AppConfig.gemini config = None
      \/ (exists g, AppConfig.gemini config = Some g /\ GeminiConfig.enabled g = false) ->
      result = mk_enrich_result assessor ideas [] (Return ideas)).
Proof.
  cbv zeta.
  assert (Hnone : forall result,
             result = mk_enrich_result assessor ideas [] (Return ideas) ->
             (length (er_calls result) <= length ideas)%nat
             /\ (forall g, AppConfig.gemini config = Some g ->
                    (length (er_calls result)
                     <= Z.to_nat (Z.max (GeminiConfig.max_candidates g) 1))%nat)
             /\ (forall post idea,
                   (post, idea) ∈ er_calls result ->
                   idea ∈ ideas /\ post ∈ posts
                   /\ RedditPost.post_id post = IdeaCandidate.post_id idea)).
  { intros result ->. simpl. split; [lia|]. split; [intros; lia|].
    intros post idea Hin. inversion Hin. }
  assert (Hsame : enrich_ideas_with_gemini ideas posts config assessor
                  = mk_enrich_result assessor ideas [] (Return ideas) ->
                  (length (er_calls (enrich_ideas_with_gemini ideas posts config assessor))
                   <= length ideas)%nat
                  /\ (forall g, AppConfig.gemini config = Some g ->
                         (length (er_calls (enrich_ideas_with_gemini ideas posts config
                                              assessor))
                          <= Z.to_nat (Z.max (GeminiConfig.max_candidates g) 1))%nat)
                  /\ (forall post idea,
                        (post, idea) ∈ er_calls (enrich_ideas_with_gemini ideas posts config
                                                   assessor) ->
                        idea ∈ ideas /\ post ∈ posts
                        /\ RedditPost.post_id post = IdeaCandidate.post_id idea)
                  /\ (AppConfig.gemini config = None
                      \/ (exists g, AppConfig.gemini config = Some g
                                    /\ GeminiConfig.enabled g = false) ->
                      enrich_ideas_with_gemini ideas posts config assessor
                      = mk_enrich_result assessor ideas [] (Return ideas))).
  { intros E. rewrite E. destruct (Hnone _ eq_refl) as (H1 & H2 & H3).
    split; [exact H1|]. split; [exact H2|]. split; [exact H3|]. intros _. reflexivity. }
  destruct ideas as [|idea0 ideas'] eqn:Eideas; [apply Hsame; reflexivity|].
  rewrite <- Eideas in *.
  assert (Hne : ideas <> []) by (rewrite Eideas; discriminate).
  destruct (AppConfig.gemini config) as [g|] eqn:Eg.
  2: { apply Hsame. unfold enrich_ideas_with_gemini. now rewrite Eg, Eideas. }
  destruct (GeminiConfig.enabled g) eqn:Een.
  2: { apply Hsame. unfold enrich_ideas_with_gemini. now rewrite Eg, Een, Eideas. }
  clear Hsame Hnone.
  rewrite (enrich_ideas_unfold _ _ _ _ _ Hne Eg Een).
  destruct (enrich_loop _ _ _ _ _) as [[[assessor' heap] calls] result] eqn:Eloop.
  cbn [er_calls].
  destruct (enrich_loop_calls _ _ _ _ _ _ _ _ _ (select_targets_NoDup ideas g) Eloop)
    as (new & -> & Hlen & Hnew).
  destruct (select_targets_length ideas g) as [Hcap Hall].
  rewrite app_nil_l.
  split; [lia|]. split; [intros g' [= <-]; lia|]. split.
  - intros post idea Hin. destruct (Hnew _ _ Hin) as (r & _ & Hr & Hp).
    apply build_post_by_id_lookup in Hp as [Hp Hid].
    split; [apply list_elem_of_lookup; eauto | auto].
  - intros [Hg|(g' & Hg & Hoff)]; [discriminate|]. congruence.
Qed.

(** X9. [enrich_ideas_with_gemini] keeps the number of ideas and, in
    every idea, the fields that came from the post; the ideas that are not
    among the [max(max_candidates, 1)] selected ones are left as they
    were. *)
Theorem enrichment_touches_selected_only ideas posts config assessor :
  let result := enrich_ideas_with_gemini ideas posts config assessor in
  length (er_ideas result) = length ideas
  /\ (forall r before,
        ideas !! r = Some before ->
        exists after, er_ideas result !! r = Some after /\ same_source before after)
  /\ (forall g,
        AppConfig.gemini config = Some g ->
        (length (select_targets ideas g)
         <= Z.to_nat (Z.max (GeminiConfig.max_candidates g) 1))%nat
        /\ forall r, r ∉ select_targets ideas g -> er_ideas result !! r = ideas !! r).
Proof.
  cbv zeta.
  assert (Hnone : forall result,
             result = mk_enrich_result assessor ideas [] (Return ideas) ->
             length (er_ideas result) = length ideas
             /\ (forall r before,
                   ideas !! r = Some before ->
                   exists after, er_ideas result !! r = Some after /\ same_source before after)
             /\ (forall g,
                   AppConfig.gemini config = Some g ->
                   (length (select_targets ideas g)
                    <= Z.to_nat (Z.max (GeminiConfig.max_candidates g) 1))%nat
                   /\ forall r, r ∉ select_targets ideas g ->
                                er_ideas result !! r = ideas !! r)).
  { intros result ->. simpl. split; [reflexivity|]. split.
    - intros r before Hr. exists before. split; [assumption | apply same_source_refl].
    - intros g _. split; [apply select_targets_length | reflexivity]. }
  destruct ideas as [|idea0 ideas'] eqn:Eideas; [apply Hnone; reflexivity|].
  rewrite <- Eideas in *.
  assert (Hne : ideas <> []) by (rewrite Eideas; discriminate).
  destruct (AppConfig.gemini config) as [g|] eqn:Eg.
  2: { apply Hnone. unfold enrich_ideas_with_gemini. now rewrite Eg, Eideas. }
  destruct (GeminiConfig.enabled g) eqn:Een.
  2: { apply Hnone. unfold enrich_ideas_with_gemini. now rewrite Eg, Een, Eideas. }
  rewrite (enrich_ideas_unfold _ _ _ _ _ Hne Eg Een).
  destruct (enrich_loop _ _ _ _ _) as [[[assessor' heap] calls] result] eqn:Eloop.
  cbn [er_ideas].
  destruct (enrich_loop_frame _ _ _ _ _ _ _ _ _ Eloop) as [Hlen Hframe].
  split; [assumption|]. split.
  - apply (enrich_loop_same_source _ _ _ _ _ _ _ _ _ Eloop).
  - intros g' [= <-]. split; [apply select_targets_length | assumption].
Qed.

Lemma omap_lookup_seq {B : Type} (pre l : list B) :
  omap (fun r => (pre ++ l) !! r) (seq (length pre) (length l)) = l.
Proof.
  revert pre. induction l as [|x l IH]; intros pre; [reflexivity|].
  simpl. rewrite list_lookup_middle by reflexivity. f_equal.
  specialize (IH (pre ++ [x])). rewrite length_app, <- app_assoc in IH. simpl in IH.
  rewrite Nat.add_1_r in IH. exact IH.
Qed.

Lemma omap_lookup_sorted (heap : store) rs :
  Forall (fun r => (r < length heap)%nat) rs ->
  StronglySorted (not_below (ref_score heap)) rs ->
  StronglySorted (not_below IdeaCandidate.relevance_score) (omap (fun r => heap !! r) rs).
Proof.
  intros Hvalid Hs. induction Hs as [|r rs Hs IH Hr]; [constructor|].
  apply Forall_cons in Hvalid as [Hlt Hvalid]. simpl.
  destruct (lookup_lt_is_Some_2 heap r Hlt) as [a Ha]. rewrite Ha.
  constructor; [now apply IH|].
  apply Forall_forall. intros b Hb. apply list_elem_of_omap in Hb as (q & Hq & Hb).
  rewrite Forall_forall in Hr. specialize (Hr q Hq).
  unfold not_below, ref_score in Hr. now rewrite Ha, Hb in Hr.
Qed.

(** X10. When enrichment is on, the list that [enrich_ideas_with_gemini]
    returns holds the ideas of the caller's list as the call has left
    them, each once, by decreasing relevance score. *)
Theorem enrichment_returns_ideas_best_first ideas posts config g assessor returned :
  ideas <> [] -> AppConfig.gemini config = Some g -> GeminiConfig.enabled g = true ->
  let result := enrich_ideas_with_gemini ideas posts config assessor in
  er_result result = Return returned ->
  returned ≡ₚ er_ideas result
  /\ (numbers IdeaCandidate.relevance_score (er_ideas result) ->
      StronglySorted (not_below IdeaCandidate.relevance_score) returned).
Proof.
  intros Hne Hg Hen. cbv zeta. rewrite (enrich_ideas_unfold _ _ _ _ _ Hne Hg Hen).
  destruct (enrich_loop _ _ _ _ _) as [[[assessor' heap] calls] [[]|e]] eqn:Eloop;
    [|discriminate].
  cbn [er_result er_ideas]. intros [= <-].
  destruct (enrich_loop_frame _ _ _ _ _ _ _ _ _ Eloop) as [Hlen _].
  set (indices := sort_desc (ref_score heap)
                    (sort_desc (ref_score ideas) (seq 0 (length ideas)))).
  assert (Hperm : indices ≡ₚ seq 0 (length heap)).
  { unfold indices, sort_desc. now rewrite !sort_by_perm, Hlen. }
  split.
  - rewrite Hperm. pose proof (omap_lookup_seq [] heap) as E. simpl in E. now rewrite E.
  - intros Hnum. apply omap_lookup_sorted.
    + rewrite Hperm. apply Forall_forall. intros r Hr. apply elem_of_seq in Hr. lia.
    + apply sort_desc_sorted. unfold numbers. unfold sort_desc. rewrite sort_by_perm.
      rewrite <- Hlen. apply Forall_forall. intros r Hr. apply elem_of_seq in Hr.
      destruct (lookup_lt_is_Some_2 heap r) as [a Ha]; [lia|].
      unfold ref_score. rewrite Ha. simpl.
      unfold numbers in Hnum. rewrite Forall_forall in Hnum. apply Hnum.
      apply list_elem_of_lookup. eauto.
Qed.
End EnrichFrame.

Lemma enrichment_returns_ideas_best_first_witness :
  let config := test_config [] 168 (Some (test_gemini 2)) in
  let result := @enrich_ideas_with_gemini nat FakeGeminiAssessor llm_test_ideas
                  llm_test_posts config 0%nat in
  exists returned,
    er_result result = Return returned
    /\ map IdeaCandidate.post_id returned = ["1"; "2"; "3"]
    /\ map IdeaCandidate.relevance_score returned = [6.73%float; 6.66%float; 1.1%float]
    /\ returned ≡ₚ er_ideas result
    /\ StronglySorted (not_below IdeaCandidate.relevance_score) returned.
Proof.
  intros config result.
  destruct (er_result result) as [returned|e] eqn:E; [|vm_compute in E; discriminate E].
  exists returned.
  assert (Hne : llm_test_ideas <> []) by discriminate.
  destruct (@enrichment_returns_ideas_best_first nat FakeGeminiAssessor llm_test_ideas
              llm_test_posts config (test_gemini 2) 0%nat returned Hne eq_refl eq_refl E)
    as [Hperm Hsorted].
  split; [reflexivity|].
  split; [vm_compute in E; injection E as <-; reflexivity|].
  split; [vm_compute in E; injection E as <-; reflexivity|].
  split; [exact Hperm|]. apply Hsorted. repeat constructor.
Defined.

(** ** storage.py: upserts *)

Lemma find_app_first {A : Type} (f : A -> bool) xs ys :
  find f (xs ++ ys) = match find f xs with Some x => Some x | None => find f ys end.
Proof.
  induction xs as [|x xs IH]; simpl; [reflexivity|]. now destruct (f x).
Qed.

Section UpsertFacts.
Context {R : Type} (key : R -> string).

Lemma row_of_key_upsert k row rows :
  row_of_key key k (upsert_row key row rows)
  = if String.eqb (key row) k then Some row else row_of_key key k rows.
Proof.
  unfold row_of_key. induction rows as [|r rs IH]; simpl.
  - destruct (String.eqb (key row) k); reflexivity.
  - destruct (String.eqb_spec (key r) (key row)) as [E|E]; simpl.
    + rewrite E. destruct (String.eqb (key row) k); reflexivity.
    + destruct (String.eqb_spec (key r) k) as [Ek|Ek]; [|exact IH].
      destruct (String.eqb_spec (key row) k); [congruence | reflexivity].
Qed.

Lemma upsert_row_keys k row rows :
  k ∈ map key (upsert_row key row rows) <-> k = key row \/ k ∈ map key rows.
Proof.
  induction rows as [|r rs IH]; simpl.
  - rewrite list_elem_of_singleton, elem_of_nil. tauto.
  - destruct (String.eqb_spec (key r) (key row)) as [E|E]; simpl.
    + rewrite !elem_of_cons, E. tauto.
    + rewrite !elem_of_cons, IH. tauto.
Qed.

Lemma upsert_row_NoDup row rows :
  NoDup (map key rows) -> NoDup (map key (upsert_row key row rows)).
Proof.
  induction rows as [|r rs IH]; simpl; intros Hnd.
  - repeat constructor. apply not_elem_of_nil.
  - apply NoDup_cons in Hnd as [Hr Hnd].
    destruct (String.eqb_spec (key r) (key row)) as [E|E]; simpl.
    + constructor; [now rewrite <- E | assumption].
    + constructor; [|now apply IH].
      rewrite upsert_row_keys. intros [?|?]; [congruence | contradiction].
Qed.

Lemma upsert_row_absorb a b rows :
  key a = key b -> upsert_row key b (upsert_row key a rows) = upsert_row key b rows.
Proof.
  intros E. induction rows as [|r rs IH]; simpl.
  - rewrite E, String.eqb_refl. reflexivity.
  - destruct (String.eqb_spec (key r) (key a)) as [Ea|Ea]; simpl.
    + rewrite E, String.eqb_refl. rewrite <- E, <- Ea, String.eqb_refl. reflexivity.
    + destruct (String.eqb_spec (key r) (key b)) as [Eb|Eb]; [congruence|].
      now rewrite IH.
Qed.

Lemma upsert_row_comm a b rows :
  key a <> key b -> key a ∈ map key rows ->
  upsert_row key b (upsert_row key a rows) = upsert_row key a (upsert_row key b rows).
Proof.
  intros Hne. induction rows as [|r rs IH]; simpl; intros Hin; [inversion Hin|].
  destruct (String.eqb_spec (key r) (key a)) as [Ea|Ea],
    (String.eqb_spec (key r) (key b)) as [Eb|Eb]; simpl.
  - congruence.
  - destruct (String.eqb_spec (key a) (key b)); [congruence|].
    rewrite Ea, String.eqb_refl. reflexivity.
  - destruct (String.eqb_spec (key b) (key a)); [congruence|].
    rewrite Eb, String.eqb_refl. reflexivity.
  - destruct (String.eqb_spec (key r) (key a)); [congruence|].
    destruct (String.eqb_spec (key r) (key b)); [congruence|].
    f_equal. apply IH. apply elem_of_cons in Hin as [?|?]; [congruence | assumption].
Qed.

(** The table after the upserts of a list of rows, in order. *)
Lemma upsert_all_keys k batch rows :
  k ∈ map key (fold_left (fun rows r => upsert_row key r rows) batch rows)
  <-> k ∈ map key batch \/ k ∈ map key rows.
Proof.
  revert rows. induction batch as [|r batch IH]; intros rows; simpl.
  - rewrite elem_of_nil. tauto.
  - rewrite IH, upsert_row_keys, elem_of_cons. tauto.
Qed.

Lemma upsert_all_NoDup batch rows :
  NoDup (map key rows) ->
  NoDup (map key (fold_left (fun rows r => upsert_row key r rows) batch rows)).
Proof.
  revert rows. induction batch as [|r batch IH]; intros rows Hnd; simpl; [assumption|].
  apply IH. now apply upsert_row_NoDup.
Qed.

Lemma upsert_all_overwritten a batch rows :
  key a ∈ map key rows -> key a ∈ map key batch ->
  fold_left (fun rows r => upsert_row key r rows) batch (upsert_row key a rows)
  = fold_left (fun rows r => upsert_row key r rows) batch rows.
Proof.
  revert rows. induction batch as [|b batch IH]; intros rows Hrows Hbatch; simpl.
  - inversion Hbatch.
  - destruct (decide (key a = key b)) as [E|E].
    + now rewrite upsert_row_absorb.
    + rewrite upsert_row_comm by assumption. apply IH.
      * apply upsert_row_keys. now right.
      * simpl in Hbatch. apply elem_of_cons in Hbatch as [?|?]; [congruence | assumption].
Qed.

Lemma upsert_all_commutes a batch rows :
  key a ∈ map key rows -> key a ∉ map key batch ->
  fold_left (fun rows r => upsert_row key r rows) batch (upsert_row key a rows)
  = upsert_row key a (fold_left (fun rows r => upsert_row key r rows) batch rows).
Proof.
  revert rows. induction batch as [|b batch IH]; intros rows Hrows Hbatch; simpl.
  - reflexivity.
  - simpl in Hbatch. apply not_elem_of_cons in Hbatch as [E Hbatch].
    rewrite upsert_row_comm by assumption. apply IH; [|assumption].
    apply upsert_row_keys. now right.
Qed.

Lemma upsert_all_idempotent batch rows :
  let rows' := fold_left (fun rows r => upsert_row key r rows) batch rows in
  fold_left (fun rows r => upsert_row key r rows) batch rows' = rows'.
Proof.
  cbv zeta. revert rows. induction batch as [|a batch IH]; intros rows; simpl; [reflexivity|].
  set (rows1 := upsert_row key a rows).
  assert (Ha1 : key a ∈ map key rows1) by (apply upsert_row_keys; now left).
  assert (Ha : key a ∈ map key (fold_left (fun rows r => upsert_row key r rows) batch rows1))
    by (apply upsert_all_keys; now right).
  destruct (decide (key a ∈ map key batch)) as [Hin|Hout].
  - rewrite upsert_all_overwritten by assumption. apply IH.
  - rewrite upsert_all_commutes by assumption. rewrite IH.
    rewrite <- upsert_all_commutes by assumption.
    unfold rows1. now rewrite upsert_row_absorb.
Qed.

Context {X : Type} (encode : X -> outcome R) (key_of : X -> string).
Hypothesis encode_key : forall x row, encode x = Return row -> key row = key_of x.

Lemma executemany_inv items rows rows' :
  executemany encode key items rows = Return rows' ->
  exists batch,
    Forall2 (fun x row => encode x = Return row) items batch
    /\ rows' = fold_left (fun rows r => upsert_row key r rows) batch rows.
Proof.
  revert rows. induction items as [|x items IH]; intros rows; simpl.
  - intros [= <-]. exists []. split; [constructor | reflexivity].
  - destruct (encode x) as [row|e] eqn:E; [|discriminate].
    intros Hrest. destruct (IH _ Hrest) as (batch & Hall & ->).
    exists (row :: batch). split; [now constructor | reflexivity].
Qed.

Lemma executemany_batch items batch rows :
  Forall2 (fun x row => encode x = Return row) items batch ->
  executemany encode key items rows
  = Return (fold_left (fun rows r => upsert_row key r rows) batch rows).
Proof.
  intros Hall. revert rows. induction Hall as [|x row items batch E _ IH]; intros rows; simpl.
  - reflexivity.
  - rewrite E. apply IH.
Qed.

Lemma executemany_idempotent items rows rows' :
  executemany encode key items rows = Return rows' ->
  executemany encode key items rows' = Return rows'.
Proof.
  intros E. destruct (executemany_inv _ _ _ E) as (batch & Hall & ->).
  rewrite (executemany_batch _ _ _ Hall). f_equal. apply upsert_all_idempotent.
Qed.

Lemma executemany_NoDup items rows rows' :
  executemany encode key items rows = Return rows' ->
  NoDup (map key rows) -> NoDup (map key rows').
Proof.
  intros E. destruct (executemany_inv _ _ _ E) as (batch & Hall & ->).
  apply upsert_all_NoDup.
Qed.

Lemma executemany_keys items rows rows' k :
  executemany encode key items rows = Return rows' ->
  k ∈ map key rows' <-> k ∈ map key_of items \/ k ∈ map key rows.
Proof.
  intros E. destruct (executemany_inv _ _ _ E) as (batch & Hall & ->).
  rewrite upsert_all_keys.
  assert (Hkeys : map key batch = map key_of items).
  { clear E. induction Hall as [|x row items batch Hx _ IH]; [reflexivity|].
    simpl. now rewrite IH, (encode_key _ _ Hx). }
  now rewrite Hkeys.
Qed.

Lemma executemany_row_of_key items rows rows' k :
  executemany encode key items rows = Return rows' ->
  row_of_key key k rows'
  = match last_with_key key_of k items with
    | Some x => match encode x with Return row => Some row | Raise _ => None end
    | None => row_of_key key k rows
    end.
Proof.
  unfold last_with_key. revert rows. induction items as [|x items IH]; intros rows; simpl.
  - intros [= <-]. reflexivity.
  - destruct (encode x) as [row|e] eqn:E; [|discriminate].
    intros Hrest. rewrite (IH _ Hrest), find_app_first.
    destruct (find _ (rev items)) as [y|]; [reflexivity|].
    rewrite row_of_key_upsert. simpl. rewrite (encode_key _ _ E).
    destruct (String.eqb (key_of x) k); [now rewrite E | reflexivity].
Qed.
End UpsertFacts.

Lemma post_row_key post fetched_utc row :
  post_row post fetched_utc = Return row -> PostRow.post_id row = RedditPost.post_id post.
Proof.
  unfold post_row. destruct (_ && _); [|discriminate]. now intros [= <-].
Qed.

Lemma idea_row_key idea extracted_utc row :
  idea_row idea extracted_utc = Return row -> IdeaRow.post_id row = IdeaCandidate.post_id idea.
Proof.
  unfold idea_row. destruct (_ && _); [|discriminate].
  destruct (sqlite_real _); [|discriminate]. now intros [= <-].
Qed.

Lemma upsert_posts_inv posts fetched_utc db db' :
  Storage.upsert_posts posts fetched_utc db = Return db' ->
  exists rows,
    executemany (fun post => post_row post fetched_utc) PostRow.post_id posts (Db.posts db)
    = Return rows
    /\ db' = Db.set_posts rows db.
Proof.
  unfold Storage.upsert_posts. destruct posts as [|post rest].
  - intros [= <-]. exists (Db.posts db). split; [reflexivity | now destruct db].
  - destruct (executemany _ _ _ _) as [rows|e]; [|discriminate].
    intros [= <-]. eauto.
Qed.

Lemma upsert_ideas_inv ideas extracted_utc db db' :
  Storage.upsert_ideas ideas extracted_utc db = Return db' ->
  exists rows,
    executemany (fun idea => idea_row idea extracted_utc) IdeaRow.post_id ideas (Db.ideas db)
    = Return rows
    /\ db' = Db.set_ideas rows db.
Proof.
  unfold Storage.upsert_ideas. destruct ideas as [|idea rest].
  - intros [= <-]. exists (Db.ideas db). split; [reflexivity | now destruct db].
  - destruct (executemany _ _ _ _) as [rows|e]; [|discriminate].
    intros [= <-]. eauto.
Qed.

(** X11. The upserts keep [post_id] unique in their tables, and the ids
    of a table after an upsert are those it had and those of the batch. *)
Theorem upserts_keep_post_id_unique posts ideas stamp db db1 db2 :
  Storage.upsert_posts posts stamp db = Return db1 ->
  Storage.upsert_ideas ideas stamp db = Return db2 ->
  (NoDup (map PostRow.post_id (Db.posts db)) -> NoDup (map PostRow.post_id (Db.posts db1)))
  /\ (NoDup (map IdeaRow.post_id (Db.ideas db)) -> NoDup (map IdeaRow.post_id (Db.ideas db2)))
  /\ (forall id, id ∈ map PostRow.post_id (Db.posts db1)
                 <-> id ∈ map RedditPost.post_id posts
                     \/ id ∈ map PostRow.post_id (Db.posts db))
  /\ (forall id, id ∈ map IdeaRow.post_id (Db.ideas db2)
                 <-> id ∈ map IdeaCandidate.post_id ideas
                     \/ id ∈ map IdeaRow.post_id (Db.ideas db)).
Proof.
  intros Hp Hi.
  apply upsert_posts_inv in Hp as (prows & Hp & ->).
  apply upsert_ideas_inv in Hi as (irows & Hi & ->). simpl.
  split; [apply (executemany_NoDup _ _ _ _ _ Hp)|].
  split; [apply (executemany_NoDup _ _ _ _ _ Hi)|].
  split; intros id.
  - apply (executemany_keys _ _ RedditPost.post_id) with (k := id) in Hp; [exact Hp|].
    intros x row. apply post_row_key.
  - apply (executemany_keys _ _ IdeaCandidate.post_id) with (k := id) in Hi; [exact Hi|].
    intros x row. apply idea_row_key.
Qed.

(** X12. An upsert that is repeated on its own result changes nothing. *)
Theorem upserts_are_idempotent posts ideas stamp db db1 db2 :
  Storage.upsert_posts posts stamp db = Return db1 ->
  Storage.upsert_ideas ideas stamp db = Return db2 ->
  Storage.upsert_posts posts stamp db1 = Return db1
  /\ Storage.upsert_ideas ideas stamp db2 = Return db2.
Proof.
  intros Hp Hi. split.
  - apply upsert_posts_inv in Hp as (rows & Hp & ->).
    unfold Storage.upsert_posts. destruct posts as [|post rest].
    + simpl in Hp. injection Hp as <-. reflexivity.
    + cbn [Db.posts Db.set_posts]. rewrite (executemany_idempotent _ _ _ _ _ Hp).
      reflexivity.
  - apply upsert_ideas_inv in Hi as (rows & Hi & ->).
    unfold Storage.upsert_ideas. destruct ideas as [|idea rest].
    + simpl in Hi. injection Hi as <-. reflexivity.
    + cbn [Db.ideas Db.set_ideas]. rewrite (executemany_idempotent _ _ _ _ _ Hi).
      reflexivity.
Qed.

(** X13. After an upsert, the row of an id is the one written for the
    last element of the batch that has the id, and the row that the table
    had when the batch has none. *)
Theorem upserts_write_the_last_of_an_id posts ideas stamp db db1 db2 :
  Storage.upsert_posts posts stamp db = Return db1 ->
  Storage.upsert_ideas ideas stamp db = Return db2 ->
  (forall id,
     row_of_key PostRow.post_id id (Db.posts db1)
     = match last_with_key RedditPost.post_id id posts with
       | Some post =>
           match post_row post stamp with Return row => Some row | Raise _ => None end
       | None => row_of_key PostRow.post_id id (Db.posts db)
       end)
  /\ (forall id,
        row_of_key IdeaRow.post_id id (Db.ideas db2)
        = match last_with_key IdeaCandidate.post_id id ideas with
          | Some idea =>
              match idea_row idea stamp with Return row => Some row | Raise _ => None end
          | None => row_of_key IdeaRow.post_id id (Db.ideas db)
          end).
Proof.
  intros Hp Hi.
  apply upsert_posts_inv in Hp as (prows & Hp & ->).
  apply upsert_ideas_inv in Hi as (irows & Hi & ->). simpl.
  split; intros id.
  - apply (executemany_row_of_key _ _ RedditPost.post_id); [|exact Hp].
    intros x row. apply post_row_key.
  - apply (executemany_row_of_key _ _ IdeaCandidate.post_id); [|exact Hi].
    intros x row. apply idea_row_key.
Qed.

(** ** storage.py: the scores in the table *)

Lemma sqlite_real_number x y :
  sqlite_real x = Some y -> PyFloat.is_number x /\ PyFloat.is_number y.
Proof.
  unfold sqlite_real. destruct (PrimFloat.is_nan x) eqn:En; [discriminate|].
  destruct (PyFloat.eq x 0); intros [= <-]; split; try assumption; reflexivity.
Qed.

Lemma idea_row_number idea extracted_utc row :
  idea_row idea extracted_utc = Return row ->
  PyFloat.is_number (IdeaCandidate.relevance_score idea)
  /\ PyFloat.is_number (IdeaRow.relevance_score row).
Proof.
  unfold idea_row. destruct (_ && _); [|discriminate].
  destruct (sqlite_real _) as [score|] eqn:E; [|discriminate].
  intros [= <-]. simpl. now apply sqlite_real_number.
Qed.

Lemma upsert_row_elem_inv {R : Type} (key : R -> string) (row r : R) rows :
  r ∈ upsert_row key row rows -> r = row \/ r ∈ rows.
Proof.
  induction rows as [|r0 rs IH]; simpl.
  - rewrite list_elem_of_singleton. tauto.
  - destruct (String.eqb (key r0) (key row)); rewrite !elem_of_cons; [tauto|].
    intros [?|?]; [tauto|]. destruct IH; tauto.
Qed.

(** X14. An upsert of ideas that succeeds has met no NaN score, and it
    leaves no NaN score in a table that held none. *)
Theorem stored_scores_are_numbers ideas stamp db db' :
  Storage.upsert_ideas ideas stamp db = Return db' ->
  Forall (fun idea => PyFloat.is_number (IdeaCandidate.relevance_score idea)) ideas
  /\ (Forall (fun row => PyFloat.is_number (IdeaRow.relevance_score row)) (Db.ideas db) ->
      Forall (fun row => PyFloat.is_number (IdeaRow.relevance_score row)) (Db.ideas db')).
Proof.
  intros E. apply upsert_ideas_inv in E as (rows & E & ->). simpl.
  apply executemany_inv in E as (batch & Hall & ->).
  assert (Hbatch : Forall (fun idea => PyFloat.is_number (IdeaCandidate.relevance_score idea))
                     ideas
                   /\ Forall (fun row => PyFloat.is_number (IdeaRow.relevance_score row)) batch).
  { induction Hall as [|idea row ideas batch Hrow _ [IH1 IH2]]; [split; constructor|].
    apply idea_row_number in Hrow as [? ?]. split; constructor; assumption. }
  destruct Hbatch as [Hideas Hbatch]. split; [assumption|].
  clear Hall Hideas. revert Hbatch. generalize (Db.ideas db).
  induction batch as [|row batch IH]; intros rows Hbatch Hrows; simpl; [assumption|].
  apply Forall_cons in Hbatch as [Hrow Hbatch]. apply IH; [assumption|].
  apply Forall_forall. intros r Hr. apply upsert_row_elem_inv in Hr as [->|Hr]; [assumption|].
  rewrite Forall_forall in Hrows. auto.
Qed.

(** ** storage.py: the windowed query *)

Lemma ideas_order_strict_weak :
  let P row := PyFloat.is_number (IdeaRow.relevance_score row) in
  (forall a b, P a -> P b -> Storage.ideas_order a b = true -> Storage.ideas_order b a = false)
  /\ (forall a b c, P a -> P b -> P c ->
        Storage.ideas_order a b = false -> Storage.ideas_order b c = false ->
        Storage.ideas_order a c = false).
Proof.
  cbv zeta. unfold Storage.ideas_order. split.
  - intros a b Ha Hb. rewrite !eq_not_lt by assumption.
    pose proof (lt_asym (IdeaRow.relevance_score a) (IdeaRow.relevance_score b)).
    pose proof (lt_asym (IdeaRow.relevance_score b) (IdeaRow.relevance_score a)).
    destruct (PyFloat.lt (IdeaRow.relevance_score a) (IdeaRow.relevance_score b)),
      (PyFloat.lt (IdeaRow.relevance_score b) (IdeaRow.relevance_score a)); simpl;
      try (intuition congruence).
    rewrite Z.ltb_lt. intros Hlt. apply Z.ltb_ge. lia.
  - intros a b c Ha Hb Hc. rewrite !eq_not_lt by assumption.
    set (sa := IdeaRow.relevance_score a) in *.
    set (sb := IdeaRow.relevance_score b) in *.
    set (sc := IdeaRow.relevance_score c) in *.
    pose proof (lt_trans sa sb sc). pose proof (lt_trans sc sb sa).
    pose proof (lt_trans sb sa sc). pose proof (lt_trans sb sc sa).
    pose proof (lt_trans sa sc sb). pose proof (lt_trans sc sa sb).
    pose proof (lt_neg_trans sa sb sc Hb). pose proof (lt_neg_trans sc sb sa Hb).
    pose proof (lt_neg_trans sb sa sc Ha). pose proof (lt_neg_trans sc sa sb Ha).
    pose proof (lt_neg_trans sa sc sb Hc). pose proof (lt_neg_trans sb sc sa Hc).
    pose proof (lt_asym sa sb). pose proof (lt_asym sb sc). pose proof (lt_asym sa sc).
    destruct (PyFloat.lt sa sb), (PyFloat.lt sb sa), (PyFloat.lt sb sc), (PyFloat.lt sc sb),
      (PyFloat.lt sa sc), (PyFloat.lt sc sa); simpl;
      try (intuition congruence);
      rewrite ?Z.ltb_ge, ?Z.ltb_lt; try lia; intuition congruence.
Qed.

(** X15. Over a table without a NaN score, [get_ideas_since] with a
    floor that fits 64 bits returns the ideas of the rows created at or
    after the floor, each once, by decreasing relevance score and, for
    equal scores, newest first. With a floor that does not fit 64 bits it
    raises an [OverflowError]. *)
Theorem get_ideas_since_window created_utc_floor db :
  Forall (fun row => PyFloat.is_number (IdeaRow.relevance_score row)) (Db.ideas db) ->
  (int64_ok created_utc_floor = true ->
   exists ideas,
     Storage.get_ideas_since created_utc_floor db = Return ideas
     /\ ideas ≡ₚ map Storage.idea_of_row
                  (filter (fun row => created_utc_floor <= IdeaRow.created_utc row)
                     (Db.ideas db))
     /\ Forall (fun idea => created_utc_floor <= IdeaCandidate.created_utc idea) ideas
     /\ StronglySorted ranked_before ideas)
  /\ (int64_ok created_utc_floor = false ->
      Storage.get_ideas_since created_utc_floor db
      = Raise (Exception OverflowError
                 "Python int too large to convert to SQLite INTEGER")).
Proof.
  intros Hnum. unfold Storage.get_ideas_since.
  split; intros ->; [|reflexivity].
  eexists. split; [reflexivity|].
  assert (Hfilter :
      filter (fun row => created_utc_floor <=? IdeaRow.created_utc row) (Db.ideas db)
      = filter (fun row => created_utc_floor <= IdeaRow.created_utc row) (Db.ideas db)).
  { apply filter_ext_Forall. apply Forall_forall. intros row _.
    rewrite Is_true_true. apply Z.leb_le. }
  rewrite Hfilter.
  set (rows := filter (fun row => created_utc_floor <= IdeaRow.created_utc row) (Db.ideas db)).
  split; [now rewrite sort_by_perm|]. split.
  - rewrite Forall_map, sort_by_perm. apply Forall_forall. intros row Hrow.
    apply list_elem_of_filter in Hrow as [Hrow _]. exact Hrow.
  - apply StronglySorted_fmap.
    destruct ideas_order_strict_weak as [Hasym Hneg].
    assert (Hrows : Forall (fun row => PyFloat.is_number (IdeaRow.relevance_score row)) rows).
    { apply Forall_forall. intros row Hrow. apply list_elem_of_filter in Hrow as [_ Hrow].
      rewrite Forall_forall in Hnum. auto. }
    pose proof (sort_by_sorted_on _ Storage.ideas_order rows Hasym Hneg Hrows) as Hs.
    assert (Hsorted_rows : Forall (fun row => PyFloat.is_number (IdeaRow.relevance_score row))
                             (sort_by Storage.ideas_order rows))
      by now rewrite sort_by_perm.
    clear Hasym Hneg. induction Hs as [|a rest Hs IH Ha]; constructor.
    + apply IH. now inversion Hsorted_rows.
    + apply Forall_cons in Hsorted_rows as [Hna Hnrest].
      rewrite Forall_forall in Ha, Hnrest |- *. intros b Hb.
      specialize (Ha b Hb). specialize (Hnrest b Hb).
      unfold Storage.ideas_order in Ha. unfold ranked_before. simpl.
      apply orb_false_iff in Ha as [Hlt Heq].
      destruct (PyFloat.eq (IdeaRow.relevance_score b) (IdeaRow.relevance_score a)) eqn:E.
      * right. rewrite eq_sym. split; [assumption|].
        simpl in Heq. apply Z.ltb_ge in Heq. exact Heq.
      * left. rewrite eq_not_lt in E by assumption. rewrite Hlt in E. simpl in E.
        rewrite andb_true_r in E. now apply negb_false_iff in E.
Qed.

(** ** storage.py: the run log *)

Lemma started_order_strict_weak :
  (forall a b, Storage.started_order a b = true -> Storage.started_order b a = false)
  /\ (forall a b c, Storage.started_order a b = false -> Storage.started_order b c = false ->
                    Storage.started_order a c = false).
Proof.
  unfold Storage.started_order. split; intros *; rewrite ?Z.ltb_lt, ?Z.ltb_ge; lia.
Qed.

(** X16. [list_run_logs] with a limit that SQLite accepts returns the
    [max(limit, 1)] runs that started last, or all runs when there are
    fewer, by decreasing start time. *)
Theorem list_run_logs_newest_first limit db :
  limit < 2 ^ 63 ->
  exists shown omitted,
    Storage.list_run_logs limit db = Return (map Storage.run_log_of_row shown)
    /\ shown ++ omitted ≡ₚ Db.run_logs db
    /\ length shown = Nat.min (Z.to_nat (Z.max limit 1)) (length (Db.run_logs db))
    /\ StronglySorted
         (fun a b => RunLogRow.run_started_utc b <= RunLogRow.run_started_utc a) shown
    /\ forall a b, a ∈ shown -> b ∈ omitted ->
                   RunLogRow.run_started_utc b <= RunLogRow.run_started_utc a.
Proof.
  intros Hlimit. unfold Storage.list_run_logs.
  assert (Hok : int64_ok (Z.max limit 1) = true).
  { unfold int64_ok. apply andb_true_iff. split; [apply Z.leb_le | apply Z.ltb_lt]; lia. }
  rewrite Hok.
  set (n := Z.to_nat (Z.max limit 1)).
  set (sorted := sort_by Storage.started_order (Db.run_logs db)).
  exists (firstn n sorted), (skipn n sorted).
  destruct started_order_strict_weak as [Hasym Hneg].
  assert (Hs : StronglySorted
                 (fun a b => RunLogRow.run_started_utc b <= RunLogRow.run_started_utc a)
                 sorted).
  { eapply StronglySorted_mono; [|apply (sort_by_sorted _ _ Hasym Hneg)].
    intros a b Hab. simpl in Hab. unfold Storage.started_order in Hab.
    now apply Z.ltb_ge in Hab. }
  split; [reflexivity|]. split; [rewrite take_drop; apply sort_by_perm|].
  split; [rewrite length_take; unfold sorted; now rewrite sort_by_length|].
  rewrite <- (take_drop n sorted) in Hs.
  split.
  - clear -Hs. induction (firstn n sorted) as [|x xs IH]; [constructor|].
    simpl in Hs. inversion Hs as [|? ? Hs' Hx]; subst.
    constructor; [now apply IH|]. apply Forall_app in Hx as [Hx _]. exact Hx.
  - apply (StronglySorted_app_cross _ _ _ Hs).
Qed.

(** X17. [start_run] gives the new run an id that no row has, so that the
    ids stay unique; [finish_run] keeps the ids and every row of another
    id, and changes nothing when no row has the id. *)
Theorem run_ids_stay_unique period run_day_utc run_started_utc db :
  NoDup (map RunLogRow.run_id (Db.run_logs db)) ->
  let db1 := fst (Storage.start_run period run_day_utc run_started_utc db) in
  let run_id := snd (Storage.start_run period run_day_utc run_started_utc db) in
  (run_id ∉ map RunLogRow.run_id (Db.run_logs db))
  /\ NoDup (map RunLogRow.run_id (Db.run_logs db1))
  /\ forall id status finished fetched extracted window sent message,
       let db2 := Storage.finish_run id status finished fetched extracted window sent
                    message db1 in
       map RunLogRow.run_id (Db.run_logs db2) = map RunLogRow.run_id (Db.run_logs db1)
       /\ (forall row, row ∈ Db.run_logs db1 -> RunLogRow.run_id row <> id ->
                       row ∈ Db.run_logs db2)
       /\ (id ∉ map RunLogRow.run_id (Db.run_logs db1) ->
           Db.run_logs db2 = Db.run_logs db1).
Proof.
  intros Hnd db1 run_id.
  assert (Hfresh : run_id ∉ map RunLogRow.run_id (Db.run_logs db)).
  { intros Hin. apply list_elem_of_fmap in Hin as (row & Hid & Hrow).
    apply next_run_id_fresh in Hrow. unfold run_id in Hid. simpl in Hid. lia. }
  split; [assumption|]. split.
  - unfold db1. simpl. rewrite map_app. simpl. apply NoDup_app. split; [assumption|].
    split; [|repeat constructor; apply not_elem_of_nil].
    intros id Hid Hin. apply list_elem_of_singleton in Hin. subst id. now apply Hfresh.
  - intros id status finished fetched extracted window sent message db2.
    unfold db2, Storage.finish_run. cbn [Db.run_logs Db.set_run_logs].
    generalize (Db.run_logs db1). intros rows. split; [|split].
    + rewrite map_map. apply map_ext. intros row.
      now destruct (RunLogRow.run_id row =? id).
    + intros row Hrow Hid. apply list_elem_of_fmap. exists row. split; [|assumption].
      destruct (Z.eqb_spec (RunLogRow.run_id row) id); [contradiction | reflexivity].
    + intros Hid. rewrite <- (map_id rows) at 2. apply map_ext_in. intros row Hrow.
      destruct (Z.eqb_spec (RunLogRow.run_id row) id) as [E|E]; [|reflexivity].
      exfalso. apply Hid. apply list_elem_of_fmap. exists row. split; [now symmetry|].
      now apply list_elem_of_In.
Qed.

(** ** pipeline.py: the ways in which a run ends *)

Section RunBodyReturn.
Context `{Libm} `{Calendar} {W : Type} `{Outside W}.

Lemma filter_run_events_fetch (since_utc max_posts : Z) subreddits :
  filter (fun ev => is_run_event ev)
    (map (fun subreddit => EvFetch subreddit since_utc max_posts) subreddits) = [].
Proof.
  apply filter_run_events_none. apply Forall_forall. intros ev Hev.
  apply list_elem_of_fmap in Hev as (x & -> & _). reflexivity.
Qed.

Lemma omap_fetch_none {B : Type} (f : event -> option B) (since_utc max_posts : Z) subreddits :
  (forall subreddit, f (EvFetch subreddit since_utc max_posts) = None) ->
  omap f (map (fun subreddit => EvFetch subreddit since_utc max_posts) subreddits) = [].
Proof.
  intros Hf. induction subreddits as [|x xs IH]; [reflexivity|]. simpl. now rewrite Hf.
Qed.

(** The [try] body when it returns: what it has fetched, what it has
    written and what it returns. *)
Lemma run_body_return config period (client : Client W) notifier now runtime started_utc
  run_id lookback_floor (s1 s2 : State.t W) res :
  run_body config period client notifier now runtime started_utc run_id lookback_floor s1
  = (s2, Return res) ->
  exists sf posts db1 db2 window finished floor_text evs,
    let ideas := extract_ideas posts config in
    let sent := has_notifier notifier config in
    let message := f_string ["Success. Lookback started at "; floor_text] in
    fetch_loop client (AppConfig.subreddits config) lookback_floor
      (AppConfig.max_posts_per_subreddit config) [] s1 = (sf, Return posts)
    /\ Storage.upsert_posts posts started_utc (State.db s1) = Return db1
    /\ Storage.upsert_ideas ideas started_utc db1 = Return db2
    /\ Storage.get_ideas_since lookback_floor db2 = Return window
    /\ utc_strftime lookback_floor = Return floor_text
    /\ State.db s2
       = Storage.finish_run run_id "success" (datetime.timestamp finished)
           (Z.of_nat (length posts)) (Z.of_nat (length ideas)) (Z.of_nat (length window))
           sent message db2
    /\ res = {| RunResult.status := "success";
                RunResult.fetched_posts := Z.of_nat (length posts);
                RunResult.extracted_ideas := Z.of_nat (length ideas);
                RunResult.window_ideas := Z.of_nat (length window);
                RunResult.started_utc := started_utc;
                RunResult.finished_utc := datetime.timestamp finished;
                RunResult.csv_path :=
                  Some (path_join (AppConfig.output_dir config)
                          (f_string ["ideas_"; period; "_"; datetime.stamp runtime;
                                     ".csv"]));
                RunResult.report_path :=
                  Some (path_join (AppConfig.output_dir config)
                          (f_string ["report_"; period; "_"; datetime.stamp runtime;
                                     ".md"]));
                RunResult.email_sent := sent;
                RunResult.message := message |}
    /\ State.calls s2 = State.calls s1 ++ evs
    /\ filter (fun ev => is_run_event ev) evs = [EvFinishRun run_id "success"]
    /\ upserted_posts evs = [posts]
    /\ upserted_ideas evs = [ideas]
    /\ reported evs = [window]
    /\ length (sends evs) = if sent then 1%nat else 0%nat.
Proof.
  unfold run_body. intros E.
  apply bind_inv in E as [(sa & posts & Efetch & E)|(? & _ & [=])].
  pose proof Efetch as Hloop.
  apply fetch_loop_calls in Efetch as [Hdba (k & Hcallsa & Hk)].
  specialize (Hk posts eq_refl). subst k. rewrite firstn_all in Hcallsa.
  unfold upsert_posts, upsert_ideas, get_ideas_since, finish_run in E.
  unfold bind, log, on_db, on_world, ret, of_outcome in E.
  cbn [State.db State.calls State.world] in E.
  rewrite Hdba, Hcallsa in E.
  destruct (Storage.upsert_posts posts started_utc (State.db s1)) as [db1|?] eqn:Eposts;
    [|discriminate E].
  cbn [State.db State.calls State.world] in E.
  destruct (Storage.upsert_ideas (extract_ideas posts config) started_utc db1)
    as [db2|?] eqn:Eideas; [|discriminate E].
  cbn [State.db State.calls State.world] in E.
  destruct (Storage.get_ideas_since lookback_floor db2) as [window|?] eqn:Ewindow;
    [|discriminate E].
  cbn [State.db State.calls State.world] in E.
  destruct (export_ideas_csv _ _ _) as [w1 [[]|?]]; [|discriminate E].
  cbn [State.db State.calls State.world] in E.
  destruct (write_report _ _ _ _ _ _) as [w2 [[]|?]]; [|discriminate E].
  cbn [State.db State.calls State.world] in E.
  exists sa, posts, db1, db2, window.
  assert (Hsent : has_notifier notifier config
                  = match match notifier with
                          | Some n => Some n
                          | None => build_notifier config
                          end with
                    | Some _ => true
                    | None => false
                    end).
  { unfold has_notifier. now destruct notifier. }
  rewrite Hsent. clear Hsent.
  destruct (match notifier with Some n => Some n | None => build_notifier config end)
    as [n|].
  - destruct (utc_isoformat lookback_floor) as [since|?]; [|discriminate E].
    destruct (n _ _ _ _) as [w3 [[]|?]]; [|discriminate E].
    cbn [State.db State.calls State.world] in E.
    match type of E with
    | context [now_or_clock now ?s] =>
        destruct (now_or_clock_total now s) as (w4 & finished & Hfin); rewrite Hfin in E
    end.
    destruct (utc_strftime lookback_floor) as [floor_text|?] eqn:Efloor; [|discriminate E].
    cbn [State.db State.calls State.world] in E. injection E as <- <-.
    exists finished, floor_text. eexists. cbv zeta.
    split; [exact Hloop|]. split; [assumption|]. split; [assumption|].
    split; [assumption|]. split; [first [assumption | reflexivity]|].
    split; [reflexivity|]. split; [reflexivity|].
    cbn [State.calls]. split; [rewrite <- !app_assoc; reflexivity|].
    split; [rewrite filter_app, filter_run_events_fetch; reflexivity|].
    unfold upserted_posts, upserted_ideas, reported, sends.
    rewrite !omap_app, !omap_fetch_none by reflexivity. repeat split.
  - match type of E with
    | context [now_or_clock now ?s] =>
        destruct (now_or_clock_total now s) as (w4 & finished & Hfin); rewrite Hfin in E
    end.
    destruct (utc_strftime lookback_floor) as [floor_text|?] eqn:Efloor; [|discriminate E].
    cbn [State.db State.calls State.world] in E. injection E as <- <-.
    exists finished, floor_text. eexists. cbv zeta.
    split; [exact Hloop|]. split; [assumption|]. split; [assumption|].
    split; [assumption|]. split; [first [assumption | reflexivity]|].
    split; [reflexivity|]. split; [reflexivity|].
    cbn [State.calls]. split; [rewrite <- !app_assoc; reflexivity|].
    split; [rewrite filter_app, filter_run_events_fetch; reflexivity|].
    unfold upserted_posts, upserted_ideas, reported, sends.
    rewrite !omap_app, !omap_fetch_none by reflexivity. repeat split.
Qed.
End RunBodyReturn.

Lemma upsert_posts_run_logs posts fetched_utc rows db :
  Storage.upsert_posts posts fetched_utc (Db.set_run_logs rows db)
  = match Storage.upsert_posts posts fetched_utc db with
    | Return db' => Return (Db.set_run_logs rows db')
    | Raise e => Raise e
    end.
Proof.
  unfold Storage.upsert_posts. destruct posts as [|post rest]; [reflexivity|].
  cbn [Db.posts Db.set_run_logs]. now destruct (executemany _ _ _ _).
Qed.

Lemma upsert_ideas_run_logs ideas extracted_utc rows db :
  Storage.upsert_ideas ideas extracted_utc (Db.set_run_logs rows db)
  = match Storage.upsert_ideas ideas extracted_utc db with
    | Return db' => Return (Db.set_run_logs rows db')
    | Raise e => Raise e
    end.
Proof.
  unfold Storage.upsert_ideas. destruct ideas as [|idea rest]; [reflexivity|].
  cbn [Db.ideas Db.set_run_logs]. now destruct (executemany _ _ _ _).
Qed.

Lemma get_ideas_since_run_logs created_utc_floor rows db :
  Storage.get_ideas_since created_utc_floor (Db.set_run_logs rows db)
  = Storage.get_ideas_since created_utc_floor db.
Proof. reflexivity. Qed.

Section RunLoggedOutcome.
Context `{Libm} `{Calendar} {W : Type} `{Outside W}.

(** What a run on its storage leaves behind when it returns or raises an
    instance of [Exception], in each of its three ways to end. *)
Lemma run_logged_outcome config period reddit_client notifier now (s s' : State.t W)
  runtime r :
  run_logged config period reddit_client notifier now runtime s = (s', r) ->
  (forall exc, r = Raise exc -> is_exception exc = true) ->
  let run_id := Storage.next_run_id (Db.run_logs (State.db s)) in
  let started_utc := datetime.timestamp runtime in
  let lookback_seconds := Z.max (AppConfig.lookback_hours config) 1 * 60 * 60 in
  let lookback_floor :=
    lookback_floor_of (Storage.get_latest_successful_run period (State.db s))
      started_utc lookback_seconds (started_utc - lookback_seconds) in
  let client :=
    match reddit_client with
    | Some c => c
    | None => RedditClient (AppConfig.user_agent config)
    end in
  let s1 :=
    State.mk (State.world s)
      (fst (Storage.start_run period (datetime.day runtime) started_utc (State.db s)))
      (State.calls s ++ [EvStartRun run_id]) in
  let skip := Storage.has_successful_run_on_day period (datetime.day runtime) (State.db s) in
  exists finished status fetched extracted window sent message evs,
    Db.run_logs (State.db s')
    = Db.run_logs (State.db s)
      ++ [closed_row run_id period runtime finished status fetched extracted window sent
            message]
    /\ State.calls s' = State.calls s ++ EvStartRun run_id :: evs
    /\ filter (fun ev => is_run_event ev) evs = [EvFinishRun run_id status]
    /\ ((* skipped *)
        (skip = true /\ status = "skipped_same_day"
         /\ fetched = 0 /\ extracted = 0 /\ window = 0 /\ sent = false
         /\ evs = [EvFinishRun run_id status]
         /\ Db.posts (State.db s') = Db.posts (State.db s)
         /\ Db.ideas (State.db s') = Db.ideas (State.db s)
         /\ r = Return {| RunResult.status := "skipped_same_day";
                          RunResult.fetched_posts := 0;
                          RunResult.extracted_ideas := 0;
                          RunResult.window_ideas := 0;
                          RunResult.started_utc := started_utc;
                          RunResult.finished_utc := datetime.timestamp finished;
                          RunResult.csv_path := None;
                          RunResult.report_path := None;
                          RunResult.email_sent := false;
                          RunResult.message := message |})
        \/ (* failed *)
        (skip = false /\ status = "failed"
         /\ fetched = 0 /\ extracted = 0 /\ window = 0 /\ sent = false
         /\ exists exc,
              r = Raise exc
              /\ message = f_string [type_name (exc_cls exc); ": "; exc_str exc])
        \/ (* success *)
        (skip = false /\ status = "success"
         /\ exists sf posts db1 db2 shown res,
              let ideas := extract_ideas posts config in
              r = Return res
              /\ fetch_loop client (AppConfig.subreddits config) lookback_floor
                   (AppConfig.max_posts_per_subreddit config) [] s1 = (sf, Return posts)
              /\ Storage.upsert_posts posts started_utc (State.db s) = Return db1
              /\ Storage.upsert_ideas ideas started_utc db1 = Return db2
              /\ Storage.get_ideas_since lookback_floor db2 = Return shown
              /\ Db.posts (State.db s') = Db.posts db2
              /\ Db.ideas (State.db s') = Db.ideas db2
              /\ fetched = Z.of_nat (length posts)
              /\ extracted = Z.of_nat (length ideas)
              /\ window = Z.of_nat (length shown)
              /\ sent = has_notifier notifier config
              /\ RunResult.status res = "success"
              /\ RunResult.fetched_posts res = fetched
              /\ RunResult.extracted_ideas res = extracted
              /\ RunResult.window_ideas res = window
              /\ RunResult.started_utc res = started_utc
              /\ RunResult.finished_utc res = datetime.timestamp finished
              /\ RunResult.email_sent res = sent
              /\ RunResult.message res = message
              /\ upserted_posts evs = [posts]
              /\ upserted_ideas evs = [ideas]
              /\ reported evs = [shown]
              /\ length (sends evs) = if sent then 1%nat else 0%nat)).
Proof.
  intros Hrun Hraise run_id started_utc lookback_seconds lookback_floor client s1 skip.
  rewrite run_logged_unfold in Hrun.
  fold run_id started_utc lookback_seconds lookback_floor client s1 skip in Hrun.
  destruct skip eqn:Hskip.
  - (* skipped *)
    unfold run_skipped in Hrun.
    destruct (now_or_clock_total now s1) as (w & finished & Hfin).
    unfold bind at 1 in Hrun. rewrite Hfin in Hrun.
    unfold finish_run, bind, log, on_db, ret in Hrun.
    cbn [fst snd State.db State.calls State.world] in Hrun.
    injection Hrun as <- <-.
    exists finished, "skipped_same_day", 0, 0, 0, false. eexists. eexists.
    cbn [State.db State.calls].
    split.
    { match goal with
      | |- Db.run_logs (Storage.finish_run _ ?st ?fin ?a ?b ?c ?e ?msg ?db) = _ =>
          exact (finish_run_closes_new_row (Db.run_logs (State.db s)) _ db st fin a b c e msg
                   eq_refl eq_refl)
      end. }
    split; [rewrite <- app_assoc; reflexivity|]. split; [reflexivity|].
    left. repeat (split; [reflexivity|]). reflexivity.
  - unfold try_except in Hrun.
    destruct (run_body config period client notifier now runtime started_utc run_id
                lookback_floor s1) as [s2 [res|exc]] eqn:Hbody.
    + (* success *)
      injection Hrun as <- <-.
      destruct (run_body_return _ _ _ _ _ _ _ _ _ _ _ _ Hbody)
        as (sf & posts & db1 & db2 & shown & finished & floor_text & evs & Hloop & Hposts
            & Hideas & Hshown & Hfloor & Hdb & Hres & Hcalls & Hrunev & Hup & Hui
            & Hreported & Hsends).
      unfold s1 in Hposts, Hcalls. cbn [State.db State.calls] in Hposts, Hcalls.
      change (fst (Storage.start_run period (datetime.day runtime) started_utc (State.db s)))
        with (Db.set_run_logs
                (Db.run_logs (State.db s) ++ [started_row run_id period runtime])
                (State.db s)) in Hposts.
      rewrite upsert_posts_run_logs in Hposts.
      destruct (Storage.upsert_posts posts started_utc (State.db s)) as [dbp|?] eqn:Ep;
        [|discriminate Hposts].
      injection Hposts as <-.
      rewrite upsert_ideas_run_logs in Hideas.
      destruct (Storage.upsert_ideas (extract_ideas posts config) started_utc dbp)
        as [dbi|?] eqn:Ei; [|discriminate Hideas].
      injection Hideas as <-.
      rewrite get_ideas_since_run_logs in Hshown.
      exists finished, "success", (Z.of_nat (length posts)),
        (Z.of_nat (length (extract_ideas posts config))),
        (Z.of_nat (length shown)),
        (has_notifier notifier config),
        (f_string ["Success. Lookback started at "; floor_text]), evs.
      split.
      { rewrite Hdb.
        match goal with
        | |- Db.run_logs (Storage.finish_run _ ?st ?fin ?a ?b ?c ?e ?msg ?db) = _ =>
            exact (finish_run_closes_new_row (Db.run_logs (State.db s)) _ db st fin a b c e
                     msg eq_refl eq_refl)
        end. }
      split; [rewrite Hcalls, <- app_assoc; reflexivity|].
      split; [assumption|].
      right. right. split; [reflexivity|]. split; [reflexivity|].
      exists sf, posts, dbp, dbi, shown, res. cbv zeta.
      split; [reflexivity|]. split; [exact Hloop|].
      split; [assumption|]. split; [assumption|]. split; [assumption|].
      split; [rewrite Hdb; reflexivity|]. split; [rewrite Hdb; reflexivity|].
      rewrite Hres. cbn [RunResult.status RunResult.fetched_posts RunResult.extracted_ideas
                           RunResult.window_ideas RunResult.started_utc
                           RunResult.finished_utc RunResult.email_sent RunResult.message].
      repeat (split; [reflexivity|]). repeat split; assumption.
    + (* failed *)
      destruct (is_exception exc) eqn:Hexc.
      2: { injection Hrun as _ <-. specialize (Hraise exc eq_refl). congruence. }
      destruct (run_body_raise_untouched _ _ _ _ _ _ _ _ _ _ _ _ Hbody)
        as [Hlogs (evs & Hcalls & Hquiet)].
      unfold run_failed in Hrun.
      destruct (now_or_clock_total now s2) as (w & finished & Hfin).
      unfold bind at 1 in Hrun. rewrite Hfin in Hrun.
      unfold finish_run, bind, log, on_db, ret, raise in Hrun.
      cbn [fst snd State.db State.calls State.world] in Hrun.
      injection Hrun as <- <-.
      exists finished, "failed", 0, 0, 0, false. eexists. eexists.
      cbn [State.db State.calls].
      split.
      { exact (finish_run_closes_new_row (Db.run_logs (State.db s)) _ (State.db s2)
                 _ _ _ _ _ _ _ Hlogs eq_refl). }
      split; [rewrite Hcalls; unfold s1; cbn [State.calls]; rewrite <- !app_assoc;
              reflexivity|].
      split; [rewrite filter_app, (filter_run_events_none _ Hquiet); reflexivity|].
      right. left. repeat (split; [reflexivity|]). exists exc. split; reflexivity.
Qed.

(** The row that a run on its storage adds to the run log, however the
    run ends: it is a success only when the day had none. *)
Lemma run_logged_row config period reddit_client notifier now (s s' : State.t W) runtime r :
  run_logged config period reddit_client notifier now runtime s = (s', r) ->
  exists row,
    Db.run_logs (State.db s') = Db.run_logs (State.db s) ++ [row]
    /\ RunLogRow.period row = period
    /\ RunLogRow.run_day_utc row = datetime.day runtime
    /\ (RunLogRow.status row = "success" ->
        Storage.has_successful_run_on_day period (datetime.day runtime) (State.db s)
        = false).
Proof.
  intros Hrun.
  assert (Hcases : (forall exc, r = Raise exc -> is_exception exc = true)
                   \/ exists exc, r = Raise exc /\ is_exception exc = false).
  { destruct r as [res|exc]; [left; discriminate|].
    destruct (is_exception exc) eqn:E; [left; congruence | right; eauto]. }
  destruct Hcases as [Hraise|(exc & -> & Hexc)].
  - destruct (run_logged_outcome _ _ _ _ _ _ _ _ _ Hrun Hraise)
      as (finished & status & fetched & extracted & window & sent & message & evs
          & Hlogs & _ & _ & Hcases).
    eexists. split; [exact Hlogs|]. split; [reflexivity|]. split; [reflexivity|].
    cbn [closed_row RunLogRow.status]. intros ->.
    destruct Hcases as [Hskip|[Hfail|Hok]].
    + destruct Hskip as (_ & [=] & _).
    + now destruct Hfail as (? & _).
    + now destruct Hok as (? & _).
  - rewrite run_logged_unfold in Hrun.
    destruct (Storage.has_successful_run_on_day period (datetime.day runtime) (State.db s))
      eqn:Hskip.
    + destruct (run_logged_skips config period reddit_client notifier now s runtime Hskip)
        as (s'' & result & finished & Hskipped & _).
      rewrite run_logged_unfold, Hskip in Hskipped. congruence.
    + unfold try_except in Hrun.
      match type of Hrun with
      | match run_body ?a1 ?a2 ?a3 ?a4 ?a5 ?a6 ?a7 ?a8 ?a9 ?s1 with _ => _ end = _ =>
          destruct (run_body a1 a2 a3 a4 a5 a6 a7 a8 a9 s1) as [s2 [res|exc']] eqn:Hbody
      end; [discriminate Hrun|].
      destruct (is_exception exc') eqn:Hexc'.
      * unfold run_failed in Hrun.
        destruct (now_or_clock_total now s2) as (w & finished & Hfin).
        unfold bind at 1 in Hrun. rewrite Hfin in Hrun.
        unfold finish_run, bind, log, on_db, ret, raise in Hrun.
        injection Hrun as _ <-. congruence.
      * injection Hrun as <- _.
        destruct (run_body_raise_untouched _ _ _ _ _ _ _ _ _ _ _ _ Hbody) as [Hlogs _].
        eexists. split; [exact Hlogs|]. split; [reflexivity|]. split; [reflexivity|].
        discriminate.
Qed.
End RunLoggedOutcome.


Lemma successes_on_app period run_day_utc db rows row :
  Db.run_logs db = rows ++ [row] ->
  successes_on period run_day_utc db
  = filter (fun row => Storage.is_success_of period row
                       && String.eqb (RunLogRow.run_day_utc row) run_day_utc) rows
    ++ (if Storage.is_success_of period row
           && String.eqb (RunLogRow.run_day_utc row) run_day_utc
        then [row] else []).
Proof.
  intros E. unfold successes_on. rewrite E, filter_app. f_equal.
  destruct (Storage.is_success_of period row
            && String.eqb (RunLogRow.run_day_utc row) run_day_utc) eqn:Et.
  - rewrite filter_cons_True by (rewrite Et; exact I). reflexivity.
  - rewrite filter_cons_False by (rewrite Et; intros []). reflexivity.
Qed.

Lemma no_success_on_day period run_day_utc db :
  Storage.has_successful_run_on_day period run_day_utc db = false ->
  successes_on period run_day_utc db = [].
Proof.
  unfold Storage.has_successful_run_on_day, successes_on. intros Hnone.
  induction (Db.run_logs db) as [|row rows IH]; [reflexivity|].
  simpl in Hnone. apply orb_false_iff in Hnone as [Hrow Hrows].
  rewrite filter_cons_False by (rewrite Hrow; intros []). auto.
Qed.

Section RunOnceFurther.
Context `{Libm} `{Calendar} {W : Type} `{Outside W}.

(** X18. A run of a valid period that has made its directories and opened
    its storage, and that returns or raises an instance of [Exception],
    adds one row to the run log and closes it: the row has the next id,
    the period, the day and the start time of the run and a finish time;
    its status and counts are those of the result when the run returns,
    and [failed] with zero counts and the text of the exception when it
    raises. [start_run] and [finish_run] are each called once. *)
Theorem every_run_closes_its_row config period reddit_client notifier now
  (m m1 m' : Machine.t W) runtime storage r :
  period = "daily" \/ period = "weekly" ->
  run_setup config now m = (m1, Return (runtime, storage)) ->
  run_once config period reddit_client notifier now m = (m', r) ->
  (forall exc, r = Raise exc -> is_exception exc = true) ->
  let db := Machine.db (db_path config) m in
  let run_id := Storage.next_run_id (Db.run_logs db) in
  exists row finished,
    Db.run_logs (Machine.db (db_path config) m') = Db.run_logs db ++ [row]
    /\ RunLogRow.run_id row = run_id
    /\ RunLogRow.period row = period
    /\ RunLogRow.run_day_utc row = datetime.day runtime
    /\ RunLogRow.run_started_utc row = datetime.timestamp runtime
    /\ RunLogRow.run_finished_utc row = Some finished
    /\ filter (fun ev => is_run_event ev) (Machine.calls m')
       = filter (fun ev => is_run_event ev) (Machine.calls m)
         ++ [EvStartRun run_id; EvFinishRun run_id (RunLogRow.status row)]
    /\ match r with
       | Return res =>
           RunLogRow.status row = RunResult.status res
           /\ (RunResult.status res = "success"
               \/ RunResult.status res = "skipped_same_day")
           /\ RunLogRow.fetched_posts row = RunResult.fetched_posts res
           /\ RunLogRow.extracted_ideas row = RunResult.extracted_ideas res
           /\ RunLogRow.window_ideas row = RunResult.window_ideas res
           /\ RunLogRow.email_sent row = (if RunResult.email_sent res then 1 else 0)
           /\ RunLogRow.message row = RunResult.message res
           /\ RunResult.finished_utc res = finished
       | Raise exc =>
           RunLogRow.status row = "failed"
           /\ RunLogRow.fetched_posts row = 0
           /\ RunLogRow.extracted_ideas row = 0
           /\ RunLogRow.window_ideas row = 0
           /\ RunLogRow.email_sent row = 0
           /\ RunLogRow.message row = f_string [type_name (exc_cls exc); ": "; exc_str exc]
       end.
Proof.
  intros Hperiod Hsetup Hrun Hraise db run_id. subst run_id db.
  rewrite (run_once_after_setup _ _ _ _ _ _ _ _ _ Hperiod Hsetup) in Hrun.
  destruct (run_logged _ _ _ _ _ _ _) as [s' r'] eqn:Hlogged.
  injection Hrun as <- <-.
  destruct (run_logged_outcome _ _ _ _ _ _ _ _ _ Hlogged Hraise)
    as (finished & status & fetched & extracted & window & sent & message & evs
        & Hlogs & Hcalls & Hrunev & Hcases).
  cbn [State.db State.calls] in Hlogs, Hcalls.
  rewrite db_storage_done, String.eqb_refl.
  eexists _, (datetime.timestamp finished). split; [exact Hlogs|].
  cbn [closed_row RunLogRow.run_id RunLogRow.period RunLogRow.run_day_utc
       RunLogRow.run_started_utc RunLogRow.run_finished_utc RunLogRow.status
       RunLogRow.fetched_posts RunLogRow.extracted_ideas RunLogRow.window_ideas
       RunLogRow.email_sent RunLogRow.message].
  repeat (split; [reflexivity|]).
  split.
  { cbn [storage_done Machine.calls].
    rewrite Hcalls, filter_app, filter_cons_True by exact I. now rewrite Hrunev. }
  destruct Hcases as [Hskip|[Hfail|Hok]].
  - destruct Hskip as (_ & -> & -> & -> & -> & -> & _ & _ & _ & ->). simpl.
    repeat split; auto.
  - destruct Hfail as (_ & -> & -> & -> & -> & -> & exc & -> & ->). repeat split.
  - destruct Hok as (_ & -> & sf & posts & db1 & db2 & shown & res & Hok). cbv zeta in Hok.
    destruct Hok as (-> & _ & _ & _ & _ & _ & _ & _ & _ & _ & _ & Hst & Hf & He & Hw & _
                     & Hfin & Hsent & Hmsg & _).
    rewrite Hst, Hf, He, Hw, Hsent, Hmsg, Hfin. repeat split; auto.
Qed.


(** X20. After a run that returned with the status [success], a run of
    the same period on the same database file, at a time whose day, as
    [strftime] writes it in the zone of that time, is the same, is
    skipped once it has made its directories and opened its storage: it
    returns with the status [skipped_same_day] and zero counts, calls
    nothing but [start_run] and [finish_run], and leaves the posts and
    the ideas as they are. *)
Theorem same_day_rerun_is_skipped config period reddit_client notifier now
  (s s0 s1 : Machine.t W) runtime res config' reddit_client' notifier' now'
  (s1' s2 : Machine.t W) runtime' storage' r :
  period = "daily" \/ period = "weekly" ->
  machine_now now s = (s0, Return runtime) ->
  run_once config period reddit_client notifier now s = (s1, Return res) ->
  RunResult.status res = "success" ->
  AppConfig.data_dir config' = AppConfig.data_dir config ->
  run_setup config' now' s1 = (s1', Return (runtime', storage')) ->
  datetime.day runtime' = datetime.day runtime ->
  run_once config' period reddit_client' notifier' now' s1 = (s2, r) ->
  let db1 := Machine.db (db_path config) s1 in
  let run_id := Storage.next_run_id (Db.run_logs db1) in
  (exists res',
     r = Return res'
     /\ RunResult.status res' = "skipped_same_day"
     /\ RunResult.fetched_posts res' = 0
     /\ RunResult.extracted_ideas res' = 0
     /\ RunResult.window_ideas res' = 0
     /\ RunResult.email_sent res' = false)
  /\ Machine.calls s2
     = Machine.calls s1 ++ [EvStartRun run_id; EvFinishRun run_id "skipped_same_day"]
  /\ Db.posts (Machine.db (db_path config) s2) = Db.posts db1
  /\ Db.ideas (Machine.db (db_path config) s2) = Db.ideas db1.
Proof.
  intros Hperiod Hnow Hrun Hstatus Hdir Hsetup' Hday Hrun' db1 run_id. subst run_id db1.
  assert (Hpath : db_path config' = db_path config) by (unfold db_path; now rewrite Hdir).
  apply (run_once_inv _ _ _ _ _ _ _ _ Hperiod) in Hrun
    as [(e & [=] & _)|(m1 & runtime0 & s' & Hsetup & Hlogged & Hdb & _ & _)].
  destruct (run_setup_inv _ _ _ _ _ _ Hsetup) as ((m0 & Hnow0) & _).
  rewrite Hnow in Hnow0. injection Hnow0 as _ <-.
  destruct (run_logged_outcome _ _ _ _ _ _ _ _ _ Hlogged ltac:(discriminate))
    as (finished & status & fetched & extracted & window & sent & message & evs
        & Hlogs & _ & _ & Hcases).
  assert (Hst : status = "success").
  { destruct Hcases as [Hskip|[Hfail|Hok]].
    - destruct Hskip as (_ & _ & _ & _ & _ & _ & _ & _ & _ & [= ->]). discriminate Hstatus.
    - destruct Hfail as (_ & _ & _ & _ & _ & _ & exc & [=] & _).
    - now destruct Hok as (_ & -> & _). }
  subst status. clear Hcases.
  assert (Hdone : Storage.has_successful_run_on_day period (datetime.day runtime')
                    (Machine.db (db_path config') s1) = true).
  { rewrite Hpath, Hdb. unfold Storage.has_successful_run_on_day.
    rewrite Hlogs, existsb_app. simpl.
    unfold Storage.is_success_of. simpl. rewrite Hday, !String.eqb_refl. simpl.
    now rewrite orb_true_r. }
  destruct (stored_success_skips_the_run config' period reddit_client' notifier' now'
              s1 s1' runtime' storage' Hperiod Hsetup' Hdone)
    as (m' & result & finished' & Hskipped & Hs1 & Hs2 & Hs3 & Hs4 & Hs5 & _ & Hposts
        & Hideas & Hcalls).
  rewrite Hrun' in Hskipped. injection Hskipped as -> ->.
  rewrite Hpath in Hposts, Hideas, Hcalls.
  split; [exists result; repeat split; assumption|].
  split; [exact Hcalls|]. split; assumption.
Qed.

(** X21. A run of a valid period, however it ends, keeps every database
    file free of a second successful run of a period under one stored
    day. *)
Theorem one_success_a_day_is_kept config period reddit_client notifier now
  (s s' : Machine.t W) r path :
  period = "daily" \/ period = "weekly" ->
  one_success_a_day (Machine.db path s) ->
  run_once config period reddit_client notifier now s = (s', r) ->
  one_success_a_day (Machine.db path s').
Proof.
  intros Hperiod Hinv Hrun.
  apply (run_once_inv _ _ _ _ _ _ _ _ Hperiod) in Hrun
    as [(e & _ & _ & _ & Hdisk)|(m1 & runtime & s1 & _ & Hlogged & Hdb & _ & Hframe)].
  { unfold Machine.db. rewrite Hdisk. exact Hinv. }
  destruct (String.eqb_spec path (db_path config)) as [->|Hother];
    [|rewrite (Hframe _ Hother); exact Hinv].
  rewrite Hdb. intros period' day'.
  destruct (run_logged_row _ _ _ _ _ _ _ _ _ Hlogged) as (row & Hlogs & Hp & Hd & Hnone).
  cbn [State.db] in Hlogs, Hnone.
  rewrite (successes_on_app _ _ _ _ _ Hlogs).
  fold (successes_on period' day' (Machine.db (db_path config) s)).
  specialize (Hinv period' day'). rewrite length_app.
  unfold Storage.is_success_of. rewrite Hp, Hd.
  destruct (String.eqb_spec period period') as [<-|Hne]; [|simpl; lia].
  destruct (String.eqb_spec (RunLogRow.status row) "success") as [Hs|Hs]; [|simpl; lia].
  destruct (String.eqb_spec (datetime.day runtime) day') as [<-|Hne]; [|simpl; lia].
  simpl. rewrite (no_success_on_day _ _ _ (Hnone Hs)). simpl. lia.
Qed.

(** X22. [run_once] takes the period without regard to case and to blanks
    around it; for a period other than [daily] and [weekly] it raises a
    [ValueError] and does nothing else, not even [start_run]. *)
Theorem run_once_checks_the_period config period reddit_client notifier now
  (s : Machine.t W) :
  let normal := PyStr.strip (PyStr.lower period) in
  (normal <> "daily" -> normal <> "weekly" ->
   run_once config period reddit_client notifier now s
   = (s, Raise (Exception ValueError "period must be either 'daily' or 'weekly'")))
  /\ (normal = "daily" \/ normal = "weekly" ->
      run_once config period reddit_client notifier now s
      = run_once config normal reddit_client notifier now s).
Proof.
  cbv zeta. split.
  - intros Hd Hw. unfold run_once.
    assert (Hmem : PyStr.mem (PyStr.strip (PyStr.lower period)) ["daily"; "weekly"] = false).
    { unfold PyStr.mem. cbn [existsb]. rewrite orb_false_r. apply orb_false_iff.
      rewrite !String.eqb_neq. auto. }
    rewrite Hmem. reflexivity.
  - intros Hnormal. unfold run_once.
    destruct (valid_period_normal _ Hnormal) as [Hagain _]. rewrite Hagain. reflexivity.
Qed.
End RunOnceFurther.

(** ** reddit_client.py: [fetch_new_posts_since] *)

Section FetchFacts.
Context {N : Type} `{RedditEndpoint N}.

Lemma parse_post_id child subreddit post :
  Reddit._parse_post child subreddit = Some post ->
  has_id child = true /\ PyStr.truthy (RedditPost.post_id post) = true
  /\ RedditPost.created_utc post = default 0 (Child.created_utc child).
Proof.
  unfold Reddit._parse_post, has_id. destruct (Child.id child) as [post_id|]; [|discriminate].
  destruct (PyStr.truthy post_id) eqn:E; [|discriminate]. simpl.
  intros [= <-]. auto.
Qed.

Lemma parse_post_has_id child subreddit :
  has_id child = true -> exists post, Reddit._parse_post child subreddit = Some post.
Proof.
  unfold Reddit._parse_post, has_id. destruct (Child.id child) as [post_id|]; [|discriminate].
  intros ->. simpl. eauto.
Qed.

(** The posts that the loop over the children of a page appends: none is
    older than the floor, and they do not take the list beyond the cap. *)
Lemma children_loop_appends children subreddit since_utc normalized_max posts posts' stop :
  Reddit.children_loop children subreddit since_utc normalized_max posts = (posts', stop) ->
  exists new,
    posts' = posts ++ new
    /\ Forall (fun post => since_utc <= RedditPost.created_utc post
                           /\ PyStr.truthy (RedditPost.post_id post) = true) new
    /\ (Z.of_nat (length posts) < normalized_max ->
        Z.of_nat (length posts') <= normalized_max).
Proof.
  revert posts. induction children as [|child rest IH]; intros posts; simpl.
  - intros [= <- <-]. exists []. rewrite app_nil_r. split; [reflexivity|].
    split; [constructor | lia].
  - destruct (Reddit._parse_post child subreddit) as [post|] eqn:Ep; [|apply IH].
    apply parse_post_id in Ep as (_ & Hid & _).
    destruct (Z.ltb_spec (RedditPost.created_utc post) since_utc) as [Hold|Hnew].
    + intros [= <- <-]. exists []. rewrite app_nil_r. split; [reflexivity|].
      split; [constructor | lia].
    + destruct (Z.leb_spec normalized_max (Z.of_nat (length (posts ++ [post])))) as [Hfull|Hroom].
      * intros [= <- <-]. exists [post]. split; [reflexivity|].
        split; [repeat constructor; assumption|].
        rewrite length_app. simpl. lia.
      * intros E. destruct (IH _ E) as (new & -> & Hnew' & Hcap).
        exists (post :: new). rewrite <- app_assoc. split; [reflexivity|].
        split; [constructor; [split|]; assumption|].
        intros _. rewrite (app_assoc posts [post] new). apply Hcap. exact Hroom.
Qed.

(** With an id in every child, the loop over a page that has children
    sets [stop] or appends a post. *)
Lemma children_loop_progress children subreddit since_utc normalized_max posts posts' stop :
  Forall (fun child => has_id child = true) children -> children <> [] ->
  Reddit.children_loop children subreddit since_utc normalized_max posts = (posts', stop) ->
  stop = true \/ (length posts < length posts')%nat.
Proof.
  intros Hids Hne. destruct children as [|child rest]; [congruence|].
  apply Forall_cons in Hids as [Hid _]. simpl.
  destruct (parse_post_has_id child subreddit Hid) as [post ->].
  destruct (RedditPost.created_utc post <? since_utc); [intros [= _ <-]; now left|].
  destruct (normalized_max <=? Z.of_nat (length (posts ++ [post]))).
  - intros [= <- _]. right. rewrite length_app. simpl. lia.
  - intros E. apply children_loop_appends in E as (new & -> & _). right.
    rewrite !length_app. simpl. lia.
Qed.

Lemma get_json_loop_sends_ids remaining attempt (self self' : Reddit.t N) url last_error
  payload :
  sends_ids ->
  Reddit.get_json_loop remaining attempt self url last_error = (self', Return payload) ->
  Forall (fun child => has_id child = true) (Listing.children payload).
Proof.
  intros Hids. revert attempt self last_error.
  induction remaining as [|remaining IH]; intros attempt self last_error; simpl.
  - destruct last_error; discriminate.
  - destruct (reddit_urlopen _ _ _ _) as [n [p|exc]] eqn:E.
    + intros [= _ <-]. eapply Hids. eassumption.
    + destruct (retried exc); [apply IH | discriminate].
Qed.

(** A query is in order for a cap when its [limit] lies between 1 and
    100 and does not exceed the cap. *)
#[local] Abbreviation query_ok normalized_max :=
  (fun query : Z * option string =>
     1 <= fst query <= 100 /\ fst query <= normalized_max).

#[local] Abbreviation post_ok since_utc :=
  (fun post => since_utc <= RedditPost.created_utc post
               /\ PyStr.truthy (RedditPost.post_id post) = true).

Lemma fetch_pages_bounds fuel (self : Reddit.t N) subreddit since_utc normalized_max posts
  after queries result :
  Reddit.fetch_pages fuel self subreddit since_utc normalized_max posts after queries
  = Some result ->
  Forall (post_ok since_utc) posts ->
  Z.of_nat (length posts) <= normalized_max ->
  (exists sent,
     Reddit.fr_queries result = queries ++ sent
     /\ Forall (query_ok normalized_max) sent
     /\ (length sent <= fuel)%nat
     /\ (posts = [] -> after = None ->
         match sent with
         | [] => True
         | first :: _ => first = (Z.min normalized_max 100, None)
         end))
  /\ forall returned,
       Reddit.fr_result result = Return returned ->
       Forall (post_ok since_utc) returned
       /\ Z.of_nat (length returned) <= normalized_max.
Proof.
  revert self posts after queries.
  induction fuel as [|fuel IH]; intros self posts after queries; cbn [Reddit.fetch_pages].
  - destruct (Z.ltb_spec (Z.of_nat (length posts)) normalized_max) as [Hroom|Hfull];
      cbn [negb]; [discriminate|].
    intros [= <-] Hposts Hlen. simpl. split.
    + exists []. rewrite app_nil_r. split; [reflexivity|]. split; [constructor|].
      split; [simpl; lia | auto].
    + intros returned [= <-]. auto.
  - destruct (Z.ltb_spec (Z.of_nat (length posts)) normalized_max) as [Hroom|Hfull];
      cbn [negb].
    2: { intros [= <-] Hposts Hlen. simpl. split.
         - exists []. rewrite app_nil_r. split; [reflexivity|]. split; [constructor|].
           split; [simpl; lia | auto].
         - intros returned [= <-]. auto. }
    set (limit := Z.min (normalized_max - Z.of_nat (length posts)) 100).
    assert (Hquery : query_ok normalized_max (limit, after)) by (unfold limit; simpl; lia).
    assert (Hfirst : posts = [] -> after = None ->
                     (limit, after) = (Z.min normalized_max 100, None)).
    { intros -> ->. unfold limit. simpl. f_equal. f_equal. lia. }
    assert (Hone : forall (self1 : Reddit.t N) (r : outcome (list RedditPost.t)),
               (forall returned, r = Return returned ->
                  Forall (post_ok since_utc) returned
                  /\ Z.of_nat (length returned) <= normalized_max) ->
               (exists sent,
                  Reddit.fr_queries
                    (Reddit.mk_fetch_result self1 (queries ++ [(limit, after)]) r)
                  = queries ++ sent
                  /\ Forall (query_ok normalized_max) sent
                  /\ (length sent <= S fuel)%nat
                  /\ (posts = [] -> after = None ->
                      match sent with
                      | [] => True
                      | first :: _ => first = (Z.min normalized_max 100, None)
                      end))
               /\ forall returned,
                    Reddit.fr_result
                      (Reddit.mk_fetch_result self1 (queries ++ [(limit, after)]) r)
                    = Return returned ->
                    Forall (post_ok since_utc) returned
                    /\ Z.of_nat (length returned) <= normalized_max).
    { intros self1 r Hr. split; [|exact Hr].
      exists [(limit, after)]. split; [reflexivity|]. split; [repeat constructor; apply Hquery|].
      split; [simpl; lia | exact Hfirst]. }
    destruct (Reddit._get_json self _) as [self1 [payload|e]].
    2: { intros [= <-] Hposts Hlen. apply Hone. discriminate. }
    destruct (Listing.children payload) as [|child rest] eqn:Echildren.
    { intros [= <-] Hposts Hlen. apply Hone. intros returned [= <-]. auto. }
    cbv beta iota.
    destruct (Reddit.children_loop (child :: rest) subreddit since_utc normalized_max posts)
      as [posts1 stop] eqn:Eloop.
    intros E Hposts Hlen.
    destruct (children_loop_appends _ _ _ _ _ _ _ Eloop) as (new & -> & Hnew & Hcap).
    specialize (Hcap Hroom).
    assert (Hposts1 : Forall (post_ok since_utc) (posts ++ new))
      by (apply Forall_app; split; assumption).
    assert (Hdone : forall returned,
               @Return (list RedditPost.t) (posts ++ new) = Return returned ->
               Forall (post_ok since_utc) returned
               /\ Z.of_nat (length returned) <= normalized_max)
      by (intros returned [= <-]; auto).
    revert E. destruct (Listing.after payload) as [a|].
    2: { intros [= <-]. apply Hone. exact Hdone. }
    destruct (negb (PyStr.truthy a) || stop).
    { intros [= <-]. apply Hone. exact Hdone. }
    intros E.
    destruct (IH _ _ _ _ E Hposts1 Hcap) as [(sent & Hq & Hsent & Hcount & _) Hret].
    split; [|exact Hret].
    exists ((limit, after) :: sent). rewrite Hq, <- app_assoc. split; [reflexivity|].
    split; [constructor; [apply Hquery | assumption]|].
    split; [simpl; lia | exact Hfirst].
Qed.

Lemma fetch_pages_total fuel (self : Reddit.t N) subreddit since_utc normalized_max posts
  after queries :
  sends_ids ->
  normalized_max <= Z.of_nat fuel + Z.of_nat (length posts) ->
  exists result,
    Reddit.fetch_pages fuel self subreddit since_utc normalized_max posts after queries
    = Some result.
Proof.
  intros Hids. revert self posts after queries.
  induction fuel as [|fuel IH]; intros self posts after queries Hfuel; cbn [Reddit.fetch_pages].
  - destruct (Z.ltb_spec (Z.of_nat (length posts)) normalized_max); cbn [negb]; [lia | eauto].
  - destruct (Z.ltb_spec (Z.of_nat (length posts)) normalized_max); cbn [negb]; [|eauto].
    destruct (Reddit._get_json self _) as [self1 [payload|e]] eqn:Ejson; [|eauto].
    apply get_json_loop_sends_ids in Ejson; [|exact Hids].
    destruct (Listing.children payload) as [|child rest] eqn:Echildren; [eauto|].
    cbv beta iota.
    destruct (Reddit.children_loop (child :: rest) subreddit since_utc normalized_max posts)
      as [posts1 stop] eqn:Eloop.
    destruct (Listing.after payload) as [a|]; [|eauto].
    destruct (children_loop_progress _ _ _ _ _ _ _ Ejson ltac:(discriminate) Eloop)
      as [->|Hmore].
    + rewrite orb_true_r. eauto.
    + destruct (negb (PyStr.truthy a) || stop); [eauto|]. apply IH. lia.
Qed.

Lemma fetch_pages_more_fuel fuel extra (self : Reddit.t N) subreddit since_utc normalized_max
  posts after queries result :
  Reddit.fetch_pages fuel self subreddit since_utc normalized_max posts after queries
  = Some result ->
  Reddit.fetch_pages (fuel + extra) self subreddit since_utc normalized_max posts after queries
  = Some result.
Proof.
  revert self posts after queries.
  induction fuel as [|fuel IH]; intros self posts after queries;
    cbn [Reddit.fetch_pages Nat.add].
  - destruct (negb (Z.of_nat (length posts) <? normalized_max)) eqn:E; [|discriminate].
    intros [= <-]. destruct extra; cbn [Reddit.fetch_pages]; now rewrite E.
  - destruct (negb (Z.of_nat (length posts) <? normalized_max)); [auto|].
    destruct (Reddit._get_json self _) as [self1 [payload|e]]; [|auto].
    destruct (Listing.children payload) as [|child rest]; [auto|].
    cbv beta iota.
    destruct (Reddit.children_loop _ _ _ _ _) as [posts1 stop].
    destruct (Listing.after payload) as [a|]; [|auto].
    destruct (negb (PyStr.truthy a) || stop); [auto|]. apply IH.
Qed.

(** X23. When [fetch_new_posts_since] ends, each of its requests asked
    for between 1 and 100 posts and for no more than
    [max(max_posts, 1)], the first of them for
    [min(max(max_posts, 1), 100)] posts and without [after]; and when it
    returns, it returns at most [max(max_posts, 1)] posts, none of them
    created before [since_utc] and none without an id. *)
Theorem fetch_respects_floor_and_cap fuel (self : Reddit.t N) subreddit since_utc max_posts
  result :
  Reddit.fetch_new_posts_since fuel self subreddit since_utc max_posts = Some result ->
  let normalized_max := Z.max max_posts 1 in
  Forall (fun query => 1 <= fst query <= 100 /\ fst query <= normalized_max)
    (Reddit.fr_queries result)
  /\ match Reddit.fr_queries result with
     | [] => True
     | first :: _ => first = (Z.min normalized_max 100, None)
     end
  /\ forall returned,
       Reddit.fr_result result = Return returned ->
       Z.of_nat (length returned) <= normalized_max
       /\ Forall (fun post => since_utc <= RedditPost.created_utc post
                              /\ PyStr.truthy (RedditPost.post_id post) = true) returned.
Proof.
  intros E. cbv zeta. unfold Reddit.fetch_new_posts_since in E. cbv zeta in E.
  destruct (fetch_pages_bounds _ _ _ _ _ _ _ _ _ E) as [(sent & Hq & Hsent & _ & Hfirst) Hret].
  { constructor. }
  { simpl. lia. }
  simpl in Hq. rewrite Hq. split; [exact Hsent|]. split; [now apply Hfirst|].
  intros returned Hr. destruct (Hret _ Hr). auto.
Qed.

(** X24. When Reddit sends no child without an id, the loop of
    [fetch_new_posts_since] ends within [max(max_posts, 1)] iterations:
    the call ends, and with the same result however many more iterations
    it is allowed. *)
Theorem fetch_ends_within_the_cap (self : Reddit.t N) subreddit since_utc max_posts :
  sends_ids ->
  exists result,
    forall fuel,
      (Z.to_nat (Z.max max_posts 1) <= fuel)%nat ->
      Reddit.fetch_new_posts_since fuel self subreddit since_utc max_posts = Some result.
Proof.
  intros Hids. unfold Reddit.fetch_new_posts_since.
  destruct (fetch_pages_total (Z.to_nat (Z.max max_posts 1)) self subreddit since_utc
              (Z.max max_posts 1) [] None [] Hids) as [result E].
  { simpl. lia. }
  exists result. intros fuel Hfuel.
  replace fuel with (Z.to_nat (Z.max max_posts 1) + (fuel - Z.to_nat (Z.max max_posts 1)))%nat
    by lia.
  now apply fetch_pages_more_fuel.
Qed.
End FetchFacts.

(** ** config.py: [_csv_to_list] *)

Lemma lstrip_head s :
  PyStr.lstrip s = EmptyString
  \/ exists c t, PyStr.lstrip s = String c t /\ PyStr.is_space c = false.
Proof.
  induction s as [|c s IH]; [now left|]. cbn [PyStr.lstrip].
  destruct (PyStr.is_space c) eqn:E; [exact IH|]. right. eauto.
Qed.

Lemma rstrip_head c t :
  PyStr.is_space c = false -> exists r, PyStr.rstrip (String c t) = String c r.
Proof.
  intros E. cbn [PyStr.rstrip]. destruct (PyStr.rstrip t); [rewrite E|]; eauto.
Qed.

Lemma rstrip_idem s : PyStr.rstrip (PyStr.rstrip s) = PyStr.rstrip s.
Proof.
  induction s as [|c s IH]; [reflexivity|]. cbn [PyStr.rstrip].
  destruct (PyStr.rstrip s) as [|d r] eqn:E.
  - destruct (PyStr.is_space c) eqn:Ec; [reflexivity|].
    cbn [PyStr.rstrip]. now rewrite Ec.
  - cbn [PyStr.rstrip]. cbn [PyStr.rstrip] in IH. now rewrite IH.
Qed.

Lemma strip_idem s : PyStr.strip (PyStr.strip s) = PyStr.strip s.
Proof.
  unfold PyStr.strip.
  destruct (lstrip_head s) as [->|(c & t & -> & Ec)]; [reflexivity|].
  destruct (rstrip_head c t Ec) as [r Er]. rewrite Er.
  cbn [PyStr.lstrip]. rewrite Ec, <- Er. apply rstrip_idem.
Qed.

Lemma lstrip_has_char c s :
  PyStr.has_char c s = false -> PyStr.has_char c (PyStr.lstrip s) = false.
Proof.
  induction s as [|d s IH]; [reflexivity|]. cbn [PyStr.lstrip].
  destruct (PyStr.is_space d); [|auto].
  cbn [PyStr.has_char]. intros [_ E]%orb_false_iff. auto.
Qed.

Lemma rstrip_has_char c s :
  PyStr.has_char c s = false -> PyStr.has_char c (PyStr.rstrip s) = false.
Proof.
  induction s as [|d s IH]; [reflexivity|]. cbn [PyStr.rstrip PyStr.has_char].
  intros [Ed E]%orb_false_iff. specialize (IH E).
  destruct (PyStr.rstrip s) as [|e r].
  - destruct (PyStr.is_space d); [reflexivity|]. cbn [PyStr.has_char]. now rewrite Ed.
  - cbn [PyStr.has_char] in *. now rewrite Ed, IH.
Qed.

Lemma strip_has_char c s :
  PyStr.has_char c s = false -> PyStr.has_char c (PyStr.strip s) = false.
Proof. intros E. unfold PyStr.strip. now apply rstrip_has_char, lstrip_has_char. Qed.

(** No piece of [s.split(sep)] holds the separator. *)
Lemma split_from_has_char sep s p ps :
  PyStr.split_from sep s = (p, ps) ->
  PyStr.has_char sep p = false /\ Forall (fun piece => PyStr.has_char sep piece = false) ps.
Proof.
  revert p ps. induction s as [|c s IH]; intros p ps; cbn [PyStr.split_from].
  - intros [= <- <-]. split; [reflexivity | constructor].
  - destruct (PyStr.split_from sep s) as [q qs]. destruct (IH _ _ eq_refl) as [Hq Hqs].
    destruct (Ascii.eqb c sep) eqn:E; intros [= <- <-].
    + split; [reflexivity | now constructor].
    + split; [|assumption]. cbn [PyStr.has_char]. now rewrite Ascii.eqb_sym, E.
Qed.

Lemma split_has_char sep s :
  Forall (fun piece => PyStr.has_char sep piece = false) (PyStr.split sep s).
Proof.
  unfold PyStr.split. destruct (PyStr.split_from sep s) as [p ps] eqn:E.
  apply split_from_has_char in E as [Hp Hps]. now constructor.
Qed.

(** [sep.join(items).split(sep)] gives the items back when none of them
    holds the separator and there is at least one. *)
Lemma split_join sep items :
  Forall (fun item => PyStr.has_char sep item = false) items -> items <> [] ->
  PyStr.split sep (PyStr.join sep items) = items.
Proof.
  unfold PyStr.split. induction 1 as [|item rest Hitem Hrest IH]; [congruence|]. intros _.
  destruct rest as [|item2 rest].
  - cbn [PyStr.join]. rewrite <- (append_empty_r item) at 1.
    rewrite (split_from_app _ _ _ Hitem). cbn [PyStr.split_from].
    now rewrite append_empty_r.
  - change (PyStr.join sep (item :: item2 :: rest))
      with (String.append item (String sep (PyStr.join sep (item2 :: rest)))).
    rewrite (split_from_app _ _ _ Hitem). cbn [PyStr.split_from].
    destruct (PyStr.split_from sep (PyStr.join sep (item2 :: rest))) as [p ps] eqn:E.
    rewrite Ascii.eqb_refl, append_empty_r. f_equal. apply IH. discriminate.
Qed.

Lemma stripped_items_clean items :
  Forall (fun item => PyStr.truthy item = true /\ PyStr.strip item = item)
    (stripped_items items).
Proof.
  unfold stripped_items. apply Forall_fmap, Forall_forall. intros item Hin.
  apply list_elem_of_filter in Hin as [Hkeep _]. apply andb_prop_elim in Hkeep as [_ Hkeep].
  simpl. split; [now apply Is_true_eq_true | apply strip_idem].
Qed.

Lemma stripped_items_has_char c items :
  Forall (fun item => PyStr.has_char c item = false) items ->
  Forall (fun item => PyStr.has_char c item = false) (stripped_items items).
Proof.
  intros H. unfold stripped_items. apply Forall_fmap, Forall_forall. intros item Hin.
  apply list_elem_of_filter in Hin as [_ Hin]. simpl. apply strip_has_char.
  rewrite Forall_forall in H. auto.
Qed.

Lemma stripped_items_fixed items :
  Forall (fun item => PyStr.truthy item = true /\ PyStr.strip item = item) items ->
  stripped_items items = items.
Proof.
  unfold stripped_items. induction 1 as [|item rest [Hitem Hstrip] Hrest IH]; [reflexivity|].
  rewrite filter_cons_True by (rewrite Hstrip, Hitem; exact I).
  rewrite fmap_cons, Hstrip. f_equal. exact IH.
Qed.

(** X25. The items that [_csv_to_list] makes of a list or of a string are
    not empty and have no whitespace at either end, those made of a
    string hold no comma, and the default has no part in the result. *)
Theorem csv_items_are_stripped value default :
  value <> CsvNone ->
  Forall (fun item => PyStr.truthy item = true /\ PyStr.strip item = item)
    (_csv_to_list value default)
  /\ (forall text, value = CsvStr text ->
        Forall (fun item => PyStr.has_char "," item = false) (_csv_to_list value default))
  /\ forall other, _csv_to_list value other = _csv_to_list value default.
Proof.
  intros Hvalue. destruct value as [|items|text]; [congruence| |]; simpl.
  - split; [apply stripped_items_clean|]. split; [discriminate | reflexivity].
  - split; [apply stripped_items_clean|]. split; [|reflexivity].
    intros _ _. apply stripped_items_has_char, split_has_char.
Qed.

(** X26. For items without a comma, [_csv_to_list] makes the same list of
    their [",".join] as of the list of them; and when the items are not
    empty and have no whitespace at either end, that list is the list of
    the items. *)
Theorem csv_text_reads_as_the_list items default :
  Forall (fun item => PyStr.has_char "," item = false) items ->
  _csv_to_list (CsvStr (PyStr.join "," items)) default = _csv_to_list (CsvList items) default
  /\ (Forall (fun item => PyStr.truthy item = true /\ PyStr.strip item = item) items ->
      _csv_to_list (CsvStr (PyStr.join "," items)) default = items).
Proof.
  intros Hcomma.
  assert (Hsame : _csv_to_list (CsvStr (PyStr.join "," items)) default
                  = _csv_to_list (CsvList items) default).
  { simpl. destruct items as [|item rest]; [reflexivity|].
    rewrite split_join; [reflexivity | assumption | discriminate]. }
  split; [exact Hsame|]. intros Hclean. rewrite Hsame. simpl.
  now apply stripped_items_fixed.
Qed.

(** ** Instances on the data of the tests *)

Lemma upserts_keep_post_id_unique_witness :
  exists db1 db2,
    Storage.upsert_posts llm_test_posts 1700000100 Db.empty = Return db1
    /\ Storage.upsert_ideas llm_test_ideas 1700000100 db1 = Return db2
    /\ NoDup (map IdeaRow.post_id (Db.ideas db2))
    /\ map PostRow.post_id (Db.posts db2) = ["1"; "2"; "3"].
Proof.
  destruct (Storage.upsert_posts llm_test_posts 1700000100 Db.empty) as [db1|e] eqn:Hp;
    [|vm_compute in Hp; discriminate Hp].
  destruct (Storage.upsert_ideas llm_test_ideas 1700000100 db1) as [db2|e] eqn:Hi;
    [|vm_compute in Hp; injection Hp as <-; vm_compute in Hi; discriminate Hi].
  destruct (Storage.upsert_posts llm_test_posts 1700000100 db1) as [db3|e] eqn:Hp3;
    [|vm_compute in Hp; injection Hp as <-; vm_compute in Hp3; discriminate Hp3].
  destruct (upserts_keep_post_id_unique llm_test_posts llm_test_ideas 1700000100 db1 db3 db2
              Hp3 Hi) as (_ & Hunique & _ & _).
  exists db1, db2. split; [first [exact Hp | reflexivity]|]. split; [first [exact Hi | reflexivity]|]. split.
  - apply Hunique. vm_compute in Hp. injection Hp as <-. constructor.
  - vm_compute in Hp. injection Hp as <-. vm_compute in Hi. injection Hi as <-. reflexivity.
Defined.

Lemma upserts_are_idempotent_witness :
  exists db1 db2,
    Storage.upsert_posts llm_test_posts 1700000100 Db.empty = Return db1
    /\ Storage.upsert_ideas llm_test_ideas 1700000100 Db.empty = Return db2
    /\ Storage.upsert_posts llm_test_posts 1700000100 db1 = Return db1
    /\ Storage.upsert_ideas llm_test_ideas 1700000100 db2 = Return db2.
Proof.
  destruct (Storage.upsert_posts llm_test_posts 1700000100 Db.empty) as [db1|e] eqn:Hp;
    [|vm_compute in Hp; discriminate Hp].
  destruct (Storage.upsert_ideas llm_test_ideas 1700000100 Db.empty) as [db2|e] eqn:Hi;
    [|vm_compute in Hi; discriminate Hi].
  destruct (upserts_are_idempotent llm_test_posts llm_test_ideas 1700000100 Db.empty db1 db2
              Hp Hi) as [Hp2 Hi2].
  exists db1, db2. split; [first [exact Hp | reflexivity]|]. split; [first [exact Hi | reflexivity]|]. split; assumption.
Defined.

Lemma upserts_write_the_last_of_an_id_witness :
  let older := test_idea "1" "Automate reporting for ops teams" 4.0%float 1700000000 in
  let newer := test_idea "1" "Automate reporting for ops teams" 6.73%float 1700000000 in
  exists db2 row,
    Storage.upsert_ideas [older; newer] 1700000100 Db.empty = Return db2
    /\ row_of_key IdeaRow.post_id "1" (Db.ideas db2) = Some row
    /\ IdeaRow.relevance_score row = 6.73%float
    /\ row_of_key IdeaRow.post_id "2" (Db.ideas db2) = None.
Proof.
  intros older newer.
  destruct (Storage.upsert_posts [] 1700000100 Db.empty) as [db1|e] eqn:Hp;
    [|discriminate Hp].
  destruct (Storage.upsert_ideas [older; newer] 1700000100 Db.empty) as [db2|e] eqn:Hi;
    [|vm_compute in Hi; discriminate Hi].
  destruct (upserts_write_the_last_of_an_id [] [older; newer] 1700000100 Db.empty db1 db2
              Hp Hi) as [_ Hrow].
  exists db2. eexists. split; [first [exact Hi | reflexivity]|].
  split; [rewrite (Hrow "1"); reflexivity|].
  split; [reflexivity|]. rewrite (Hrow "2"). reflexivity.
Defined.

Lemma stored_scores_are_numbers_witness :
  exists db',
    Storage.upsert_ideas llm_test_ideas 1700000100 Db.empty = Return db'
    /\ Forall (fun row => PyFloat.is_number (IdeaRow.relevance_score row)) (Db.ideas db')
    /\ exists e,
         Storage.upsert_ideas
           [IdeaCandidate.set_relevance_score PrimFloat.nan
              (test_idea "1" "Automate reporting for ops teams" 4.0%float 1700000000)]
           1700000100 db'
         = Raise e
         /\ exc_cls e = IntegrityError.
Proof.
  destruct (Storage.upsert_ideas llm_test_ideas 1700000100 Db.empty) as [db'|e] eqn:Hi;
    [|vm_compute in Hi; discriminate Hi].
  destruct (stored_scores_are_numbers llm_test_ideas 1700000100 Db.empty db' Hi)
    as [_ Hkept].
  exists db'. split; [first [exact Hi | reflexivity]|]. split; [apply Hkept; constructor|].
  eexists. split.
  - vm_compute in Hi. injection Hi as <-. reflexivity.
  - reflexivity.
Defined.

Lemma get_ideas_since_window_witness :
  exists db' ideas,
    Storage.upsert_ideas llm_test_ideas 1700000100 Db.empty = Return db'
    /\ Storage.get_ideas_since 1700000010 db' = Return ideas
    /\ map IdeaCandidate.post_id ideas = ["2"; "3"]
    /\ StronglySorted ranked_before ideas.
Proof.
  destruct (Storage.upsert_ideas llm_test_ideas 1700000100 Db.empty) as [db'|e] eqn:Hi;
    [|vm_compute in Hi; discriminate Hi].
  assert (Hnum : Forall (fun row => PyFloat.is_number (IdeaRow.relevance_score row))
                   (Db.ideas db')).
  { vm_compute in Hi. injection Hi as <-. repeat constructor. }
  destruct (get_ideas_since_window 1700000010 db' Hnum) as [Hread _].
  destruct (Hread eq_refl) as (ideas & Hideas & _ & _ & Hsorted).
  exists db', ideas. split; [first [exact Hi | reflexivity]|]. split; [exact Hideas|].
  split; [|exact Hsorted].
  vm_compute in Hi. injection Hi as <-. vm_compute in Hideas. injection Hideas as <-.
  reflexivity.
Defined.

Lemma list_run_logs_newest_first_witness :
  let db := Machine.db "data/reddit_ideas.db" state_after_noon_run in
  0 < 2 ^ 63
  /\ exists logs,
       Storage.list_run_logs 0 db = Return logs
       /\ map RunLog.status logs = ["success"].
Proof.
  intros db.
  assert (Hlimit : 0 < 2 ^ 63) by (vm_compute; reflexivity).
  split; [exact Hlimit|].
  destruct (list_run_logs_newest_first 0 db Hlimit) as (shown & omitted & Hlogs & _).
  exists (map Storage.run_log_of_row shown). split; [exact Hlogs|].
  assert (E : Storage.list_run_logs 0 db
              = Return (map Storage.run_log_of_row (Db.run_logs db))) by reflexivity.
  rewrite E in Hlogs. injection Hlogs as <-. reflexivity.
Defined.

Lemma run_ids_stay_unique_witness :
  let db := Machine.db "data/reddit_ideas.db" state_after_noon_run in
  NoDup (map RunLogRow.run_id (Db.run_logs db))
  /\ snd (Storage.start_run "weekly" "2026-02-12" 1770897700 db) = 2
  /\ NoDup (map RunLogRow.run_id
              (Db.run_logs (fst (Storage.start_run "weekly" "2026-02-12" 1770897700 db)))).
Proof.
  intros db.
  assert (Hnd : NoDup (map RunLogRow.run_id (Db.run_logs db))).
  { repeat constructor; set_solver. }
  destruct (run_ids_stay_unique "weekly" "2026-02-12" 1770897700 db Hnd) as (_ & Hkept & _).
  split; [exact Hnd|]. split; [reflexivity | exact Hkept].
Defined.

Lemma every_run_closes_its_row_witness :
  let config := test_config ["vibecoding"] 168 None in
  exists s' res row,
    @run_once sample_libm sample_calendar _ fake_outside config "daily"
      (Some pipeline_client) (Some FakeNotifier) (Some noon) fresh_state
    = (s', Return res)
    /\ Db.run_logs (Machine.db (db_path config) s') = [row]
    /\ RunLogRow.status row = "success"
    /\ RunLogRow.fetched_posts row = 1
    /\ RunLogRow.run_finished_utc row = Some (datetime.timestamp noon).
Proof.
  intros config.
  set (m1 := fst (@run_setup _ fake_outside config (Some noon) fresh_state)).
  assert (Hsetup : @run_setup _ fake_outside config (Some noon) fresh_state
                   = (m1, Return (noon, db_path config))) by (vm_compute; reflexivity).
  destruct (@run_once sample_libm sample_calendar _ fake_outside config "daily"
              (Some pipeline_client) (Some FakeNotifier) (Some noon) fresh_state)
    as [s' [res|e]] eqn:Hrun; [|vm_compute in Hrun; discriminate Hrun].
  destruct (@every_run_closes_its_row sample_libm sample_calendar _ fake_outside config
              "daily" (Some pipeline_client) (Some FakeNotifier) (Some noon)
              fresh_state m1 s' noon (db_path config) (Return res) (or_introl eq_refl)
              Hsetup Hrun ltac:(discriminate))
    as (row & finished & Hlogs & _ & _ & _ & _ & Hfin & _ & Hst & _ & Hf & _ & _ & _ & _ & Hres).
  exists s', res, row. split; [first [exact Hrun | reflexivity]|]. split; [exact Hlogs|].
  assert (Hr : RunResult.status res = "success" /\ RunResult.fetched_posts res = 1
               /\ RunResult.finished_utc res = datetime.timestamp noon).
  { vm_compute in Hrun. injection Hrun as _ <-. repeat split. }
  destruct Hr as (Hr1 & Hr2 & Hr3).
  split; [congruence|]. split; [congruence|]. rewrite Hfin. congruence.
Defined.


Lemma same_day_rerun_is_skipped_witness :
  let config := test_config ["vibecoding"] 168 None in
  exists s1 res s2 res',
    @run_once sample_libm sample_calendar _ fake_outside config "daily"
      (Some pipeline_client) (Some FakeNotifier) (Some noon) fresh_state
    = (s1, Return res)
    /\ @run_once sample_libm sample_calendar _ fake_outside config "daily"
         (Some pipeline_client) (Some FakeNotifier) (Some noon) s1
       = (s2, Return res')
    /\ RunResult.status res' = "skipped_same_day"
    /\ Db.posts (Machine.db (db_path config) s2) = Db.posts (Machine.db (db_path config) s1).
Proof.
  intros config.
  destruct (@run_once sample_libm sample_calendar _ fake_outside config "daily"
              (Some pipeline_client) (Some FakeNotifier) (Some noon) fresh_state)
    as [s1 [res|e]] eqn:Hrun; [|vm_compute in Hrun; discriminate Hrun].
  assert (Hstatus : RunResult.status res = "success").
  { vm_compute in Hrun. injection Hrun as _ <-. reflexivity. }
  assert (Hs1 : s1 = state_after_noon_run).
  { vm_compute in Hrun. injection Hrun as <- _. reflexivity. }
  set (s1' := fst (@run_setup _ fake_outside config (Some noon) state_after_noon_run)).
  assert (Hsetup : @run_setup _ fake_outside config (Some noon) s1
                   = (s1', Return (noon, db_path config)))
    by (rewrite Hs1; vm_compute; reflexivity).
  destruct (@run_once sample_libm sample_calendar _ fake_outside config "daily"
              (Some pipeline_client) (Some FakeNotifier) (Some noon) s1)
    as [s2 r] eqn:Hrun'.
  destruct (@same_day_rerun_is_skipped sample_libm sample_calendar _ fake_outside
              config "daily" (Some pipeline_client) (Some FakeNotifier) (Some noon)
              fresh_state fresh_state s1 noon res config (Some pipeline_client)
              (Some FakeNotifier) (Some noon) s1' s2 noon (db_path config) r
              (or_introl eq_refl) eq_refl Hrun Hstatus eq_refl Hsetup eq_refl Hrun')
    as ((res' & -> & Hskipped & _) & _ & Hposts & _).
  exists s1, res, s2, res'. split; [first [exact Hrun | reflexivity]|].
  split; [first [exact Hrun' | reflexivity]|]. split; assumption.
Defined.

Lemma one_success_a_day_is_kept_witness :
  let config := test_config ["vibecoding"] 168 None in
  one_success_a_day (Machine.db (db_path config) fresh_state)
  /\ one_success_a_day
       (Machine.db (db_path config)
          (fst (@run_once sample_libm sample_calendar _ fake_outside config "daily"
                  (Some pipeline_client) (Some FakeNotifier) (Some noon)
                  state_after_noon_run))).
Proof.
  intros config.
  assert (Hempty : one_success_a_day (Machine.db (db_path config) fresh_state)).
  { change (Machine.db (db_path config) fresh_state) with Db.empty.
    intros p d. simpl. lia. }
  split; [exact Hempty|].
  destruct (@run_once sample_libm sample_calendar _ fake_outside config "daily"
              (Some pipeline_client) (Some FakeNotifier) (Some noon) fresh_state)
    as [s1 r1] eqn:Hrun1.
  pose proof (@one_success_a_day_is_kept sample_libm sample_calendar _ fake_outside
                config "daily" (Some pipeline_client) (Some FakeNotifier) (Some noon)
                fresh_state s1 r1 (db_path config) (or_introl eq_refl) Hempty Hrun1) as Hone.
  assert (Hs1 : s1 = state_after_noon_run).
  { vm_compute in Hrun1. injection Hrun1 as <- _. reflexivity. }
  rewrite Hs1 in Hone.
  destruct (@run_once sample_libm sample_calendar _ fake_outside config "daily"
              (Some pipeline_client) (Some FakeNotifier) (Some noon) state_after_noon_run)
    as [s2 r2] eqn:Hrun2.
  exact (@one_success_a_day_is_kept sample_libm sample_calendar _ fake_outside
           config "daily" (Some pipeline_client) (Some FakeNotifier) (Some noon)
           state_after_noon_run s2 r2 (db_path config) (or_introl eq_refl) Hone Hrun2).
Defined.

Lemma fetch_respects_floor_and_cap_witness :
  exists result,
    @Reddit.fetch_new_posts_since nat (paged_endpoint test_pages) 5 test_reddit "vibecoding"
      1770033250 10
    = Some result
    /\ Reddit.fr_queries result = [(10, None); (8, Some "t3_p3")]
    /\ exists returned,
         Reddit.fr_result result = Return returned
         /\ map RedditPost.post_id returned = ["p4"; "p3"]
         /\ Forall (fun post => 1770033250 <= RedditPost.created_utc post
                                /\ PyStr.truthy (RedditPost.post_id post) = true) returned.
Proof.
  destruct (@Reddit.fetch_new_posts_since nat (paged_endpoint test_pages) 5 test_reddit
              "vibecoding" 1770033250 10) as [result|] eqn:E;
    [|vm_compute in E; discriminate E].
  destruct (@fetch_respects_floor_and_cap nat (paged_endpoint test_pages) 5 test_reddit
              "vibecoding" 1770033250 10 result E) as (_ & _ & Hret).
  exists result. split; [reflexivity|].
  assert (Hq : Reddit.fr_queries result = [(10, None); (8, Some "t3_p3")]
               /\ exists returned,
                    Reddit.fr_result result = Return returned
                    /\ map RedditPost.post_id returned = ["p4"; "p3"]).
  { vm_compute in E. injection E as <-. split; [reflexivity|].
    eexists. split; reflexivity. }
  destruct Hq as [Hq (returned & Hr & Hids)].
  split; [exact Hq|]. exists returned. split; [exact Hr|]. split; [exact Hids|].
  apply (Hret returned Hr).
Defined.

Lemma test_pages_send_ids : @sends_ids nat (paged_endpoint test_pages).
Proof.
  intros n url user_agent timeout n' payload [= _ <-].
  destruct n as [|[|n]]; [repeat constructor .. |].
  destruct n; constructor.
Qed.

Lemma fetch_ends_within_the_cap_witness :
  @sends_ids nat (paged_endpoint test_pages)
  /\ exists result,
       @Reddit.fetch_new_posts_since nat (paged_endpoint test_pages) 3 test_reddit "vibecoding"
         0 3
       = Some result
       /\ @Reddit.fetch_new_posts_since nat (paged_endpoint test_pages) 7 test_reddit
            "vibecoding" 0 3
          = Some result.
Proof.
  split; [exact test_pages_send_ids|].
  destruct (@fetch_ends_within_the_cap nat (paged_endpoint test_pages) test_reddit "vibecoding"
              0 3 test_pages_send_ids) as [result Hresult].
  exists result. split; apply Hresult; simpl; lia.
Defined.

Lemma csv_items_are_stripped_witness :
  CsvStr " vibecoding, ,side hustle,," <> CsvNone
  /\ _csv_to_list (CsvStr " vibecoding, ,side hustle,,") ["startups"]
     = ["vibecoding"; "side hustle"]
  /\ Forall (fun item => PyStr.truthy item = true /\ PyStr.strip item = item)
       (_csv_to_list (CsvStr " vibecoding, ,side hustle,,") ["startups"]).
Proof.
  split; [discriminate|]. split; [reflexivity|].
  apply (csv_items_are_stripped (CsvStr " vibecoding, ,side hustle,,") ["startups"]).
  discriminate.
Defined.

Lemma csv_text_reads_as_the_list_witness :
  Forall (fun item => PyStr.has_char "," item = false) ["vibecoding"; "side hustle"]
  /\ PyStr.join "," ["vibecoding"; "side hustle"] = "vibecoding,side hustle"
  /\ _csv_to_list (CsvStr (PyStr.join "," ["vibecoding"; "side hustle"])) []
     = _csv_to_list (CsvList ["vibecoding"; "side hustle"]) []
  /\ _csv_to_list (CsvStr (PyStr.join "," ["vibecoding"; "side hustle"])) []
     = ["vibecoding"; "side hustle"].
Proof.
  assert (Hcomma : Forall (fun item => PyStr.has_char "," item = false)
                     ["vibecoding"; "side hustle"])
    by (repeat constructor).
  destruct (csv_text_reads_as_the_list ["vibecoding"; "side hustle"] [] Hcomma)
    as [Hsame Hitems].
  split; [exact Hcomma|]. split; [reflexivity|]. split; [exact Hsame|].
  apply Hitems. repeat constructor.
Defined.
